(** * Adaptive Random Forest (scikit-multiflow): a shallow embedding

    Source: [skmultiflow/classification/meta/adaptive_random_forests.py].

    The three classes of the file are embedded as three modules that keep
    the source's names: [ARFBaseClassifierEvaluator], [ARFBaseLearner] and
    [AdaptiveRandomForest].  Python methods mutate [self]; they are
    embedded as computations of a small state-and-exception monad whose
    outcome keeps the object as it is when the method returns or raises.

    Numbers.  Python [int]s are [Z].  The [float]s that are only added,
    multiplied and compared (weights, votes, the evaluator's aggregate)
    are exact rationals [Q]: there the embedding follows the arithmetic of
    the source and leaves rounding of IEEE doubles out.  A [max_features]
    fraction is an IEEE 754 binary64 number, since [int(max_features * n)]
    truncates a product that was rounded to a double first.
    [round(math.sqrt(n))] and [round(math.log2(n))] are the nearest integer
    to the exact square root and binary logarithm, computed on integers. *)

From Stdlib Require Import ZArith QArith Qround String List Bool Lia SpecFloat.
From stdpp Require Import base list.
Import ListNotations.

Local Open Scope Z_scope.

(* ===================================================================== *)
(** * Python values, exceptions, and the method monad                     *)
(* ===================================================================== *)

(** The exceptions that the embedded code can raise. *)
Inductive exn : Type :=
| AttributeError   (* a method called through [None] *)
| IndexError       (* a list indexed out of range *)
| TypeError        (* [None] subscripted *)
| ValueError       (* [math] domain error, [int] of a NaN *)
| OverflowError.   (* [int] of an infinity, [float] of an int too large *)

(** What a method call leaves behind: the returned value and the object,
    or the exception and the object as the exception found it. *)
Inductive outcome (S A : Type) : Type :=
| Return (a : A) (s : S)
| Raise (e : exn) (s : S).
Arguments Return {S A} a s.
Arguments Raise {S A} e s.

Definition final_state {S A} (o : outcome S A) : S :=
  match o with Return _ s => s | Raise _ s => s end.

Definition returned {S A} (o : outcome S A) : option A :=
  match o with Return a _ => Some a | Raise _ _ => None end.

Definition raised {S A} (o : outcome S A) : option exn :=
  match o with Return _ _ => None | Raise e _ => Some e end.

(** A method on an object of type [S] returning an [A]. *)
Definition M (S A : Type) : Type := S -> outcome S A.

Definition ret {S A} (a : A) : M S A := fun s => Return a s.

Definition bind {S A B} (c : M S A) (k : A -> M S B) : M S B :=
  fun s => match c s with
           | Return a s' => k a s'
           | Raise e s' => Raise e s'
           end.

Definition raise {S A} (e : exn) : M S A := fun s => Raise e s.
Definition gets {S A} (f : S -> A) : M S A := fun s => Return (f s) s.
Definition modify {S} (f : S -> S) : M S unit := fun s => Return tt (f s).

Declare Scope py_scope.
Delimit Scope py_scope with py.
Notation "x <- c ;; k" := (bind c (fun x => k))
  (at level 100, c at next level, right associativity) : py_scope.
Notation "c ;; k" := (bind c (fun _ => k))
  (at level 100, right associativity) : py_scope.
Local Open Scope py_scope.

(** [for i in range: acc = body(i, acc)]: a loop that carries the local
    variables [acc] through its iterations. *)
Fixpoint for_fold {S I A} (range : list I) (body : I -> A -> M S A) (acc : A)
  : M S A :=
  match range with
  | [] => ret acc
  | i :: range' => acc' <- body i acc ;; for_fold range' body acc'
  end.

(** [for i in range: body(i)] and [for i in range(n): body(i)] *)
Definition for_each {S I} (range : list I) (body : I -> M S unit) : M S unit :=
  for_fold range (fun i _ => body i) tt.

Definition for_range {S} (n : nat) (body : nat -> M S unit) : M S unit :=
  for_each (seq 0 n) body.

(** Assertions on methods.  [triple P c Q E]: started on an object that
    satisfies [P], the method [c] either returns a value and an object
    related by [Q], or raises and leaves an object that satisfies [E].
    [preserves Inv c]: the method keeps [Inv], however it ends. *)
Definition triple {S A} (P : S -> Prop) (c : M S A) (Q : A -> S -> Prop)
    (E : S -> Prop) : Prop :=
  forall s, P s ->
    match c s with
    | Return a s' => Q a s'
    | Raise _ s' => E s'
    end.

Definition preserves {S A} (Inv : S -> Prop) (c : M S A) : Prop :=
  triple Inv c (fun _ => Inv) Inv.

(** A Python [float] whose rounding matters: an IEEE 754 binary64 number,
    with 53 bits of precision and exponents below 1024. *)
Definition float : Type := spec_float.
Definition float_prec : Z := 53.
Definition float_emax : Z := 1024.

(** The Python values that reach the constructor's dynamically typed
    parameters; [PyObject] carries an instance of a class of interest. *)
Inductive PyValue (O : Type) : Type :=
| PyNone
| PyStr (s : string)
| PyInt (z : Z)
| PyFloat (x : float)
| PyObject (o : O).
Arguments PyNone {O}.
Arguments PyStr {O} s.
Arguments PyInt {O} z.
Arguments PyFloat {O} x.
Arguments PyObject {O} o.

(** [copy.deepcopy] of an immutable value. *)
Definition deepcopy {A} (a : A) : A := a.

(* ===================================================================== *)
(** * Numbers                                                             *)
(* ===================================================================== *)

(** [a > b], [q > 0], [q != 0.0] on floats. *)
Definition Qgt_bool (a b : Q) : bool := negb (Qle_bool a b).
Definition Qpositive (q : Q) : bool := Qgt_bool q 0.
Definition Qnonzero (q : Q) : bool := negb (Qeq_bool q 0).

(** [float(n)], the conversion that [x * n] applies to an int operand: the
    nearest double, a tie going to the even one; [OverflowError] when [n]
    is too large for a double. *)
Definition float_of_int (n : Z) : exn + float :=
  match binary_normalize float_prec float_emax n 0 false with
  | S754_infinity _ => inl OverflowError
  | x => inr x
  end.

(** [x * y] on floats: the exact product rounded to the nearest double. *)
Definition float_mul (x y : float) : float := SFmul float_prec float_emax x y.

(** [p / q] on ints that doubles hold exactly: the double nearest to the
    ratio, which is also the double that the decimal literal of the ratio
    denotes ([float_of_ratio 58 100] is [0.58]). *)
Definition float_of_ratio (p q : Z) : float :=
  SFdiv float_prec float_emax
    (binary_normalize float_prec float_emax p 0 false)
    (binary_normalize float_prec float_emax q 0 false).

(** [int(x)] on a float: truncation toward zero; [OverflowError] on an
    infinity, [ValueError] on a NaN. *)
Definition int_of_float (x : float) : exn + Z :=
  match x with
  | S754_zero _ => inr 0
  | S754_finite s m e =>
      inr (cond_Zopp s (if 0 <=? e then Zpos m * 2 ^ e else Zpos m / 2 ^ (- e)))
  | S754_infinity _ => inl OverflowError
  | S754_nan => inl ValueError
  end.

(** The number that a finite float stands for. *)
Definition Q_of_float (x : float) : Q :=
  match x with
  | S754_finite s m e =>
      if 0 <=? e then inject_Z (cond_Zopp s (Zpos m * 2 ^ e))
      else Qmake (cond_Zopp s (Zpos m)) (Z.to_pos (2 ^ (- e)))
  | _ => 0
  end.

(** [round(x)] on a float: nearest integer, halves to the even one. *)
Definition py_round (q : Q) : Z :=
  let f := Qfloor q in
  let twice_frac := (2 * (q - inject_Z f))%Q in
  if Qle_bool twice_frac 1
  then if Qeq_bool twice_frac 1
       then (if Z.even f then f else f + 1)
       else f
  else f + 1.

(** [round(math.sqrt(n))] for an integer [n >= 0]: with [s] the integer
    square root, the result is [s] when [n <= s*s + s] (that is
    [sqrt n < s + 1/2]) and [s + 1] otherwise. *)
Definition round_sqrt (n : Z) : Z :=
  let s := Z.sqrt n in
  if n - s * s <=? s then s else s + 1.

(** [round(math.log2(n))] for an integer [n > 0]: the [k] with
    [k - 1/2 <= log2 n < k + 1/2], read off the logarithm of [n*n]. *)
Definition round_log2 (n : Z) : Z := (Z.log2 (n * n) + 1) / 2.

(** [int(not b)] *)
Definition int_not (b : bool) : Z := if b then 0 else 1.

(* ===================================================================== *)
(** * Dictionaries keyed by label, in insertion order                     *)
(* ===================================================================== *)

(** A vote mapping [label -> score] is a Python [dict]: its iteration
    order is the order of insertion, which [max(votes, key=votes.get)]
    observes.  It is a list of items with distinct keys. *)
Definition label : Type := Z.
Definition votes : Type := list (label * Q).

Definition keys (d : votes) : list label := map fst d.
Definition values (d : votes) : list Q := map snd d.

(** [sum(d.values())] *)
Definition sum_values (d : votes) : Q := fold_left Qplus (values d) 0%Q.

(** [d.get(k)] *)
Fixpoint dict_get (d : votes) (k : label) : option Q :=
  match d with
  | [] => None
  | (k', v) :: d' => if Z.eqb k' k then Some v else dict_get d' k
  end.

(** The score of a label, [0] for a label that is not a key. *)
Definition score (d : votes) (k : label) : Q :=
  match dict_get d k with Some v => v | None => 0%Q end.

(** [for k in d: d[k] = f(d[k])]: the keys keep their places. *)
Definition map_values (f : Q -> Q) (d : votes) : votes :=
  map (fun '(k, v) => (k, f v)) d.

(** [try: d[k] += v  except KeyError: d[k] = v]: an existing key keeps its
    place, a new key goes last. *)
Fixpoint dict_add (d : votes) (k : label) (v : Q) : votes :=
  match d with
  | [] => [(k, v)]
  | (k', v') :: d' =>
      if Z.eqb k' k then (k', (v' + v)%Q) :: d'
      else (k', v') :: dict_add d' k v
  end.

(** [for k in vote: combined[k] += vote[k]] (with the [KeyError] path) *)
Definition add_values (combined vote : votes) : votes :=
  fold_left (fun acc '(k, v) => dict_add acc k v) vote combined.

(** Modelled from the spec: [normalize_values_in_dict] is imported from the
    tree package and is not among the sources; the specification has it
    "normalize the non-empty mapping so its values sum to 1", that is,
    divide every value by the sum of the values. *)
Definition normalize_values_in_dict (d : votes) : votes :=
  let factor := sum_values d in
  map_values (fun v => (v / factor)%Q) d.

(** [max(d, key=d.get)] on a non-empty dict: keys are visited in insertion
    order and the running maximum is replaced only by a strictly greater
    value, so the first key holding the maximum wins. *)
Fixpoint max_from (best : label * Q) (rest : votes) : label :=
  match rest with
  | [] => fst best
  | (k, v) :: rest' =>
      if Qgt_bool v (snd best) then max_from (k, v) rest'
      else max_from best rest'
  end.

Definition max_key (d : votes) : option label :=
  match d with
  | [] => None
  | kv :: rest => Some (max_from kv rest)
  end.

(* ===================================================================== *)
(** * class ARFBaseClassifierEvaluator                                    *)
(* ===================================================================== *)

Module ARFBaseClassifierEvaluator.

Record t : Type := mk {
  aggregation : Q;
  length : Z
}.

(** [__init__] *)
Definition __init__ : t := {| aggregation := 0; length := 0 |}.

(** [update(y_predicted, y, weight)] *)
Definition update (y_predicted y : label) (weight : Q) (self : t) : t :=
  if Qpositive weight
  then {| aggregation :=
            (aggregation self + (if Z.eqb y_predicted y then weight else 0))%Q;
          length := length self |}
  else self.

(** [get_performance()] *)
Definition get_performance (self : t) : Q := (aggregation self * 100)%Q.

(** [reset()] *)
Definition reset (self : t) : t := {| aggregation := 0; length := 0 |}.

End ARFBaseClassifierEvaluator.

(** The value of the [evaluator_method] attributes: a class, called to
    build an evaluator.  The file has one such class. *)
Inductive evaluator_class : Type := ARFBaseClassifierEvaluator_class.

Definition call_evaluator_class (c : evaluator_class) : ARFBaseClassifierEvaluator.t :=
  match c with
  | ARFBaseClassifierEvaluator_class => ARFBaseClassifierEvaluator.__init__
  end.

(* ===================================================================== *)
(** * The collaborators the forest is written against                     *)
(* ===================================================================== *)

(** A row of features, and [INSTANCE_WEIGHT = np.array([1.0])]. *)
Definition instance : Type := list Q.
Definition INSTANCE_WEIGHT : Q := 1%Q.

(** [BaseDriftDetector]: the interface of the change detectors (ADWIN by
    default).  Its implementations are not part of this file. *)
Module BaseDriftDetector.
Class t (D : Type) : Type := {
  add_element : D -> Z -> D;
  detected_change : D -> bool;
  reset : D -> D
}.
End BaseDriftDetector.

(** [numpy.random.RandomState]: the one generator object that the forest
    and all its trees hold a reference to.  [poisson] is the generator
    where it returns: numpy raises [ValueError] for a negative [lam], and
    results on the training loop that need the draw to return say so. *)
Module RandomState.
Class t (R : Type) : Type := {
  poisson : R -> Q -> Z * R
}.
End RandomState.

(** [ARFHoeffdingTree]: the base classifier.  Training may draw from the
    shared generator (random feature subsets), so it takes the generator
    and gives it back. *)
Module ARFHoeffdingTree.
Class t (R C : Type) : Type := {
  (** [ARFHoeffdingTree(nominal_attributes=.., max_features=.., random_state=..)] *)
  new : option (list Z) -> Z -> C;
  partial_fit : C -> instance -> label -> Q -> R -> C * R;
  predict : C -> instance -> label;
  get_votes_for_instance : C -> instance -> votes;
  new_instance : C -> C;
  reset : C -> C
}.
End ARFHoeffdingTree.

(* ===================================================================== *)
(** * class ARFBaseLearner                                                 *)
(* ===================================================================== *)

Module ARFBaseLearner.
Section ARFBaseLearner.

Context {D R C : Type}.
Context `{Det : !BaseDriftDetector.t D} `{Tree : !ARFHoeffdingTree.t R C}.

Local Unset Elimination Schemes.
Inductive t : Type := mk {
  index_original : Z;
  classifier : C;
  created_on : Z;
  is_background_learner : bool;
  evaluator_method : evaluator_class;
  drift_detection_method : option D;
  warning_detection_method : option D;
  last_drift_on : Z;
  last_warning_on : Z;
  nb_drifts_detected : Z;
  nb_warnings_detected : Z;
  drift_detection : option D;
  warning_detection : option D;
  background_learner : option t;
  _use_drift_detector : bool;
  _use_background_learner : bool;
  evaluator : ARFBaseClassifierEvaluator.t
}.
Local Set Elimination Schemes.

(** Attribute assignments [self.f = v]. *)
Definition set_classifier (v : C) (self : t) : t :=
  let 'mk a1 _ a3 a4 a5 a6 a7 a8 a9 a10 a11 a12 a13 a14 a15 a16 a17 := self in
  mk a1 v a3 a4 a5 a6 a7 a8 a9 a10 a11 a12 a13 a14 a15 a16 a17.
Definition set_created_on (v : Z) (self : t) : t :=
  let 'mk a1 a2 _ a4 a5 a6 a7 a8 a9 a10 a11 a12 a13 a14 a15 a16 a17 := self in
  mk a1 a2 v a4 a5 a6 a7 a8 a9 a10 a11 a12 a13 a14 a15 a16 a17.
Definition set_evaluator_method (v : evaluator_class) (self : t) : t :=
  let 'mk a1 a2 a3 a4 _ a6 a7 a8 a9 a10 a11 a12 a13 a14 a15 a16 a17 := self in
  mk a1 a2 a3 a4 v a6 a7 a8 a9 a10 a11 a12 a13 a14 a15 a16 a17.
Definition set_last_drift_on (v : Z) (self : t) : t :=
  let 'mk a1 a2 a3 a4 a5 a6 a7 _ a9 a10 a11 a12 a13 a14 a15 a16 a17 := self in
  mk a1 a2 a3 a4 a5 a6 a7 v a9 a10 a11 a12 a13 a14 a15 a16 a17.
Definition set_last_warning_on (v : Z) (self : t) : t :=
  let 'mk a1 a2 a3 a4 a5 a6 a7 a8 _ a10 a11 a12 a13 a14 a15 a16 a17 := self in
  mk a1 a2 a3 a4 a5 a6 a7 a8 v a10 a11 a12 a13 a14 a15 a16 a17.
Definition set_nb_drifts_detected (v : Z) (self : t) : t :=
  let 'mk a1 a2 a3 a4 a5 a6 a7 a8 a9 _ a11 a12 a13 a14 a15 a16 a17 := self in
  mk a1 a2 a3 a4 a5 a6 a7 a8 a9 v a11 a12 a13 a14 a15 a16 a17.
Definition set_nb_warnings_detected (v : Z) (self : t) : t :=
  let 'mk a1 a2 a3 a4 a5 a6 a7 a8 a9 a10 _ a12 a13 a14 a15 a16 a17 := self in
  mk a1 a2 a3 a4 a5 a6 a7 a8 a9 a10 v a12 a13 a14 a15 a16 a17.
Definition set_drift_detection (v : option D) (self : t) : t :=
  let 'mk a1 a2 a3 a4 a5 a6 a7 a8 a9 a10 a11 _ a13 a14 a15 a16 a17 := self in
  mk a1 a2 a3 a4 a5 a6 a7 a8 a9 a10 a11 v a13 a14 a15 a16 a17.
Definition set_warning_detection (v : option D) (self : t) : t :=
  let 'mk a1 a2 a3 a4 a5 a6 a7 a8 a9 a10 a11 a12 _ a14 a15 a16 a17 := self in
  mk a1 a2 a3 a4 a5 a6 a7 a8 a9 a10 a11 a12 v a14 a15 a16 a17.
Definition set_background_learner (v : option t) (self : t) : t :=
  let 'mk a1 a2 a3 a4 a5 a6 a7 a8 a9 a10 a11 a12 a13 _ a15 a16 a17 := self in
  mk a1 a2 a3 a4 a5 a6 a7 a8 a9 a10 a11 a12 a13 v a15 a16 a17.
Definition set_evaluator (v : ARFBaseClassifierEvaluator.t) (self : t) : t :=
  let 'mk a1 a2 a3 a4 a5 a6 a7 a8 a9 a10 a11 a12 a13 a14 a15 a16 _ := self in
  mk a1 a2 a3 a4 a5 a6 a7 a8 a9 a10 a11 a12 a13 a14 a15 a16 v.

(** [__init__]: the two detectors are deep copies of the configured
    prototypes, and the two [_use_*] flags record which were given. *)
Definition __init__ (index_original : Z) (classifier : C) (instances_seen : Z)
    (evaluator_method : evaluator_class)
    (drift_detection_method warning_detection_method : option D)
    (is_background_learner : bool) : t :=
  {| index_original := index_original;
     classifier := classifier;
     created_on := instances_seen;
     is_background_learner := is_background_learner;
     evaluator_method := evaluator_method;
     drift_detection_method := drift_detection_method;
     warning_detection_method := warning_detection_method;
     last_drift_on := 0;
     last_warning_on := 0;
     nb_drifts_detected := 0;
     nb_warnings_detected := 0;
     drift_detection :=
       match drift_detection_method with
       | Some d => Some (deepcopy d)
       | None => None
       end;
     warning_detection :=
       match warning_detection_method with
       | Some d => Some (deepcopy d)
       | None => None
       end;
     background_learner := None;
     _use_drift_detector :=
       match drift_detection_method with Some _ => true | None => false end;
     _use_background_learner :=
       match warning_detection_method with Some _ => true | None => false end;
     evaluator := call_evaluator_class evaluator_method |}.

(** A method of the learner runs on the learner and the generator that
    its tree shares with the forest. *)
Definition method (A : Type) : Type := M (t * R) A.

Definition attr {A} (f : t -> A) : method A := gets (fun s => f (fst s)).
Definition assign (f : t -> t) : method unit :=
  modify (fun s => (f (fst s), snd s)).

(** [self.classifier.partial_fit(X, y, weight)] *)
Definition fit_classifier (X : instance) (y : label) (weight : Q) : method unit :=
  fun s =>
    let '(c, rs) := ARFHoeffdingTree.partial_fit (classifier (fst s)) X y weight (snd s) in
    Return tt (set_classifier c (fst s), rs).

(** [if self.background_learner:
       self.background_learner.classifier.partial_fit(X, y, INSTANCE_WEIGHT)] *)
Definition fit_background (X : instance) (y : label) : method unit :=
  fun s =>
    match background_learner (fst s) with
    | Some b =>
        let '(c, rs) :=
          ARFHoeffdingTree.partial_fit (classifier b) X y INSTANCE_WEIGHT (snd s) in
        Return tt (set_background_learner (Some (set_classifier c b)) (fst s), rs)
    | None => Return tt s
    end.

(** [reset(instances_seen)] *)
Definition reset (instances_seen : Z) : method unit :=
  use_bkg <- attr _use_background_learner ;;
  bkg <- attr background_learner ;;
  match use_bkg, bkg with
  | true, Some b =>
      assign (set_classifier (classifier b)) ;;
      assign (set_warning_detection (warning_detection b)) ;;
      assign (set_drift_detection (drift_detection b)) ;;
      assign (set_evaluator_method (evaluator_method b)) ;;
      assign (set_created_on (created_on b)) ;;
      assign (set_background_learner None)
  | _, _ =>
      assign (fun self => set_classifier (ARFHoeffdingTree.reset (classifier self)) self) ;;
      assign (set_created_on instances_seen) ;;
      dd <- attr drift_detection ;;
      match dd with
      | None => raise AttributeError
      | Some d => assign (set_drift_detection (Some (BaseDriftDetector.reset d)))
      end
  end ;;
  assign (fun self => set_evaluator (call_evaluator_class (evaluator_method self)) self).

(** [partial_fit], lines 321-348: train the classifier and the background
    classifier, evaluate the classifier and feed the warning detector.
    The value is [correctly_classifies]. *)
Definition train_and_check_warning (X : instance) (y : label) (weight : Q)
    (instances_seen : Z) : method bool :=
  fit_classifier X y weight ;;
  fit_background X y ;;
  use_dd <- attr _use_drift_detector ;;
  is_bkg <- attr is_background_learner ;;
  if use_dd && negb is_bkg then
    c <- attr classifier ;;
    let correctly_classifies := Z.eqb (ARFHoeffdingTree.predict c X) y in
    use_bkg <- attr _use_background_learner ;;
    (if use_bkg then
       wd <- attr warning_detection ;;
       match wd with
       | None => raise AttributeError
       | Some w =>
           let w := BaseDriftDetector.add_element w (int_not correctly_classifies) in
           assign (set_warning_detection (Some w)) ;;
           if BaseDriftDetector.detected_change w then
             assign (set_last_warning_on instances_seen) ;;
             assign (fun self =>
                       set_nb_warnings_detected (nb_warnings_detected self + 1) self) ;;
             assign (fun self =>
                       set_background_learner
                         (Some (__init__ (index_original self)
                                  (ARFHoeffdingTree.new_instance (classifier self))
                                  instances_seen
                                  (evaluator_method self)
                                  (drift_detection_method self)
                                  (warning_detection_method self)
                                  true))
                         self) ;;
             assign (set_warning_detection (Some (BaseDriftDetector.reset w)))
           else ret tt
       end
     else ret tt) ;;
    ret correctly_classifies
  else ret false.

(** [partial_fit], lines 350-357: feed the drift detector and reset the
    learner when it signals a change. *)
Definition update_drift_detection (correctly_classifies : bool)
    (instances_seen : Z) : method unit :=
  dd <- attr drift_detection ;;
  match dd with
  | None => raise AttributeError
  | Some d =>
      let d := BaseDriftDetector.add_element d (int_not correctly_classifies) in
      assign (set_drift_detection (Some d)) ;;
      if BaseDriftDetector.detected_change d then
        assign (set_last_drift_on instances_seen) ;;
        assign (fun self => set_nb_drifts_detected (nb_drifts_detected self + 1) self) ;;
        reset instances_seen
      else ret tt
  end.

(** [partial_fit(X, y, weight, instances_seen)] *)
Definition partial_fit (X : instance) (y : label) (weight : Q)
    (instances_seen : Z) : method unit :=
  correctly_classifies <- train_and_check_warning X y weight instances_seen ;;
  update_drift_detection correctly_classifies instances_seen.

(** [predict(X)] and [get_votes_for_instance(X)] *)
Definition predict (self : t) (X : instance) : label :=
  ARFHoeffdingTree.predict (classifier self) X.

Definition get_votes_for_instance (self : t) (X : instance) : votes :=
  ARFHoeffdingTree.get_votes_for_instance (classifier self) X.

(** The learner together with the background learners nested in it. *)
Fixpoint nested (self : t) : list t :=
  self :: match background_learner self with
          | Some b => nested b
          | None => []
          end.

End ARFBaseLearner.
Arguments t : clear implicits.
End ARFBaseLearner.

(* ===================================================================== *)
(** * class AdaptiveRandomForest                                           *)
(* ===================================================================== *)

(** Modelled from the spec: [get_dimensions] is imported from the tree
    package and is not among the sources.  A batch is a list of rows; its
    first dimension is its number of rows, and the second dimension of a
    row is its number of features. *)
Definition row_count {A} (X : list A) : nat := List.length X.
Definition feature_count (X : instance) : Z := Z.of_nat (List.length X).

Module AdaptiveRandomForest.
Section AdaptiveRandomForest.

Context {D R C : Type}.
Context `{Det : !BaseDriftDetector.t D} `{Rnd : !RandomState.t R}
        `{Tree : !ARFHoeffdingTree.t R C}.

(** [ensemble] is [None] until [init_ensemble], which first makes it
    [[None] * nb_ensemble] and then fills the slots. *)
Record t : Type := mk {
  nb_ensemble : Z;
  max_features : PyValue D;
  disable_weighted_vote : bool;
  lambda_value : Q;
  drift_detection_method : option D;
  warning_detection_method : option D;
  instances_seen : Z;
  _train_weight_seen_by_model : Q;
  ensemble : option (list (option (ARFBaseLearner.t D C)));
  nominal_attributes : option (list Z);
  random_state : R;
  _evaluator_method : evaluator_class
}.

Definition set_max_features (v : PyValue D) (self : t) : t :=
  let 'mk a1 _ a3 a4 a5 a6 a7 a8 a9 a10 a11 a12 := self in
  mk a1 v a3 a4 a5 a6 a7 a8 a9 a10 a11 a12.
Definition set_instances_seen (v : Z) (self : t) : t :=
  let 'mk a1 a2 a3 a4 a5 a6 _ a8 a9 a10 a11 a12 := self in
  mk a1 a2 a3 a4 a5 a6 v a8 a9 a10 a11 a12.
Definition set__train_weight_seen_by_model (v : Q) (self : t) : t :=
  let 'mk a1 a2 a3 a4 a5 a6 a7 _ a9 a10 a11 a12 := self in
  mk a1 a2 a3 a4 a5 a6 a7 v a9 a10 a11 a12.
Definition set_ensemble (v : option (list (option (ARFBaseLearner.t D C))))
    (self : t) : t :=
  let 'mk a1 a2 a3 a4 a5 a6 a7 a8 _ a10 a11 a12 := self in
  mk a1 a2 a3 a4 a5 a6 a7 a8 v a10 a11 a12.
Definition set_random_state (v : R) (self : t) : t :=
  let 'mk a1 a2 a3 a4 a5 a6 a7 a8 a9 a10 _ a12 := self in
  mk a1 a2 a3 a4 a5 a6 a7 a8 a9 a10 v a12.
Definition set__evaluator_method (v : evaluator_class) (self : t) : t :=
  let 'mk a1 a2 a3 a4 a5 a6 a7 a8 a9 a10 a11 _ := self in
  mk a1 a2 a3 a4 a5 a6 a7 a8 a9 a10 a11 v.

Definition method (A : Type) : Type := M t A.

(** [x if isinstance(x, BaseDriftDetector) else None] *)
Definition detector_or_None (x : PyValue D) : option D :=
  match x with
  | PyObject d => Some d
  | _ => None
  end.

(** [__init__].  [random_state] is the generator that
    [check_random_state] makes of the argument; [evaluator_method_metric]
    is accepted and not used. *)
Definition __init__ (nb_ensemble : Z) (max_features : PyValue D)
    (disable_weighted_vote : bool) (lambda_value : Q)
    (evaluator_method_metric : string)
    (drift_detection_method warning_detection_method : PyValue D)
    (nominal_attributes : option (list Z)) (random_state : R) : t :=
  {| nb_ensemble := nb_ensemble;
     max_features := max_features;
     disable_weighted_vote := disable_weighted_vote;
     lambda_value := lambda_value;
     drift_detection_method := detector_or_None drift_detection_method;
     warning_detection_method := detector_or_None warning_detection_method;
     instances_seen := 0;
     _train_weight_seen_by_model := 0;
     ensemble := None;
     nominal_attributes := nominal_attributes;
     random_state := random_state;
     _evaluator_method := ARFBaseClassifierEvaluator_class |}.

(** [_set_max_features], lines 207-221: the value before the sanity
    checks.  [math.sqrt] and [math.log2] raise [ValueError] outside their
    domains; [self.max_features * n] is a product of doubles, and [int]
    raises on a product that is not finite. *)
Definition max_features_of_policy (policy : PyValue D) (n : Z) : exn + Z :=
  match policy with
  | PyStr s =>
      if (String.eqb s "auto" || String.eqb s "sqrt")%bool then
        if n <? 0 then inl ValueError else inr (round_sqrt n)
      else if String.eqb s "log2" then
        if n <=? 0 then inl ValueError else inr (round_log2 n)
      else
        if n <? 0 then inl ValueError else inr (round_sqrt n)
  | PyInt z => inr z
  | PyFloat f =>
      match float_of_int n with
      | inl e => inl e
      | inr n' => int_of_float (float_mul f n')
      end
  | PyNone => inr n
  | PyObject _ =>
      if n <? 0 then inl ValueError else inr (round_sqrt n)
  end.

(** [_set_max_features], lines 222-232: the sanity checks. *)
Definition sanity_checks (max_features n : Z) : Z :=
  let max_features := if max_features <? 0 then max_features + n else max_features in
  let max_features := if max_features <=? 0 then 1 else max_features in
  if max_features >? n then n else max_features.

(** [_set_max_features(n)] *)
Definition _set_max_features (n : Z) : method unit :=
  policy <- gets max_features ;;
  match max_features_of_policy policy n with
  | inl e => raise e
  | inr v => modify (set_max_features (PyInt (sanity_checks v n)))
  end.

(** [self.ensemble[i]], read and written. *)
Definition get_learner (i : nat) : method (ARFBaseLearner.t D C) :=
  ens <- gets ensemble ;;
  match ens with
  | None => raise TypeError
  | Some slots =>
      match slots !! i with
      | None => raise IndexError
      | Some None => raise AttributeError
      | Some (Some learner) => ret learner
      end
  end.

Definition put_learner (i : nat) (learner : ARFBaseLearner.t D C) : t -> t :=
  fun self =>
    match ensemble self with
    | None => self
    | Some slots => set_ensemble (Some (<[i := Some learner]> slots)) self
    end.

(** A call of a method of [self.ensemble[i]]: the learner runs on the
    forest's generator, and both are stored back, also when it raises. *)
Definition call_learner {A} (i : nat) (m : ARFBaseLearner.method A) : method A :=
  learner <- get_learner i ;;
  fun self =>
    match m (learner, random_state self) with
    | Return a (learner', rs) =>
        Return a (set_random_state rs (put_learner i learner' self))
    | Raise e (learner', rs) =>
        Raise e (set_random_state rs (put_learner i learner' self))
    end.

(** One iteration of the loop of [init_ensemble]:
    [self.ensemble[i] = ARFBaseLearner(i, ARFHoeffdingTree(...), ...)]. *)
Definition init_slot (i : nat) : method unit :=
  ens <- gets ensemble ;;
  match ens with
  | None => raise TypeError
  | Some slots =>
      if (i <? List.length slots)%nat then
        mf <- gets max_features ;;
        match mf with
        | PyInt max_features =>
            modify (fun self =>
              set_ensemble
                (Some (<[i := Some (ARFBaseLearner.__init__
                                      (Z.of_nat i)
                                      (ARFHoeffdingTree.new
                                         (nominal_attributes self) max_features)
                                      (instances_seen self)
                                      (_evaluator_method self)
                                      (drift_detection_method self)
                                      (warning_detection_method self)
                                      false)]> slots))
                self)
        | _ => raise TypeError
        end
      else raise IndexError
  end.

(** [init_ensemble(X)] *)
Definition init_ensemble (X : instance) : method unit :=
  modify (fun self =>
            set_ensemble (Some (replicate (Z.to_nat (nb_ensemble self)) None)) self) ;;
  _set_max_features (feature_count X) ;;
  nb <- gets nb_ensemble ;;
  for_range (Z.to_nat nb) init_slot.

(** [if self.ensemble is None: self.init_ensemble(X)] *)
Definition ensure_ensemble (X : instance) : method unit :=
  ens <- gets ensemble ;;
  match ens with
  | None => init_ensemble X
  | Some _ => ret tt
  end.

(** [k = rnd.poisson(self.lambda_value)] on the shared generator. *)
Definition draw_poisson : method Z :=
  fun self =>
    let '(k, rs) := RandomState.poisson (random_state self) (lambda_value self) in
    Return k (set_random_state rs self).

(** [_partial_fit(X, y, weight)] *)
Definition _partial_fit (X : instance) (y : label) (weight : Q) : method unit :=
  modify (fun self => set_instances_seen (instances_seen self + 1) self) ;;
  ensure_ensemble X ;;
  nb <- gets nb_ensemble ;;
  for_range (Z.to_nat nb) (fun i =>
    learner <- get_learner i ;;
    let y_predicted := ARFBaseLearner.predict learner X in
    learner <- get_learner i ;;
    modify (put_learner i
              (ARFBaseLearner.set_evaluator
                 (ARFBaseClassifierEvaluator.update y_predicted y weight
                    (ARFBaseLearner.evaluator learner))
                 learner)) ;;
    k <- draw_poisson ;;
    if 0 <? k then
      seen <- gets instances_seen ;;
      call_learner i (ARFBaseLearner.partial_fit X y (inject_Z k) seen)
    else ret tt).

(** [partial_fit(X, y, classes, weight)]: [classes] is not used. *)
Definition partial_fit (X : list instance) (y : option (list label))
    (weight : option (list Q)) : method unit :=
  match y with
  | None => ret tt
  | Some y =>
      let weight := match weight with None => [INSTANCE_WEIGHT] | Some w => w end in
      let row_cnt := row_count X in
      let wrow_cnt := row_count weight in
      weight <- (if (row_cnt =? wrow_cnt)%nat then ret weight
                 else match weight with
                      | [] => raise IndexError
                      | w0 :: _ => ret (replicate row_cnt w0)
                      end) ;;
      for_range row_cnt (fun i =>
        match weight !! i with
        | None => raise IndexError
        | Some w =>
            if Qnonzero w then
              modify (fun self =>
                        set__train_weight_seen_by_model
                          (_train_weight_seen_by_model self + w)%Q self) ;;
              match X !! i, y !! i with
              | Some Xi, Some yi => _partial_fit Xi yi w
              | _, _ => raise IndexError
              end
            else ret tt
        end)
  end.

(** The body of the loop of [partial_fit] at a row [X[i]], [y[i]] with
    weight [weight[i]]. *)
Definition fit_row (Xi : instance) (yi : label) (w : Q) : method unit :=
  if Qnonzero w then
    modify (fun self =>
              set__train_weight_seen_by_model
                (_train_weight_seen_by_model self + w)%Q self) ;;
    _partial_fit Xi yi w
  else ret tt.

(** One iteration of the loop of [get_votes_for_instance].  The vote is
    taken as a value: lines 176-180 normalize and weight the mapping that
    the tree returned, and whether that writes into the tree depends on
    the tree handing out its own mapping or a new one, which the tree
    class leaves open. *)
Definition add_votes_of_learner (X : instance) (i : nat) (combined_votes : votes)
  : method votes :=
  learner <- get_learner i ;;
  let vote := ARFBaseLearner.get_votes_for_instance learner X in
  if (match vote with [] => false | _ => true end
      && Qpositive (sum_values vote))%bool
  then
    let vote := normalize_values_in_dict vote in
    disabled <- gets disable_weighted_vote ;;
    let vote :=
      if negb disabled then
        let performance :=
          ARFBaseClassifierEvaluator.get_performance
            (ARFBaseLearner.evaluator learner) in
        map_values (fun v => (v * performance)%Q) vote
      else vote in
    ret (add_values combined_votes vote)
  else ret combined_votes.

(** [get_votes_for_instance(X)] *)
Definition get_votes_for_instance (X : instance) : method votes :=
  ensure_ensemble X ;;
  nb <- gets nb_ensemble ;;
  for_fold (seq 0 (Z.to_nat nb)) (add_votes_of_learner X) [].

(** The label that [predict] appends for a row with these votes. *)
Definition label_of_votes (v : votes) : label :=
  match max_key v with
  | None => 0      (* votes == {} *)
  | Some k => k    (* max(votes, key=votes.get) *)
  end.

(** [predict(X)] *)
Definition predict (X : list instance) : method (list label) :=
  for_fold X (fun Xi predictions =>
                v <- get_votes_for_instance Xi ;;
                ret (predictions ++ [label_of_votes v]))
           [].

(** [reset()] *)
Definition reset : method unit :=
  modify (set_ensemble None) ;;
  modify (set_max_features (PyInt 0)) ;;
  modify (set_instances_seen 0) ;;
  modify (set__train_weight_seen_by_model 0) ;;
  modify (set__evaluator_method ARFBaseClassifierEvaluator_class).

(** Every learner held by the forest, background learners included. *)
Definition learners (self : t) : list (ARFBaseLearner.t D C) :=
  match ensemble self with
  | None => []
  | Some slots =>
      flat_map (fun slot => match slot with
                            | Some l => ARFBaseLearner.nested l
                            | None => []
                            end) slots
  end.

End AdaptiveRandomForest.
Arguments t : clear implicits.
End AdaptiveRandomForest.

(* ===================================================================== *)
(** * States of a forest that a caller can reach                          *)
(* ===================================================================== *)

Section Reachable.

Context {D R C : Type}.
Context `{Det : !BaseDriftDetector.t D} `{Rnd : !RandomState.t R}
        `{Tree : !ARFHoeffdingTree.t R C}.

(** A forest is built by the constructor and then only changed by calls
    of its public methods.  A call that raises leaves the forest as the
    exception found it, and the caller may go on using it. *)
Inductive reachable : AdaptiveRandomForest.t D R C -> Prop :=
| reachable_init nb mf dwv lam metric ddm wdm na rs :
    reachable (AdaptiveRandomForest.__init__ nb mf dwv lam metric ddm wdm na rs)
| reachable_partial_fit X y weight self :
    reachable self ->
    reachable (final_state (AdaptiveRandomForest.partial_fit X y weight self))
| reachable_predict X self :
    reachable self ->
    reachable (final_state (AdaptiveRandomForest.predict X self))
| reachable_get_votes_for_instance X self :
    reachable self ->
    reachable (final_state (AdaptiveRandomForest.get_votes_for_instance X self))
| reachable_reset self :
    reachable self ->
    reachable (final_state (AdaptiveRandomForest.reset self)).

(** No learner marked as background holds a background learner of its
    own, at any depth of nesting. *)
Definition no_recursive_shadowing (learner : ARFBaseLearner.t D C) : Prop :=
  Forall (fun l => ARFBaseLearner.is_background_learner l = true ->
                   ARFBaseLearner.background_learner l = None)
         (ARFBaseLearner.nested learner).

(** A background learner is only ever held by a learner that was given a
    warning detector. *)
Definition shadow_needs_warning_policy (learner : ARFBaseLearner.t D C) : Prop :=
  ARFBaseLearner.background_learner learner <> None ->
  ARFBaseLearner._use_background_learner learner = true.

(** The slots of the ensemble hold learners without recursive
    shadowing. *)
Definition ensemble_ok (self : AdaptiveRandomForest.t D R C) : Prop :=
  match AdaptiveRandomForest.ensemble self with
  | None => True
  | Some slots =>
      Forall (fun slot => match slot with
                          | Some l => no_recursive_shadowing l
                          | None => True
                          end) slots
  end.

(** An invariant that no assignment to [ensemble], [max_features] or
    [random_state] can break. *)
Definition framed (Inv : AdaptiveRandomForest.t D R C -> Prop) : Prop :=
  (forall v self, Inv self -> Inv (AdaptiveRandomForest.set_ensemble v self))
  /\ (forall v self, Inv self -> Inv (AdaptiveRandomForest.set_max_features v self))
  /\ (forall v self, Inv self -> Inv (AdaptiveRandomForest.set_random_state v self)).

(** The ensemble has been built: [nb_ensemble] slots, each a learner. *)
Definition initialised (self : AdaptiveRandomForest.t D R C) : Prop :=
  exists slots,
    AdaptiveRandomForest.ensemble self = Some (map Some slots) /\
    List.length slots = Z.to_nat (AdaptiveRandomForest.nb_ensemble self).

(** The learner that [init_ensemble] puts in slot [i] of a forest whose
    feature-subsample size has been set to [max_features]. *)
Definition built_learner (self : AdaptiveRandomForest.t D R C) (max_features : Z)
    (i : nat) : ARFBaseLearner.t D C :=
  ARFBaseLearner.__init__ (Z.of_nat i)
    (ARFHoeffdingTree.new (AdaptiveRandomForest.nominal_attributes self) max_features)
    (AdaptiveRandomForest.instances_seen self)
    (AdaptiveRandomForest._evaluator_method self)
    (AdaptiveRandomForest.drift_detection_method self)
    (AdaptiveRandomForest.warning_detection_method self)
    false.

(** The mapping that one iteration of the loop of
    [get_votes_for_instance] adds to [combined_votes] for a learner: its
    vote, normalized and weighted, or nothing when the vote is skipped. *)
Definition learner_votes (disabled : bool) (learner : ARFBaseLearner.t D C)
    (X : instance) : votes :=
  let vote := ARFBaseLearner.get_votes_for_instance learner X in
  if (match vote with [] => false | _ => true end
      && Qpositive (sum_values vote))%bool
  then
    let vote := normalize_values_in_dict vote in
    if negb disabled then
      map_values
        (fun v => (v * ARFBaseClassifierEvaluator.get_performance
                         (ARFBaseLearner.evaluator learner))%Q)
        vote
    else vote
  else [].

(** What a learner adds to the combined score of label [k], in the words
    of the vote-aggregation rule: nothing when its mapping is empty or
    sums to zero, else its normalized vote, times its performance unless
    weighted voting is disabled. *)
Definition contribution (disabled : bool) (learner : ARFBaseLearner.t D C)
    (X : instance) (k : label) : Q :=
  let vote := ARFBaseLearner.get_votes_for_instance learner X in
  match vote with
  | [] => 0
  | _ =>
      if Qeq_bool (sum_values vote) 0 then 0
      else
        let normalized := (score vote k / sum_values vote)%Q in
        if disabled then normalized
        else (normalized *
              ARFBaseClassifierEvaluator.get_performance
                (ARFBaseLearner.evaluator learner))%Q
  end%Q.

End Reachable.

(** A vote mapping [label -> count]: distinct keys, counts not negative. *)
Definition vote_counts (v : votes) : Prop :=
  NoDup (keys v) /\ Forall (fun x => (0 <= x)%Q) (values v).

Definition Qsum (l : list Q) : Q := fold_right Qplus 0%Q l.

(** A tie-break "by a fixed total order": one order on labels, chosen once
    and for all, such that the chosen label comes first among the labels
    that hold the maximum score. *)
Definition ties_broken_by_fixed_order (choose : votes -> label) : Prop :=
  exists prefer : label -> label -> Prop,
    (forall a b, prefer a b -> prefer b a -> a = b) /\
    forall (v : votes) (k : label),
      NoDup (keys v) ->
      In k (keys v) ->
      (forall k', In k' (keys v) -> (score v k' <= score v k)%Q) ->
      prefer (choose v) k.

(** The feature-subsample size for a fraction in the words of the
    specification: [round(fraction * n)]. *)
Definition spec_max_features_of_fraction (fraction : Q) (n : Z) : Z :=
  py_round (fraction * inject_Z n).

(* ===================================================================== *)
(** * Conditions under which training goes through                        *)
(* ===================================================================== *)

Section Readiness.

Context {D R C : Type}.
Context `{Det : !BaseDriftDetector.t D} `{Rnd : !RandomState.t R}
        `{Tree : !ARFHoeffdingTree.t R C}.

(** A learner on which [partial_fit] finds every detector it calls: a
    drift detector and its prototype; with [_use_background_learner], a
    warning detector and its prototype; and a background learner, if any,
    that holds the detectors a promotion hands over. *)
Definition learner_ready (l : ARFBaseLearner.t D C) : Prop :=
  ARFBaseLearner.drift_detection l <> None
  /\ ARFBaseLearner.drift_detection_method l <> None
  /\ (ARFBaseLearner._use_background_learner l = true ->
      ARFBaseLearner.warning_detection l <> None
      /\ ARFBaseLearner.warning_detection_method l <> None)
  /\ (forall b, ARFBaseLearner.background_learner l = Some b ->
        ARFBaseLearner.drift_detection b <> None
        /\ (ARFBaseLearner._use_background_learner l = true ->
            ARFBaseLearner.warning_detection b <> None)).

(** A learner that was given no warning detector and shadows nothing. *)
Definition unshadowed (l : ARFBaseLearner.t D C) : Prop :=
  ARFBaseLearner._use_background_learner l = false
  /\ ARFBaseLearner.background_learner l = None.

(** The body of the loop of [_partial_fit] for the learner of index [i]. *)
Definition train_learner (X : instance) (y : label) (weight : Q) (i : nat)
  : AdaptiveRandomForest.method (D:=D) (R:=R) (C:=C) unit :=
  (learner <- AdaptiveRandomForest.get_learner i ;;
   let y_predicted := ARFBaseLearner.predict learner X in
   learner <- AdaptiveRandomForest.get_learner i ;;
   modify (AdaptiveRandomForest.put_learner i
             (ARFBaseLearner.set_evaluator
                (ARFBaseClassifierEvaluator.update y_predicted y weight
                   (ARFBaseLearner.evaluator learner))
                learner)) ;;
   k <- AdaptiveRandomForest.draw_poisson ;;
   if 0 <? k then
     seen <- gets AdaptiveRandomForest.instances_seen ;;
     AdaptiveRandomForest.call_learner i
       (ARFBaseLearner.partial_fit X y (inject_Z k) seen)
   else ret tt)%py.

(** The feature-subsample policy can be evaluated on the row [X]. *)
Definition policy_ok (self : AdaptiveRandomForest.t D R C) (X : instance) : Prop :=
  exists v,
    AdaptiveRandomForest.max_features_of_policy
      (AdaptiveRandomForest.max_features self) (feature_count X) = inr v.

(** A forest whose ensemble is built and ready: a drift detector was
    configured and the ensemble holds [nb_ensemble] ready learners. *)
Definition forest_ready (self : AdaptiveRandomForest.t D R C) : Prop :=
  AdaptiveRandomForest.drift_detection_method self <> None
  /\ exists slots,
       AdaptiveRandomForest.ensemble self = Some slots
       /\ List.length slots = Z.to_nat (AdaptiveRandomForest.nb_ensemble self)
       /\ Forall (fun slot => exists l, slot = Some l /\ learner_ready l) slots.

(** A forest that can be trained on the row [X]: it is ready, or it was
    configured with a drift detector, its ensemble is still to be built and
    its feature-subsample policy can be evaluated on [X]. *)
Definition trainable (self : AdaptiveRandomForest.t D R C) (X : instance) : Prop :=
  forest_ready self
  \/ (AdaptiveRandomForest.drift_detection_method self <> None
      /\ AdaptiveRandomForest.ensemble self = None
      /\ policy_ok self X).

(** What the constructor fixes and no method changes, and the length of
    the ensemble once it is built. *)
Definition configured_as (nb : Z) (dwv : bool) (lam : Q) (ddm wdm : option D)
    (na : option (list Z)) (self : AdaptiveRandomForest.t D R C) : Prop :=
  AdaptiveRandomForest.nb_ensemble self = nb
  /\ AdaptiveRandomForest.disable_weighted_vote self = dwv
  /\ AdaptiveRandomForest.lambda_value self = lam
  /\ AdaptiveRandomForest.drift_detection_method self = ddm
  /\ AdaptiveRandomForest.warning_detection_method self = wdm
  /\ AdaptiveRandomForest.nominal_attributes self = na
  /\ match AdaptiveRandomForest.ensemble self with
     | None => True
     | Some slots => List.length slots = Z.to_nat nb
     end.

End Readiness.

(** A run of calls [update(y_predicted, y, weight)] on one evaluator, oldest
    first. *)
Definition updates (calls : list (label * label * Q))
    (e : ARFBaseClassifierEvaluator.t) : ARFBaseClassifierEvaluator.t :=
  fold_left (fun e '(y_predicted, y, weight) =>
               ARFBaseClassifierEvaluator.update y_predicted y weight e)
            calls e.

(** What a call can add to the aggregate: its weight when that is positive
    and the prediction is right. *)
Definition counted_weight (call : label * label * Q) : Q :=
  let '(y_predicted, y, weight) := call in
  if (Qpositive weight && Z.eqb y_predicted y)%bool then weight else 0%Q.

(** The rows of a batch that are trained on: those of non-zero weight. *)
Definition trained_rows (weight : list Q) : Z :=
  Z.of_nat (List.length (List.filter Qnonzero weight)).

(* ===================================================================== *)
(** * Small collaborators to run the forest on                            *)
(* ===================================================================== *)

Module Sample.

(** A detector that signals a change once it has seen [threshold]
    errors. *)
Record ErrorCount : Type := { threshold : Z; errors : Z }.

#[global] Instance ErrorCount_detector : BaseDriftDetector.t ErrorCount := {
  add_element d bit := {| threshold := threshold d; errors := errors d + bit |};
  detected_change d := threshold d <=? errors d;
  reset d := {| threshold := threshold d; errors := 0 |}
}.

(** A generator that replays a script of draws. *)
Definition Script : Type := list Z.

#[global] Instance Script_generator : RandomState.t Script := {
  poisson rs _ := match rs with
                  | [] => (0, [])
                  | k :: rs' => (k, rs')
                  end
}.

(** A classifier that votes with the class weights it has observed. *)
Record ClassCounts : Type := { subsample : Z; observed : votes }.

#[global] Instance ClassCounts_tree : ARFHoeffdingTree.t Script ClassCounts := {
  new _ max_features := {| subsample := max_features; observed := [] |};
  partial_fit c _ y weight rs :=
    ({| subsample := subsample c; observed := dict_add (observed c) y weight |}, rs);
  predict c _ := match max_key (observed c) with Some k => k | None => 0 end;
  get_votes_for_instance c _ := observed c;
  new_instance c := {| subsample := subsample c; observed := [] |};
  reset c := {| subsample := subsample c; observed := [] |}
}.

Definition learner : Type := ARFBaseLearner.t ErrorCount ClassCounts.
Definition forest : Type := AdaptiveRandomForest.t ErrorCount Script ClassCounts.

Definition detector (n : Z) : ErrorCount := {| threshold := n; errors := 0 |}.

(** A learner whose tree holds the class weights [v] and whose evaluator
    holds the aggregate [a]. *)
Definition voting_learner (i : Z) (v : votes) (a : Q)
    (ddm wdm : option ErrorCount) : learner :=
  ARFBaseLearner.set_evaluator
    {| ARFBaseClassifierEvaluator.aggregation := a;
       ARFBaseClassifierEvaluator.length := 0 |}
    (ARFBaseLearner.__init__ i {| subsample := 3; observed := v |} 0
       ARFBaseClassifierEvaluator_class ddm wdm false).

(** A forest over the given learners. *)
Definition forest_of (disable_weighted_vote : bool) (ls : list learner) : forest :=
  AdaptiveRandomForest.set_ensemble (Some (map Some ls))
    (AdaptiveRandomForest.__init__ (Z.of_nat (List.length ls)) (PyStr "auto")
       disable_weighted_vote 6 "acc"
       (PyObject (detector 3)) (PyObject (detector 2)) None [1; 0; 2]).

(** Two learners of performances 50 and 150, each voting [{1: 1.0}]. *)
Definition voter50 : learner :=
  voting_learner 0 [(1, 1%Q)] (1 # 2) (Some (detector 3)) (Some (detector 2)).

Definition voter150 : learner :=
  voting_learner 1 [(1, 1%Q)] (3 # 2) (Some (detector 3)) (Some (detector 2)).

Definition two_voters (disable_weighted_vote : bool) : forest :=
  forest_of disable_weighted_vote [voter50; voter150].

(** Two learners that vote for different labels, in the two orders. *)
Definition tied (first second : label) : forest :=
  forest_of true
    [voting_learner 0 [(first, 1%Q)] 0 (Some (detector 3)) (Some (detector 2));
     voting_learner 1 [(second, 1%Q)] 0 (Some (detector 3)) (Some (detector 2))].

(** A newly built forest with the given policies. *)
Definition fresh (nb : Z) (max_features : PyValue ErrorCount)
    (ddm wdm : PyValue ErrorCount) (script : Script) : forest :=
  AdaptiveRandomForest.__init__ nb max_features false 6 "acc" ddm wdm None script.

Definition row10 : instance := repeat 0%Q 10.

(** A one-tree forest whose warning detector signals at once, and the
    background learner that its first instance creates. *)
Definition warned_forest : forest :=
  fresh 1 (PyStr "auto") (PyObject (detector 5)) (PyObject (detector 0)) [2].

Definition shadow : learner :=
  ARFBaseLearner.__init__ 0 {| subsample := 3; observed := [] |} 1
    ARFBaseClassifierEvaluator_class (Some (detector 5)) (Some (detector 0)) true.

(** A two-tree forest with both detectors, and a script of draws. *)
Definition monitored_forest : forest :=
  fresh 2 (PyStr "auto") (PyObject (detector 3)) (PyObject (detector 2))
    [1; 0; 2; 2].

(** A one-tree forest without weighted voting whose detectors stay
    silent, and two rows with the labels 1 and 2. *)
Definition quiet_forest (script : Script) : forest :=
  AdaptiveRandomForest.__init__ 1 (PyStr "auto") true 6 "acc"
    (PyObject (detector 100)) (PyObject (detector 100)) None script.

(** A learner whose warning detector signals at once while its drift
    detector waits for five errors, and one whose detectors both wait. *)
Definition warned_learner : learner :=
  voting_learner 0 [] 0 (Some (detector 5)) (Some (detector 0)).

Definition calm_learner : learner :=
  voting_learner 0 [(1, 2%Q)] 1 (Some (detector 5)) (Some (detector 5)).

Definition two_rows : list instance := [row10; row10].
Definition two_labels : list label := [1; 2].

(** A learner whose two detectors signal a change at once. *)
Definition alert_learner : learner :=
  voting_learner 0 [] 0 (Some (detector 0)) (Some (detector 0)).

(** A learner with a drift detector that signals at once and no warning
    detector. *)
Definition unwarned_learner : learner :=
  voting_learner 0 [(1, 2%Q)] 1 (Some (detector 0)) None.

(** Two learners of performance 0: the first votes [{2: 1.0}], the second
    [{1: 3.0}]. *)
Definition unproven : forest :=
  forest_of false
    [voting_learner 0 [(2, 1%Q)] 0 (Some (detector 3)) (Some (detector 2));
     voting_learner 1 [(1, 3%Q)] 0 (Some (detector 3)) (Some (detector 2))].

(** A two-tree forest with the policy ["log2"]. *)
Definition log2_forest : forest :=
  fresh 2 (PyStr "log2") (PyObject (detector 3)) (PyObject (detector 2))
    [1; 0; 2; 2].

End Sample.

(* ===================================================================== *)
(** * Facts about numbers                                                  *)
(* ===================================================================== *)

Lemma Qgt_bool_true (a b : Q) : Qgt_bool a b = true <-> (b < a)%Q.
Proof.
  unfold Qgt_bool. rewrite negb_true_iff. split.
  - intros Hle. apply Qnot_le_lt. intros Hab.
    apply Qle_bool_iff in Hab. congruence.
  - intros Hlt. destruct (Qle_bool a b) eqn:Hle; [|reflexivity].
    apply Qle_bool_iff in Hle. exfalso. exact (Qlt_not_le _ _ Hlt Hle).
Qed.

Lemma Qgt_bool_false (a b : Q) : Qgt_bool a b = false <-> (a <= b)%Q.
Proof.
  unfold Qgt_bool. rewrite negb_false_iff. apply Qle_bool_iff.
Qed.

Lemma Qpositive_true (q : Q) : Qpositive q = true <-> (0 < q)%Q.
Proof. apply Qgt_bool_true. Qed.

Lemma Qpositive_false (q : Q) : Qpositive q = false <-> (q <= 0)%Q.
Proof. apply Qgt_bool_false. Qed.

Lemma Qnonzero_false (q : Q) : Qnonzero q = false <-> (q == 0)%Q.
Proof.
  unfold Qnonzero. rewrite negb_false_iff. apply Qeq_bool_iff.
Qed.

Lemma Qnonzero_true (q : Q) : Qnonzero q = true <-> ~ (q == 0)%Q.
Proof.
  unfold Qnonzero. rewrite negb_true_iff. split.
  - intros Hb Heq. apply Qeq_bool_iff in Heq. congruence.
  - intros Hne. destruct (Qeq_bool q 0) eqn:Hb; [|reflexivity].
    apply Qeq_bool_iff in Hb. contradiction.
Qed.

(** [round_sqrt n] is the integer nearest to the square root of [n]:
    [r - 1/2 < sqrt n < r + 1/2], stated on squares. *)
Lemma round_sqrt_nearest (n : Z) :
  1 <= n ->
  (2 * round_sqrt n - 1) ^ 2 < 4 * n < (2 * round_sqrt n + 1) ^ 2.
Proof.
  intros Hn. unfold round_sqrt.
  pose proof (Z.sqrt_spec n ltac:(lia)) as Hs. cbv zeta in Hs.
  pose proof (Z.sqrt_nonneg n) as Hs0.
  set (s := Z.sqrt n) in *.
  assert (1 <= s) by (destruct (Z.eq_dec s 0) as [E|E]; [rewrite E in Hs|]; lia).
  destruct (Z.leb_spec (n - s * s) s); nia.
Qed.

(** [round_log2 n] is the integer nearest to the binary logarithm of [n]:
    [k - 1/2 <= log2 n < k + 1/2], stated on the square of [n]. *)
Lemma round_log2_nearest (n : Z) :
  1 <= n ->
  2 ^ (2 * round_log2 n - 1) <= n * n < 2 ^ (2 * round_log2 n + 1).
Proof.
  intros Hn. unfold round_log2.
  assert (Hsq : 0 < n * n) by nia.
  pose proof (Z.log2_spec (n * n) Hsq) as Hl.
  pose proof (Z.log2_nonneg (n * n)) as Hl0.
  set (L := Z.log2 (n * n)) in *.
  pose proof (Z.div_mod (L + 1) 2 ltac:(lia)) as Hdm.
  pose proof (Z.mod_pos_bound (L + 1) 2 ltac:(lia)) as Hmod.
  set (k := (L + 1) / 2) in *.
  assert (HL : L = 2 * k - 1 \/ L = 2 * k) by lia.
  destruct HL as [HL|HL].
  - replace (2 * k - 1) with L by lia. split; [lia|].
    apply Z.lt_le_trans with (2 ^ Z.succ L); [lia|].
    apply Z.pow_le_mono_r; lia.
  - replace (2 * k + 1) with (Z.succ L) by lia. split; [|lia].
    apply Z.le_trans with (2 ^ L); [|lia].
    apply Z.pow_le_mono_r; lia.
Qed.

(** [int(x)] of a finite float is its integer part, on the side of
    zero. *)
Lemma int_of_float_truncates (x : float) (v : Z) :
  int_of_float x = inr v ->
  ((0 <= Q_of_float x)%Q ->
   (inject_Z v <= Q_of_float x < inject_Z (v + 1))%Q)
  /\ ((Q_of_float x <= 0)%Q ->
      (inject_Z (v - 1) < Q_of_float x <= inject_Z v)%Q).
Proof.
  destruct x as [z|i| |s m e]; simpl; intros Hv; try discriminate Hv.
  - inversion Hv. subst. split; intros _; split; unfold Qle, Qlt; simpl; lia.
  - inversion Hv. subst. clear Hv.
    destruct (0 <=? e) eqn:He.
    + split; intros _; split; unfold Qle, Qlt; simpl; lia.
    + apply Z.leb_gt in He.
      assert (Hpow : 0 < 2 ^ (- e)) by (apply Z.pow_pos_nonneg; lia).
      set (d := 2 ^ (- e)) in *.
      pose proof (Z.mul_div_le (Zpos m) d Hpow) as Hlow.
      pose proof (Z.mul_succ_div_gt (Zpos m) d Hpow) as Hhigh.
      destruct s; simpl; split; intros Hsign; unfold Qle, Qlt in *; simpl in *;
        rewrite ?Z2Pos.id in * by exact Hpow; split; nia.
Qed.

(* ===================================================================== *)
(** * The evaluator                                                        *)
(* ===================================================================== *)

(** C7.  [update] adds [weight] to the aggregate exactly when
    [weight > 0] and the prediction equals the label, and changes nothing
    otherwise; [get_performance] is the aggregate times the constant 100,
    with no division by a count of instances; [reset] zeroes the
    aggregate. *)
Theorem evaluator_contract (self : ARFBaseClassifierEvaluator.t)
    (y_predicted y : label) (weight : Q) :
  ((0 < weight)%Q -> y_predicted = y ->
     ARFBaseClassifierEvaluator.aggregation
       (ARFBaseClassifierEvaluator.update y_predicted y weight self)
     = (ARFBaseClassifierEvaluator.aggregation self + weight)%Q)
  /\ (~ (0 < weight)%Q ->
        ARFBaseClassifierEvaluator.update y_predicted y weight self = self)
  /\ (y_predicted <> y ->
        (ARFBaseClassifierEvaluator.aggregation
           (ARFBaseClassifierEvaluator.update y_predicted y weight self)
         == ARFBaseClassifierEvaluator.aggregation self)%Q
        /\ ARFBaseClassifierEvaluator.length
             (ARFBaseClassifierEvaluator.update y_predicted y weight self)
           = ARFBaseClassifierEvaluator.length self)
  /\ ARFBaseClassifierEvaluator.get_performance self
     = (ARFBaseClassifierEvaluator.aggregation self * 100)%Q
  /\ ARFBaseClassifierEvaluator.aggregation (ARFBaseClassifierEvaluator.reset self)
     = 0%Q.
Proof.
  unfold ARFBaseClassifierEvaluator.update.
  repeat split.
  - intros Hw Hy. apply Qpositive_true in Hw. rewrite Hw. simpl.
    apply Z.eqb_eq in Hy. rewrite Hy. reflexivity.
  - intros Hw. destruct (Qpositive weight) eqn:Hp; [|reflexivity].
    apply Qpositive_true in Hp. contradiction.
  - apply Z.eqb_neq in H. destruct (Qpositive weight); simpl.
    + rewrite H. ring.
    + reflexivity.
  - destruct (Qpositive weight); reflexivity.
Qed.

Lemma evaluator_contract_witness :
  ARFBaseClassifierEvaluator.aggregation
    (ARFBaseClassifierEvaluator.update 1 1 (1 # 2) ARFBaseClassifierEvaluator.__init__)
  = (0 + (1 # 2))%Q
  /\ ARFBaseClassifierEvaluator.update 1 1 (- (1 # 2))
       ARFBaseClassifierEvaluator.__init__
     = ARFBaseClassifierEvaluator.__init__
  /\ (ARFBaseClassifierEvaluator.aggregation
        (ARFBaseClassifierEvaluator.update 1%Z 2%Z (1 # 2)
           ARFBaseClassifierEvaluator.__init__) == 0)%Q.
Proof.
  split; [|split].
  - apply (evaluator_contract ARFBaseClassifierEvaluator.__init__ 1 1 (1 # 2));
      reflexivity.
  - apply (evaluator_contract ARFBaseClassifierEvaluator.__init__ 1 1 (- (1 # 2))).
    intros H; discriminate H.
  - apply (evaluator_contract ARFBaseClassifierEvaluator.__init__ 1 2 (1 # 2)).
    intros H; discriminate H.
Defined.

(* ===================================================================== *)
(** * The constructor and the feature-subsample size                      *)
(* ===================================================================== *)

(** C10.  A [drift_detection_method] or [warning_detection_method] that is
    not a [BaseDriftDetector] instance (a string, a number, [None]) is
    stored as [None] by the constructor, which does not raise: the forest
    it builds is the forest built with [None] passed for that argument. *)
Theorem constructor_drops_non_detectors {D R C : Type}
    (nb : Z) (mf : PyValue D) (dwv : bool) (lam : Q) (metric : string)
    (ddm wdm : PyValue D) (na : option (list Z)) (rs : R) (v : PyValue D) :
  (forall d, v <> PyObject d) ->
  (AdaptiveRandomForest.__init__ (C := C) nb mf dwv lam metric v wdm na rs
   = AdaptiveRandomForest.__init__ nb mf dwv lam metric PyNone wdm na rs
   /\ AdaptiveRandomForest.drift_detection_method
        (AdaptiveRandomForest.__init__ (C := C) nb mf dwv lam metric v wdm na rs)
      = None)
  /\ (AdaptiveRandomForest.__init__ (C := C) nb mf dwv lam metric ddm v na rs
      = AdaptiveRandomForest.__init__ nb mf dwv lam metric ddm PyNone na rs
      /\ AdaptiveRandomForest.warning_detection_method
           (AdaptiveRandomForest.__init__ (C := C) nb mf dwv lam metric ddm v na rs)
         = None).
Proof.
  intros Hv. unfold AdaptiveRandomForest.__init__. simpl.
  assert (Hnone : AdaptiveRandomForest.detector_or_None v = None).
  { destruct v; try reflexivity. exfalso. exact (Hv o eq_refl). }
  rewrite Hnone. repeat split.
Qed.

Lemma constructor_drops_non_detectors_witness :
  Sample.fresh 2 (PyStr "auto") (PyStr "adwin") (PyInt 7) []
  = Sample.fresh 2 (PyStr "auto") PyNone (PyInt 7) []
  /\ AdaptiveRandomForest.drift_detection_method
       (Sample.fresh 2 (PyStr "auto") (PyStr "adwin") (PyInt 7) []) = None.
Proof.
  apply (constructor_drops_non_detectors (C := Sample.ClassCounts)
           2 (PyStr "auto") false 6 "acc" PyNone (PyInt 7) None []
           (PyStr "adwin")).
  intros d H. discriminate H.
Defined.

Lemma sanity_checks_clamp (v n : Z) :
  AdaptiveRandomForest.sanity_checks v n
  = Z.min n (Z.max 1 (if v <? 0 then v + n else v)).
Proof.
  unfold AdaptiveRandomForest.sanity_checks.
  destruct (v <? 0);
    repeat match goal with
           | |- context [?a <=? ?b] => destruct (Z.leb_spec a b)
           | |- context [?a >? ?b] => rewrite (Z.gtb_ltb a b); destruct (Z.ltb_spec b a)
           end; lia.
Qed.

Lemma set_max_features_run {D R C : Type} (self : AdaptiveRandomForest.t D R C)
    (n v : Z) :
  AdaptiveRandomForest.max_features_of_policy
    (AdaptiveRandomForest.max_features self) n = inr v ->
  AdaptiveRandomForest._set_max_features n self
  = Return tt
      (AdaptiveRandomForest.set_max_features
         (PyInt (Z.min n (Z.max 1 (if v <? 0 then v + n else v)))) self).
Proof.
  intros Hv. unfold AdaptiveRandomForest._set_max_features, bind, gets, modify.
  rewrite Hv, sanity_checks_clamp. reflexivity.
Qed.

(** C4, counterexample.  For the fraction 0.75 and 5 features the source
    computes [int(0.75 * 5) = 3], where the claim has
    [round(0.75 * 5) = 4]; neither is touched by the sanity checks. *)
Lemma fraction_is_truncated_not_rounded :
  AdaptiveRandomForest.max_features
    (final_state
       (AdaptiveRandomForest._set_max_features 5
          (Sample.fresh 2 (PyFloat (float_of_ratio 3 4)) PyNone PyNone [])))
  = PyInt 3
  /\ (Q_of_float (float_of_ratio 3 4) == 3 # 4)%Q
  /\ AdaptiveRandomForest.sanity_checks
       (spec_max_features_of_fraction (Q_of_float (float_of_ratio 3 4)) 5) 5
     = 4.
Proof. split; [|split]; vm_compute; reflexivity. Qed.

(** The product is rounded to a double before [int] truncates it:
    [int(0.58 * 50)] is 28 although [0.58 * 50] is 29 in exact arithmetic,
    and [int(0.6 * 5)] is 3 although the double [0.6] is below [3/5]. *)
Example float_product_is_rounded_before_int :
  AdaptiveRandomForest.max_features_of_policy
    (PyFloat (float_of_ratio 58 100) : PyValue Sample.ErrorCount) 50 = inr 28
  /\ AdaptiveRandomForest.max_features_of_policy
       (PyFloat (float_of_ratio 6 10) : PyValue Sample.ErrorCount) 5 = inr 3
  /\ (Q_of_float (float_of_ratio 6 10) < 6 # 10)%Q.
Proof. split; [|split]; vm_compute; reflexivity. Qed.

(** C4, amended.  At lazy initialization with [n] features, ["auto"],
    ["sqrt"] and every value that is not listed give the integer nearest
    to [sqrt n]; ["log2"] gives the integer nearest to [log2 n] (where the
    logarithm exists, [n >= 1]); an integer is used as it is; a float [f]
    gives [int(f * n)], the product of doubles truncated toward zero (not
    rounded); [None] gives [n].  Then a negative result has [n] added, a
    non-positive result becomes 1 and a result above [n] becomes [n].  For
    [n = 10]: ["auto"] gives 3, ["log2"] gives 3, [0.4] gives 4, [-3]
    gives 7 and [15] gives 10. *)
Theorem set_max_features_policy {D R C : Type}
    (self : AdaptiveRandomForest.t D R C) :
  (forall n : Z, 0 <= n ->
     let clamp v := Z.min n (Z.max 1 (if v <? 0 then v + n else v)) in
     let assigns v :=
       AdaptiveRandomForest._set_max_features n self
       = Return tt (AdaptiveRandomForest.set_max_features (PyInt (clamp v)) self) in
     (forall s, AdaptiveRandomForest.max_features self = PyStr s ->
                s <> "log2"%string ->
                assigns (round_sqrt n))
     /\ (AdaptiveRandomForest.max_features self = PyStr "log2" -> 1 <= n ->
         assigns (round_log2 n))
     /\ (forall z, AdaptiveRandomForest.max_features self = PyInt z -> assigns z)
     /\ (forall f n' v,
           AdaptiveRandomForest.max_features self = PyFloat f ->
           float_of_int n = inr n' ->
           int_of_float (float_mul f n') = inr v ->
           assigns v)
     /\ (AdaptiveRandomForest.max_features self = PyNone -> assigns n)
     /\ (forall o, AdaptiveRandomForest.max_features self = PyObject o ->
                   assigns (round_sqrt n))
     /\ (1 <= n ->
         (2 * round_sqrt n - 1) ^ 2 < 4 * n < (2 * round_sqrt n + 1) ^ 2)
     /\ (1 <= n ->
         2 ^ (2 * round_log2 n - 1) <= n * n < 2 ^ (2 * round_log2 n + 1))
     /\ round_sqrt 0 = 0
     /\ (forall x v, int_of_float x = inr v ->
           ((0 <= Q_of_float x)%Q ->
            (inject_Z v <= Q_of_float x < inject_Z (v + 1))%Q)
           /\ ((Q_of_float x <= 0)%Q ->
               (inject_Z (v - 1) < Q_of_float x <= inject_Z v)%Q)))
  /\ (forall policy expected,
        In (policy, expected)
           [(PyStr "auto", 3); (PyStr "sqrt", 3); (PyStr "log2", 3);
            (PyFloat (float_of_ratio 4 10), 4); (PyInt (-3), 7); (PyInt 15, 10);
            (PyNone, 10)] ->
        AdaptiveRandomForest.max_features self = policy ->
        AdaptiveRandomForest._set_max_features 10 self
        = Return tt (AdaptiveRandomForest.set_max_features (PyInt expected) self)).
Proof.
  split.
  - intros n Hn clamp assigns. subst assigns clamp. cbv beta.
    assert (Hneg : (n <? 0) = false) by (apply Z.ltb_ge; exact Hn).
    repeat split.
    + intros s Hs Hlog. apply set_max_features_run. rewrite Hs. simpl.
      rewrite Hneg.
      destruct (String.eqb s "auto" || String.eqb s "sqrt")%bool; [reflexivity|].
      destruct (String.eqb_spec s "log2"); [contradiction|reflexivity].
    + intros Hs Hpos. apply set_max_features_run. rewrite Hs. simpl.
      destruct (n <=? 0) eqn:Hle; [apply Z.leb_le in Hle; lia|reflexivity].
    + intros z Hs. apply set_max_features_run. rewrite Hs. reflexivity.
    + intros f n' v Hs Hn' Hv. apply set_max_features_run. rewrite Hs.
      unfold AdaptiveRandomForest.max_features_of_policy. rewrite Hn'. exact Hv.
    + intros Hs. apply set_max_features_run. rewrite Hs. reflexivity.
    + intros o Hs. apply set_max_features_run. rewrite Hs. simpl.
      rewrite Hneg. reflexivity.
    + apply round_sqrt_nearest; assumption.
    + apply round_sqrt_nearest; assumption.
    + apply round_log2_nearest; assumption.
    + apply round_log2_nearest; assumption.
    + destruct (int_of_float_truncates x v) as [Hp _]; [assumption|].
      apply Hp; assumption.
    + destruct (int_of_float_truncates x v) as [Hp _]; [assumption|].
      apply Hp; assumption.
    + destruct (int_of_float_truncates x v) as [_ Hm]; [assumption|].
      apply Hm; assumption.
    + destruct (int_of_float_truncates x v) as [_ Hm]; [assumption|].
      apply Hm; assumption.
  - intros policy expected Hin Hpolicy.
    unfold AdaptiveRandomForest._set_max_features, bind, gets, modify.
    rewrite Hpolicy.
    simpl in Hin.
    repeat (destruct Hin as [Hin|Hin];
            [injection Hin as <- <-; vm_compute; reflexivity|]).
    contradiction.
Qed.

Lemma set_max_features_policy_witness :
  AdaptiveRandomForest._set_max_features 10
    (Sample.fresh 2 (PyFloat (float_of_ratio 4 10)) PyNone PyNone [])
  = Return tt
      (AdaptiveRandomForest.set_max_features (PyInt 4)
         (Sample.fresh 2 (PyFloat (float_of_ratio 4 10)) PyNone PyNone [])).
Proof.
  apply (proj2 (set_max_features_policy
                  (Sample.fresh 2 (PyFloat (float_of_ratio 4 10)) PyNone PyNone []))
           (PyFloat (float_of_ratio 4 10)) 4).
  - simpl. tauto.
  - reflexivity.
Defined.

(* ===================================================================== *)
(** * The base learner                                                     *)
(* ===================================================================== *)

Section LearnerFacts.

Context {D R C : Type}.
Context `{Det : !BaseDriftDetector.t D} `{Tree : !ARFHoeffdingTree.t R C}.

Ltac unfold_learner :=
  unfold ARFBaseLearner.partial_fit, ARFBaseLearner.train_and_check_warning,
    ARFBaseLearner.update_drift_detection, ARFBaseLearner.reset,
    ARFBaseLearner.fit_classifier, ARFBaseLearner.fit_background,
    ARFBaseLearner.attr, ARFBaseLearner.assign,
    bind, gets, modify, ret, raise in *.

(** One case distinction of the learner's control flow. *)
Ltac break_learner :=
  match goal with
  | |- context [ARFHoeffdingTree.partial_fit ?c ?X ?y ?w ?rs] =>
      destruct (ARFHoeffdingTree.partial_fit c X y w rs) as [? ?] eqn:?
  | |- context [match ?x with _ => _ end] => is_var x; destruct x
  | |- context [andb ?x _] => is_var x; destruct x
  | |- context [negb ?x] => is_var x; destruct x
  | |- context [BaseDriftDetector.detected_change ?d] =>
      destruct (BaseDriftDetector.detected_change d) eqn:?
  end; simpl in *.

Ltac split_Forall :=
  repeat match goal with
         | H : Forall _ (_ :: _) |- _ => inversion_clear H
         end.

(** The first part of [partial_fit] leaves the drift bookkeeping alone. *)
Lemma train_and_check_warning_frame (self mid : ARFBaseLearner.t D C)
    (rs rs' : R) X y w seen cc :
  ARFBaseLearner.train_and_check_warning X y w seen (self, rs)
  = Return cc (mid, rs') ->
  ARFBaseLearner.nb_drifts_detected mid = ARFBaseLearner.nb_drifts_detected self
  /\ ARFBaseLearner.drift_detection mid = ARFBaseLearner.drift_detection self
  /\ (shadow_needs_warning_policy self -> shadow_needs_warning_policy mid).
Proof.
  unfold shadow_needs_warning_policy.
  destruct self. unfold_learner. simpl.
  repeat break_learner; intros Heq; inversion Heq; subst; simpl;
    repeat split; auto; try congruence.
Qed.

Lemma init_shadow_needs_warning_policy idx (c : C) seen em
    (ddm wdm : option D) bkg :
  shadow_needs_warning_policy (ARFBaseLearner.__init__ idx c seen em ddm wdm bkg).
Proof. intros H. simpl in H. congruence. Qed.

Lemma partial_fit_shadow_needs_warning_policy (self : ARFBaseLearner.t D C)
    (rs : R) X y w seen :
  shadow_needs_warning_policy self ->
  shadow_needs_warning_policy
    (fst (final_state (ARFBaseLearner.partial_fit X y w seen (self, rs)))).
Proof.
  unfold shadow_needs_warning_policy.
  destruct self. unfold_learner. simpl.
  repeat break_learner; simpl; intros; auto; congruence.
Qed.

(** A learner without a drift detector: [partial_fit] calls
    [add_element] through [None]. *)
Lemma partial_fit_through_absent_detector (self : ARFBaseLearner.t D C)
    (rs : R) X y w seen :
  ARFBaseLearner.drift_detection self = None ->
  exists s',
    ARFBaseLearner.partial_fit X y w seen (self, rs) = Raise AttributeError s'
    /\ ARFBaseLearner.drift_detection (fst s') = None.
Proof.
  intros Hd. destruct self. simpl in Hd. subst.
  unfold_learner. simpl.
  repeat break_learner; eexists; split; reflexivity.
Qed.

(** C1 (the code breaks the claim).  On a learner constructed with
    [drift_detection_method = None], every call of [partial_fit] trains
    the classifier and then raises [AttributeError]: line 351 calls
    [self.drift_detection.add_element] although [self.drift_detection]
    is [None].  The learner is left without a drift detector, so the next
    call does the same. *)
Theorem partial_fit_without_drift_policy_raises
    (index_original : Z) (classifier : C) (created_on : Z)
    (evaluator_method : evaluator_class) (warning_detection_method : option D)
    (is_background_learner : bool) (rs : R)
    (X : instance) (y : label) (weight : Q) (instances_seen : Z) :
  let self := ARFBaseLearner.__init__ index_original classifier created_on
                evaluator_method None warning_detection_method
                is_background_learner in
  let trained := ARFHoeffdingTree.partial_fit classifier X y weight rs in
  ARFBaseLearner.partial_fit X y weight instances_seen (self, rs)
  = Raise AttributeError (ARFBaseLearner.set_classifier (fst trained) self,
                          snd trained)
  /\ ARFBaseLearner.drift_detection
       (ARFBaseLearner.set_classifier (fst trained) self) = None.
Proof.
  unfold_learner. simpl.
  destruct (ARFHoeffdingTree.partial_fit classifier X y weight rs) as [c1 rs1].
  simpl. split; reflexivity.
Qed.

(** C2.  When the drift detector signals a change in [partial_fit]: the
    last-drift timestamp becomes the instance counter, the drift count
    grows by one, and [reset] runs.  With a background learner present its
    classifier, warning detector, drift detector and [created_on] move
    into the learner and the background slot becomes [None]; without one
    the learner's own classifier and drift detector are reset in place and
    [created_on] becomes the instance counter.  Either way the evaluator
    is a new one with aggregate zero.  [mid] is the learner as lines
    321-348 leave it, when [reset] looks for the background learner. *)
Theorem drift_confirmed (self mid : ARFBaseLearner.t D C) (rs rs' : R)
    (X : instance) (y : label) (weight : Q) (instances_seen : Z)
    (correctly_classifies : bool) (d : D) :
  shadow_needs_warning_policy self ->
  ARFBaseLearner.train_and_check_warning X y weight instances_seen (self, rs)
  = Return correctly_classifies (mid, rs') ->
  ARFBaseLearner.drift_detection mid = Some d ->
  BaseDriftDetector.detected_change
    (BaseDriftDetector.add_element d (int_not correctly_classifies)) = true ->
  exists self',
    ARFBaseLearner.partial_fit X y weight instances_seen (self, rs)
    = Return tt (self', rs')
    /\ ARFBaseLearner.last_drift_on self' = instances_seen
    /\ ARFBaseLearner.nb_drifts_detected self'
       = ARFBaseLearner.nb_drifts_detected self + 1
    /\ ARFBaseLearner.evaluator self' = ARFBaseClassifierEvaluator.__init__
    /\ ARFBaseClassifierEvaluator.aggregation (ARFBaseLearner.evaluator self')
       = 0%Q
    /\ ARFBaseLearner.background_learner self' = None
    /\ match ARFBaseLearner.background_learner mid with
       | Some b =>
           ARFBaseLearner.classifier self' = ARFBaseLearner.classifier b
           /\ ARFBaseLearner.warning_detection self'
              = ARFBaseLearner.warning_detection b
           /\ ARFBaseLearner.drift_detection self'
              = ARFBaseLearner.drift_detection b
           /\ ARFBaseLearner.created_on self' = ARFBaseLearner.created_on b
       | None =>
           ARFBaseLearner.classifier self'
           = ARFHoeffdingTree.reset (ARFBaseLearner.classifier mid)
           /\ ARFBaseLearner.drift_detection self'
              = Some (BaseDriftDetector.reset
                        (BaseDriftDetector.add_element d
                           (int_not correctly_classifies)))
           /\ ARFBaseLearner.created_on self' = instances_seen
       end.
Proof.
  intros Hwf Htrain Hd Hchange.
  destruct (train_and_check_warning_frame _ _ _ _ _ _ _ _ _ Htrain)
    as (Hnb & _ & Hwf_mid).
  specialize (Hwf_mid Hwf). rewrite <- Hnb. clear Hnb Hwf.
  unfold ARFBaseLearner.partial_fit, bind. rewrite Htrain.
  unfold shadow_needs_warning_policy in Hwf_mid.
  destruct mid. simpl in *. subst.
  unfold ARFBaseLearner.update_drift_detection, ARFBaseLearner.reset,
    ARFBaseLearner.attr, ARFBaseLearner.assign, bind, gets, modify, ret, raise.
  simpl. rewrite Hchange. simpl.
  destruct background_learner as [b|]; simpl.
  - rewrite Hwf_mid by discriminate. simpl.
    destruct evaluator_method, (ARFBaseLearner.evaluator_method b).
    eexists. split; [reflexivity|]. simpl. repeat split.
  - destruct _use_background_learner; simpl;
      destruct evaluator_method;
      (eexists; split; [reflexivity|]; simpl; repeat split).
Qed.

(** [partial_fit] keeps background learners from shadowing, whether it
    returns or raises. *)
Lemma partial_fit_no_recursive_shadowing (self : ARFBaseLearner.t D C) (rs : R)
    X y w seen :
  no_recursive_shadowing self ->
  no_recursive_shadowing
    (fst (final_state (ARFBaseLearner.partial_fit X y w seen (self, rs)))).
Proof.
  unfold no_recursive_shadowing.
  destruct self. destruct background_learner as [b|]; [destruct b|];
    unfold_learner; simpl; intros Hinv; split_Forall; simpl in *.
  all: repeat break_learner.
  all: simpl; repeat constructor; simpl; auto; try congruence.
  all: intuition congruence.
Qed.

Lemma init_no_recursive_shadowing idx (c : C) seen em (ddm wdm : option D) bkg :
  no_recursive_shadowing (ARFBaseLearner.__init__ idx c seen em ddm wdm bkg).
Proof.
  unfold no_recursive_shadowing. simpl. repeat constructor.
Qed.

Lemma set_evaluator_no_recursive_shadowing e (self : ARFBaseLearner.t D C) :
  no_recursive_shadowing self ->
  no_recursive_shadowing (ARFBaseLearner.set_evaluator e self).
Proof.
  unfold no_recursive_shadowing. destruct self. simpl.
  intros H. inversion_clear H. constructor; assumption.
Qed.

End LearnerFacts.

(** With a background learner: the warning and the drift detector both
    signal on the first instance, and the new background tree is promoted. *)
Lemma drift_confirmed_witness :
  exists self',
    ARFBaseLearner.partial_fit Sample.row10 5 1 7 (Sample.alert_learner, [4])
    = Return tt (self', [4])
    /\ ARFBaseLearner.last_drift_on self' = 7
    /\ ARFBaseLearner.nb_drifts_detected self' = 0 + 1
    /\ ARFBaseLearner.evaluator self' = ARFBaseClassifierEvaluator.__init__
    /\ ARFBaseClassifierEvaluator.aggregation (ARFBaseLearner.evaluator self') = 0%Q
    /\ ARFBaseLearner.background_learner self' = None
    /\ (ARFBaseLearner.classifier self'
        = {| Sample.subsample := 3; Sample.observed := [] |}
        /\ ARFBaseLearner.warning_detection self' = Some (Sample.detector 0)
        /\ ARFBaseLearner.drift_detection self' = Some (Sample.detector 0)
        /\ ARFBaseLearner.created_on self' = 7).
Proof.
  assert (Hpolicy : shadow_needs_warning_policy Sample.alert_learner)
    by (intros _; reflexivity).
  exact (drift_confirmed Sample.alert_learner
           (fst (final_state
                   (ARFBaseLearner.train_and_check_warning Sample.row10 5 1 7
                      (Sample.alert_learner, [4]))))
           [4] [4] Sample.row10 5 1 7 true (Sample.detector 0)
           Hpolicy eq_refl eq_refl eq_refl).
Defined.

(** Without a background learner the learner is reset in place. *)
Example drift_confirmed_in_place :
  exists self',
    ARFBaseLearner.partial_fit Sample.row10 1 1 7 (Sample.unwarned_learner, [4])
    = Return tt (self', [4])
    /\ ARFBaseLearner.classifier self'
       = {| Sample.subsample := 3; Sample.observed := [] |}
    /\ ARFBaseLearner.created_on self' = 7
    /\ ARFBaseLearner.nb_drifts_detected self' = 1
    /\ ARFBaseLearner.evaluator self' = ARFBaseClassifierEvaluator.__init__.
Proof. eexists. vm_compute. repeat split. Qed.

(* ===================================================================== *)
(** * Rules for assertions on methods                                      *)
(* ===================================================================== *)

Section MethodRules.

Context {S : Type}.

Lemma preserves_final_state {A} (Inv : S -> Prop) (c : M S A) (s : S) :
  preserves Inv c -> Inv s -> Inv (final_state (c s)).
Proof.
  intros Hc Hs. specialize (Hc s Hs). destruct (c s); exact Hc.
Qed.

Lemma triple_bind {A B} (P : S -> Prop) (Q1 : A -> S -> Prop)
    (Q : B -> S -> Prop) (E : S -> Prop) (c : M S A) (k : A -> M S B) :
  triple P c Q1 E ->
  (forall a, triple (Q1 a) (k a) Q E) ->
  triple P (bind c k) Q E.
Proof.
  intros Hc Hk s Hs. unfold bind. specialize (Hc s Hs).
  destruct (c s) as [a s'|e s']; [exact (Hk a s' Hc)|exact Hc].
Qed.

Lemma triple_modify (P : S -> Prop) (Q : unit -> S -> Prop) (E : S -> Prop)
    (f : S -> S) :
  (forall s, P s -> Q tt (f s)) -> triple P (modify f) Q E.
Proof. intros Hf s Hs. exact (Hf s Hs). Qed.

Lemma preserves_bind {A B} (Inv : S -> Prop) (c : M S A) (k : A -> M S B) :
  preserves Inv c -> (forall a, preserves Inv (k a)) -> preserves Inv (bind c k).
Proof. intros Hc Hk. exact (triple_bind _ _ _ _ _ _ Hc Hk). Qed.

Lemma preserves_ret {A} (Inv : S -> Prop) (a : A) : preserves Inv (ret a).
Proof. intros s Hs. exact Hs. Qed.

Lemma preserves_raise {A} (Inv : S -> Prop) (e : exn) :
  preserves Inv (raise e : M S A).
Proof. intros s Hs. exact Hs. Qed.

Lemma preserves_gets {A} (Inv : S -> Prop) (f : S -> A) : preserves Inv (gets f).
Proof. intros s Hs. exact Hs. Qed.

Lemma preserves_modify (Inv : S -> Prop) (f : S -> S) :
  (forall s, Inv s -> Inv (f s)) -> preserves Inv (modify f).
Proof. intros Hf s Hs. exact (Hf s Hs). Qed.

Lemma preserves_for_fold {I A} (Inv : S -> Prop) (range : list I)
    (body : I -> A -> M S A) (acc : A) :
  (forall i a, preserves Inv (body i a)) ->
  preserves Inv (for_fold range body acc).
Proof.
  intros Hbody. revert acc.
  induction range as [|i range IH]; intros acc; simpl.
  - apply preserves_ret.
  - apply preserves_bind; [apply Hbody|exact IH].
Qed.

Lemma preserves_for_range (Inv : S -> Prop) (n : nat) (body : nat -> M S unit) :
  (forall i, preserves Inv (body i)) -> preserves Inv (for_range n body).
Proof. intros Hbody. apply preserves_for_fold. intros i _. apply Hbody. Qed.

(** A loop over the indices of a list whose body only looks at the
    element is the loop over the elements. *)
Lemma for_each_indices {A} (l : list A) (body : nat -> M S unit)
    (body' : A -> M S unit) (start : nat) (s : S) :
  (forall i a s', l !! i = Some a -> body (start + i)%nat s' = body' a s') ->
  for_each (seq start (List.length l)) body s = for_each l body' s.
Proof.
  unfold for_each. revert start s.
  induction l as [|a l IH]; intros start s Hbody; simpl; [reflexivity|].
  unfold bind. rewrite <- (Hbody 0%nat a s eq_refl), Nat.add_0_r.
  destruct (body start s) as [[] s'|e s']; [|reflexivity].
  apply IH. intros i a' s'' Hi.
  rewrite <- (Hbody (Datatypes.S i) a' s'' Hi). f_equal. lia.
Qed.

End MethodRules.

(** One step of a proof that a method keeps an invariant. *)
Ltac preserve :=
  repeat first
    [ apply preserves_bind; [|intros ?]
    | apply preserves_ret
    | apply preserves_raise
    | apply preserves_gets
    | apply preserves_for_range; intros ?
    | apply preserves_modify; intros ? ?
    | match goal with
      | |- preserves _ (match ?x with _ => _ end) => destruct x
      end ].

(* ===================================================================== *)
(** * The forest: what training leaves alone                               *)
(* ===================================================================== *)

Section ForestFrame.

Context {D R C : Type}.
Context `{Det : !BaseDriftDetector.t D} `{Rnd : !RandomState.t R}
        `{Tree : !ARFHoeffdingTree.t R C}.

Implicit Types (self : AdaptiveRandomForest.t D R C)
               (Inv : AdaptiveRandomForest.t D R C -> Prop).

Lemma preserves_get_learner Inv i :
  preserves Inv (AdaptiveRandomForest.get_learner (D:=D) (R:=R) (C:=C) i).
Proof. unfold AdaptiveRandomForest.get_learner. preserve. Qed.

Lemma framed_put_learner Inv i l self :
  framed Inv -> Inv self -> Inv (AdaptiveRandomForest.put_learner i l self).
Proof.
  intros (He & _) Hs. unfold AdaptiveRandomForest.put_learner.
  destruct (AdaptiveRandomForest.ensemble self); auto.
Qed.

Lemma preserves_call_learner {A} Inv i (m : ARFBaseLearner.method A) :
  framed Inv ->
  preserves Inv (AdaptiveRandomForest.call_learner (D:=D) (R:=R) (C:=C) i m).
Proof.
  intros HF. unfold AdaptiveRandomForest.call_learner.
  apply preserves_bind; [apply preserves_get_learner|].
  intros l self Hs.
  destruct (m (l, AdaptiveRandomForest.random_state self))
    as [a [l' rs]|e [l' rs]];
    apply HF; apply framed_put_learner; assumption.
Qed.

Lemma preserves_set_max_features Inv n :
  framed Inv ->
  preserves Inv (AdaptiveRandomForest._set_max_features (D:=D) (R:=R) (C:=C) n).
Proof.
  intros HF. unfold AdaptiveRandomForest._set_max_features. preserve.
  apply HF; assumption.
Qed.

Lemma preserves_init_ensemble Inv X :
  framed Inv -> preserves Inv (AdaptiveRandomForest.init_ensemble X).
Proof.
  intros HF.
  unfold AdaptiveRandomForest.init_ensemble, AdaptiveRandomForest.init_slot.
  preserve; apply HF; assumption.
Qed.

Lemma preserves_ensure_ensemble Inv X :
  framed Inv -> preserves Inv (AdaptiveRandomForest.ensure_ensemble X).
Proof.
  intros HF. unfold AdaptiveRandomForest.ensure_ensemble.
  apply preserves_bind; [apply preserves_gets|intros [slots|]].
  - apply preserves_ret.
  - apply preserves_init_ensemble; assumption.
Qed.

Lemma preserves_draw_poisson Inv :
  framed Inv -> preserves Inv AdaptiveRandomForest.draw_poisson.
Proof.
  intros HF self Hs. unfold AdaptiveRandomForest.draw_poisson.
  destruct (RandomState.poisson _ _). apply HF; assumption.
Qed.

Lemma framed_instances_seen (c : Z) :
  framed (fun self => AdaptiveRandomForest.instances_seen self = c).
Proof. repeat split; intros v [] H; exact H. Qed.

(** The per-instance routine adds one to the instance counter, whether
    it returns or raises. *)
Lemma _partial_fit_counts_one X y weight self :
  AdaptiveRandomForest.instances_seen
    (final_state (AdaptiveRandomForest._partial_fit X y weight self))
  = AdaptiveRandomForest.instances_seen self + 1.
Proof.
  set (c := AdaptiveRandomForest.instances_seen self).
  assert (Htriple :
    triple (fun s => AdaptiveRandomForest.instances_seen s = c)
           (AdaptiveRandomForest._partial_fit X y weight)
           (fun _ s => AdaptiveRandomForest.instances_seen s = c + 1)
           (fun s => AdaptiveRandomForest.instances_seen s = c + 1)).
  { unfold AdaptiveRandomForest._partial_fit.
    apply triple_bind
      with (Q1 := fun _ s => AdaptiveRandomForest.instances_seen s = c + 1).
    - apply triple_modify. intros [] H. simpl in *. rewrite H. reflexivity.
    - intros _.
      pose proof (framed_instances_seen (c + 1)) as HF.
      change (preserves (fun s => AdaptiveRandomForest.instances_seen s = c + 1)
                (AdaptiveRandomForest.ensure_ensemble X ;;
                 nb <- gets AdaptiveRandomForest.nb_ensemble ;;
                 for_range (Z.to_nat nb) (fun i =>
                   learner <- AdaptiveRandomForest.get_learner i ;;
                   let y_predicted := ARFBaseLearner.predict learner X in
                   learner <- AdaptiveRandomForest.get_learner i ;;
                   modify (AdaptiveRandomForest.put_learner i
                             (ARFBaseLearner.set_evaluator
                                (ARFBaseClassifierEvaluator.update y_predicted y weight
                                   (ARFBaseLearner.evaluator learner))
                                learner)) ;;
                   k <- AdaptiveRandomForest.draw_poisson ;;
                   if 0 <? k then
                     seen <- gets AdaptiveRandomForest.instances_seen ;;
                     AdaptiveRandomForest.call_learner i
                       (ARFBaseLearner.partial_fit X y (inject_Z k) seen)
                   else ret tt))%py).
      apply preserves_bind; [apply preserves_ensure_ensemble; exact HF|intros _].
      apply preserves_bind; [apply preserves_gets|intros nb].
      apply preserves_for_range. intros i.
      apply preserves_bind; [apply preserves_get_learner|intros l1].
      apply preserves_bind; [apply preserves_get_learner|intros l2].
      apply preserves_bind.
      { apply preserves_modify. intros s Hs.
        apply framed_put_learner; assumption. }
      intros _.
      apply preserves_bind; [apply preserves_draw_poisson; exact HF|intros k].
      destruct (0 <? k).
      + apply preserves_bind; [apply preserves_gets|intros seen].
        apply preserves_call_learner; exact HF.
      + apply preserves_ret. }
  specialize (Htriple self eq_refl).
  destruct (AdaptiveRandomForest._partial_fit X y weight self); exact Htriple.
Qed.

(** C8.  In [partial_fit], a row whose weight is zero leaves the whole
    forest as it is; a row with a non-zero weight runs the per-instance
    routine for that row, which adds exactly one to the instance counter;
    and a batch is the sequence of its rows. *)
Theorem partial_fit_row_by_row self (X : list instance) (y : list label)
    (weight : list Q) :
  List.length y = List.length X ->
  List.length weight = List.length X ->
  AdaptiveRandomForest.partial_fit X (Some y) (Some weight) self
  = for_each (zip X (zip y weight))
      (fun row => AdaptiveRandomForest.fit_row row.1 row.2.1 row.2.2) self
  /\ (forall Xi yi w self,
        (w == 0)%Q ->
        AdaptiveRandomForest.fit_row Xi yi w self = Return tt self)
  /\ (forall Xi yi w self,
        ~ (w == 0)%Q ->
        AdaptiveRandomForest.fit_row Xi yi w self
        = AdaptiveRandomForest._partial_fit Xi yi w
            (AdaptiveRandomForest.set__train_weight_seen_by_model
               (AdaptiveRandomForest._train_weight_seen_by_model self + w)%Q self)
        /\ AdaptiveRandomForest.instances_seen
             (final_state (AdaptiveRandomForest.fit_row Xi yi w self))
           = AdaptiveRandomForest.instances_seen self + 1).
Proof.
  intros Hy Hw. split; [|split].
  - unfold AdaptiveRandomForest.partial_fit, row_count.
    rewrite <- Hw, Nat.eqb_refl. unfold bind at 1, ret at 1.
    unfold for_range.
    replace (List.length weight) with (List.length (zip X (zip y weight))).
    2:{ rewrite !length_zip; lia. }
    apply for_each_indices. intros i [Xi [yi w]] s' Hi.
    apply lookup_zip_Some in Hi as [HX Hi].
    apply lookup_zip_Some in Hi as [Hyi Hwi].
    simpl. rewrite Hwi, HX, Hyi. reflexivity.
  - intros Xi yi w s Hz. unfold AdaptiveRandomForest.fit_row.
    apply Qnonzero_false in Hz. rewrite Hz. reflexivity.
  - intros Xi yi w s Hnz. apply Qnonzero_true in Hnz.
    assert (Heq : AdaptiveRandomForest.fit_row Xi yi w s
                  = AdaptiveRandomForest._partial_fit Xi yi w
                      (AdaptiveRandomForest.set__train_weight_seen_by_model
                         (AdaptiveRandomForest._train_weight_seen_by_model s + w)%Q
                         s)).
    { unfold AdaptiveRandomForest.fit_row. rewrite Hnz. reflexivity. }
    split; [exact Heq|].
    rewrite Heq, _partial_fit_counts_one. destruct s; reflexivity.
Qed.

End ForestFrame.

Lemma partial_fit_row_by_row_witness :
  AdaptiveRandomForest.partial_fit [Sample.row10; Sample.row10] (Some [1; 1])
    (Some [0%Q; 1%Q]) Sample.monitored_forest
  = for_each (zip [Sample.row10; Sample.row10] (zip [1; 1] [0%Q; 1%Q]))
      (fun row => AdaptiveRandomForest.fit_row row.1 row.2.1 row.2.2)
      Sample.monitored_forest.
Proof.
  exact (proj1 (partial_fit_row_by_row Sample.monitored_forest
                  [Sample.row10; Sample.row10] [1; 1] [0%Q; 1%Q]
                  eq_refl eq_refl)).
Defined.

(** The batch above: the first row is skipped, the second is counted. *)
Example partial_fit_skips_zero_weight :
  AdaptiveRandomForest.instances_seen
    (final_state
       (AdaptiveRandomForest.partial_fit [Sample.row10; Sample.row10] (Some [1; 1])
          (Some [0%Q; 1%Q]) Sample.monitored_forest))
  = 1.
Proof. vm_compute. reflexivity. Qed.

(* ===================================================================== *)
(** * The forest: no recursive shadowing                                   *)
(* ===================================================================== *)

Section ForestInvariant.

Context {D R C : Type}.
Context `{Det : !BaseDriftDetector.t D} `{Rnd : !RandomState.t R}
        `{Tree : !ARFHoeffdingTree.t R C}.

Implicit Types (self : AdaptiveRandomForest.t D R C).

Local Abbreviation ok := (@ensemble_ok D R C).

Lemma ensemble_ok_put_learner i l self :
  no_recursive_shadowing l ->
  ensemble_ok self ->
  ensemble_ok (AdaptiveRandomForest.put_learner i l self).
Proof.
  unfold ensemble_ok, AdaptiveRandomForest.put_learner.
  intros Hl Hs. destruct self as [? ? ? ? ? ? ? ? [slots|] ? ? ?]; simpl in *;
    [|exact I].
  apply Forall_insert; assumption.
Qed.

Lemma get_learner_ok i :
  triple ok (AdaptiveRandomForest.get_learner (D:=D) (R:=R) (C:=C) i)
    (fun l s => ok s /\ no_recursive_shadowing l) ok.
Proof.
  intros s Hs. unfold AdaptiveRandomForest.get_learner, bind, gets, ret, raise.
  destruct (AdaptiveRandomForest.ensemble s) as [slots|] eqn:Hens; [|exact Hs].
  destruct (slots !! i) as [[l|]|] eqn:Hi; try exact Hs.
  split; [exact Hs|].
  unfold ensemble_ok in Hs. rewrite Hens in Hs.
  exact (proj1 (Forall_lookup _ _) Hs i (Some l) Hi).
Qed.

Lemma preserves_ok_get_learner i :
  preserves ok (AdaptiveRandomForest.get_learner (D:=D) (R:=R) (C:=C) i).
Proof.
  intros s Hs. pose proof (get_learner_ok i s Hs) as H.
  destruct (AdaptiveRandomForest.get_learner i s); [exact (proj1 H)|exact H].
Qed.

Lemma preserves_ok_call_learner {A} i (m : ARFBaseLearner.method A) :
  (forall l rs, no_recursive_shadowing l ->
                no_recursive_shadowing (fst (final_state (m (l, rs))))) ->
  preserves ok
    (AdaptiveRandomForest.call_learner (D:=D) (R:=R) (C:=C) i m).
Proof.
  intros Hm. unfold AdaptiveRandomForest.call_learner.
  eapply triple_bind; [apply get_learner_ok|].
  intros l s [Hs Hl].
  specialize (Hm l (AdaptiveRandomForest.random_state s) Hl).
  destruct (m (l, AdaptiveRandomForest.random_state s)) as [a [l' rs]|e [l' rs]];
    simpl in Hm;
    pose proof (ensemble_ok_put_learner i l' s Hm Hs) as Hput;
    destruct (AdaptiveRandomForest.put_learner i l' s); exact Hput.
Qed.

Lemma preserves_ok_init_ensemble X :
  preserves ok (AdaptiveRandomForest.init_ensemble X).
Proof.
  unfold AdaptiveRandomForest.init_ensemble.
  apply preserves_bind.
  { apply preserves_modify. intros [] _. unfold ensemble_ok. simpl.
    apply Forall_replicate. exact I. }
  intros _. apply preserves_bind.
  { unfold AdaptiveRandomForest._set_max_features. preserve.
    destruct s; assumption. }
  intros _. apply preserves_bind; [apply preserves_gets|intros nb].
  apply preserves_for_range. intros i s Hs.
  unfold AdaptiveRandomForest.init_slot, bind, gets, modify, raise.
  destruct (AdaptiveRandomForest.ensemble s) as [slots|] eqn:Hens; [|exact Hs].
  destruct (i <? List.length slots)%nat; [|exact Hs].
  destruct (AdaptiveRandomForest.max_features s); try exact Hs.
  unfold ensemble_ok in *. rewrite Hens in Hs.
  destruct s; simpl in *.
  apply Forall_insert; [exact Hs|apply init_no_recursive_shadowing].
Qed.

Lemma preserves_ok_ensure_ensemble X :
  preserves ok (AdaptiveRandomForest.ensure_ensemble X).
Proof.
  unfold AdaptiveRandomForest.ensure_ensemble.
  apply preserves_bind; [apply preserves_gets|intros [slots|]].
  - apply preserves_ret.
  - apply preserves_ok_init_ensemble.
Qed.

Lemma preserves_ok__partial_fit X y weight :
  preserves ok (AdaptiveRandomForest._partial_fit X y weight).
Proof.
  unfold AdaptiveRandomForest._partial_fit.
  apply preserves_bind.
  { apply preserves_modify. intros [] H. exact H. }
  intros _. apply preserves_bind; [apply preserves_ok_ensure_ensemble|intros _].
  apply preserves_bind; [apply preserves_gets|intros nb].
  apply preserves_for_range. intros i.
  apply preserves_bind; [apply preserves_ok_get_learner|intros l1].
  eapply triple_bind; [apply get_learner_ok|]. intros l2.
  apply triple_bind with (Q1 := fun _ => ok).
  { apply triple_modify. intros s [Hs Hl].
    apply ensemble_ok_put_learner; [|exact Hs].
    apply set_evaluator_no_recursive_shadowing. exact Hl. }
  intros _. apply preserves_bind.
  { intros s Hs. unfold AdaptiveRandomForest.draw_poisson.
    destruct (RandomState.poisson _ _). destruct s; exact Hs. }
  intros k. destruct (0 <? k).
  - apply preserves_bind; [apply preserves_gets|intros seen].
    apply preserves_ok_call_learner. intros l rs.
    apply partial_fit_no_recursive_shadowing.
  - apply preserves_ret.
Qed.

Lemma preserves_ok_partial_fit X y weight :
  preserves ok (AdaptiveRandomForest.partial_fit X y weight).
Proof.
  unfold AdaptiveRandomForest.partial_fit.
  destruct y as [y|]; [|apply preserves_ret].
  apply preserves_bind.
  { destruct (_ =? _)%nat; [apply preserves_ret|].
    destruct (match weight with Some w => w | None => [INSTANCE_WEIGHT] end);
      [apply preserves_raise|apply preserves_ret]. }
  intros w. apply preserves_for_range. intros i.
  destruct (w !! i) as [wi|]; [|apply preserves_raise].
  destruct (Qnonzero wi); [|apply preserves_ret].
  apply preserves_bind.
  { apply preserves_modify. intros [] H. exact H. }
  intros _. destruct (X !! i); [|apply preserves_raise].
  destruct (y !! i); [|apply preserves_raise].
  apply preserves_ok__partial_fit.
Qed.

Lemma preserves_ok_get_votes_for_instance X :
  preserves ok (AdaptiveRandomForest.get_votes_for_instance X).
Proof.
  unfold AdaptiveRandomForest.get_votes_for_instance.
  apply preserves_bind; [apply preserves_ok_ensure_ensemble|intros _].
  apply preserves_bind; [apply preserves_gets|intros nb].
  apply preserves_for_fold. intros i acc.
  unfold AdaptiveRandomForest.add_votes_of_learner.
  apply preserves_bind; [apply preserves_ok_get_learner|intros l].
  destruct (_ && _)%bool; [|apply preserves_ret].
  apply preserves_bind; [apply preserves_gets|intros dwv].
  apply preserves_ret.
Qed.

Lemma preserves_ok_predict X :
  preserves ok (AdaptiveRandomForest.predict X).
Proof.
  unfold AdaptiveRandomForest.predict.
  apply preserves_for_fold. intros Xi acc.
  apply preserves_bind; [apply preserves_ok_get_votes_for_instance|intros v].
  apply preserves_ret.
Qed.

Lemma preserves_ok_reset :
  preserves ok (AdaptiveRandomForest.reset (D:=D) (R:=R) (C:=C)).
Proof. intros [] _. exact I. Qed.

Lemma reachable_ensemble_ok self : reachable self -> ensemble_ok self.
Proof.
  induction 1.
  - exact I.
  - apply preserves_final_state; [apply preserves_ok_partial_fit|assumption].
  - apply preserves_final_state; [apply preserves_ok_predict|assumption].
  - apply preserves_final_state;
      [apply preserves_ok_get_votes_for_instance|assumption].
  - apply preserves_final_state; [apply preserves_ok_reset|assumption].
Qed.

(** C9.  In every state of the forest that calls of its methods can
    reach, a learner marked as background learner, at any depth, holds no
    background learner. *)
Theorem background_learner_never_shadows self (l : ARFBaseLearner.t D C) :
  reachable self ->
  In l (AdaptiveRandomForest.learners self) ->
  ARFBaseLearner.is_background_learner l = true ->
  ARFBaseLearner.background_learner l = None.
Proof.
  intros Hreach Hin. apply reachable_ensemble_ok in Hreach.
  unfold ensemble_ok, AdaptiveRandomForest.learners in *.
  destruct (AdaptiveRandomForest.ensemble self) as [slots|]; [|contradiction].
  apply in_flat_map in Hin as (slot & Hslot & Hl).
  destruct slot as [l0|]; [|contradiction].
  pose proof (proj1 (List.Forall_forall _ _) Hreach _ Hslot) as Hl0.
  simpl in Hl0. unfold no_recursive_shadowing in Hl0.
  exact (proj1 (List.Forall_forall _ _) Hl0 l Hl).
Qed.

End ForestInvariant.

Lemma background_learner_never_shadows_witness :
  In Sample.shadow
     (AdaptiveRandomForest.learners
        (final_state
           (AdaptiveRandomForest.partial_fit [Sample.row10] (Some [1]) None
              Sample.warned_forest)))
  /\ ARFBaseLearner.is_background_learner Sample.shadow = true
  /\ ARFBaseLearner.background_learner Sample.shadow = None.
Proof.
  assert (Hin : In Sample.shadow
                   (AdaptiveRandomForest.learners
                      (final_state
                         (AdaptiveRandomForest.partial_fit [Sample.row10] (Some [1])
                            None Sample.warned_forest)))).
  { vm_compute. right. left. reflexivity. }
  split; [exact Hin|]. split; [reflexivity|].
  apply (background_learner_never_shadows
           (final_state
              (AdaptiveRandomForest.partial_fit [Sample.row10] (Some [1]) None
                 Sample.warned_forest))
           Sample.shadow).
  - apply reachable_partial_fit. apply reachable_init.
  - exact Hin.
  - reflexivity.
Defined.

(* ===================================================================== *)
(** * Facts about vote mappings                                            *)
(* ===================================================================== *)

Lemma dict_get_dict_add (d : votes) (k k' : label) (v : Q) :
  dict_get (dict_add d k v) k'
  = if Z.eqb k k'
    then Some (match dict_get d k with Some v0 => (v0 + v)%Q | None => v end)
    else dict_get d k'.
Proof.
  induction d as [|[k0 v0] d IH]; simpl.
  - destruct (Z.eqb_spec k k'); reflexivity.
  - destruct (Z.eqb_spec k0 k) as [->|Hk0]; simpl.
    + destruct (Z.eqb_spec k k'); reflexivity.
    + rewrite IH. destruct (Z.eqb_spec k k') as [<-|Hk].
      * destruct (Z.eqb_spec k0 k); [contradiction|reflexivity].
      * reflexivity.
Qed.

Lemma score_dict_add (d : votes) (k k' : label) (v : Q) :
  (score (dict_add d k v) k' == score d k' + (if Z.eqb k k' then v else 0))%Q.
Proof.
  unfold score. rewrite dict_get_dict_add.
  destruct (Z.eqb_spec k k') as [<-|Hk].
  - destruct (dict_get d k); ring.
  - ring.
Qed.

Lemma keys_dict_add (d : votes) (k : label) (v : Q) :
  keys (dict_add d k v) = if existsb (Z.eqb k) (keys d) then keys d else keys d ++ [k].
Proof.
  induction d as [|[k0 v0] d IH]; simpl; [reflexivity|].
  rewrite (Z.eqb_sym k k0).
  destruct (Z.eqb k0 k); simpl; [reflexivity|].
  unfold keys in *. rewrite IH.
  destruct (existsb (Z.eqb k) (map fst d)); reflexivity.
Qed.

Lemma NoDup_keys_dict_add (d : votes) (k : label) (v : Q) :
  NoDup (keys d) -> NoDup (keys (dict_add d k v)).
Proof.
  intros Hd. rewrite keys_dict_add.
  destruct (existsb (Z.eqb k) (keys d)) eqn:Hex; [exact Hd|].
  apply NoDup_app. split; [exact Hd|]. split; [|apply NoDup_singleton].
  intros x Hx Hk. apply list_elem_of_singleton in Hk as ->.
  apply list_elem_of_In in Hx.
  assert (existsb (Z.eqb k) (keys d) = true); [|congruence].
  apply existsb_exists. exists k. split; [exact Hx|apply Z.eqb_refl].
Qed.

Lemma NoDup_keys_add_values (vote combined : votes) :
  NoDup (keys combined) -> NoDup (keys (add_values combined vote)).
Proof.
  unfold add_values. revert combined.
  induction vote as [|[k v] vote IH]; intros combined Hc; simpl; [exact Hc|].
  apply IH. apply NoDup_keys_dict_add. exact Hc.
Qed.

Lemma score_absent (d : votes) (k : label) :
  ~ In k (keys d) -> score d k = 0%Q.
Proof.
  unfold score. induction d as [|[k0 v0] d IH]; simpl; [reflexivity|].
  intros Hk. destruct (Z.eqb_spec k0 k); [tauto|]. apply IH. tauto.
Qed.

Lemma score_add_values (vote combined : votes) (k : label) :
  NoDup (keys vote) ->
  (score (add_values combined vote) k == score combined k + score vote k)%Q.
Proof.
  unfold add_values. revert combined.
  induction vote as [|[k0 v0] vote IH]; intros combined Hnd; simpl.
  - unfold score at 3. simpl. ring.
  - apply NoDup_cons in Hnd as [Hk0 Hvote].
    rewrite list_elem_of_In in Hk0.
    rewrite (IH _ Hvote), score_dict_add.
    unfold score at 4. simpl.
    destruct (Z.eqb_spec k0 k) as [->|Hne].
    + rewrite (score_absent vote k Hk0). ring.
    + fold (score vote k). ring.
Qed.

Lemma keys_map_values (f : Q -> Q) (d : votes) : keys (map_values f d) = keys d.
Proof.
  unfold keys, map_values. rewrite map_map. apply map_ext. intros [k v]. reflexivity.
Qed.

Lemma score_map_values (f : Q -> Q) (d : votes) (k : label) :
  (f 0 == 0)%Q -> (score (map_values f d) k == f (score d k))%Q.
Proof.
  intros Hf. unfold score.
  induction d as [|[k0 v0] d IH]; simpl; [symmetry; exact Hf|].
  destruct (Z.eqb k0 k); [reflexivity|exact IH].
Qed.

Lemma fold_left_Qplus_nonneg (l : list Q) (acc : Q) :
  (0 <= acc)%Q -> Forall (fun x => (0 <= x)%Q) l -> (0 <= fold_left Qplus l acc)%Q.
Proof.
  revert acc. induction l as [|x l IH]; intros acc Hacc Hl; simpl; [exact Hacc|].
  inversion_clear Hl. apply IH; [|assumption].
  replace 0%Q with (0 + 0)%Q by reflexivity. apply Qplus_le_compat; assumption.
Qed.

Lemma sum_values_nonneg (d : votes) :
  Forall (fun x => (0 <= x)%Q) (values d) -> (0 <= sum_values d)%Q.
Proof. apply fold_left_Qplus_nonneg. apply Qle_refl. Qed.

(** The label that [max] picks: the first, in insertion order, that holds
    the maximum. *)
Lemma max_from_first_maximum (rest pre post : votes) (best : label * Q) :
  Forall (fun kv => (snd kv < snd best)%Q) pre ->
  Forall (fun kv => (snd kv <= snd best)%Q) post ->
  exists before value after,
    pre ++ best :: post ++ rest = before ++ (max_from best rest, value) :: after
    /\ Forall (fun kv => (snd kv < value)%Q) before
    /\ Forall (fun kv => (snd kv <= value)%Q) after.
Proof.
  revert pre post best.
  induction rest as [|[k v] rest IH]; intros pre post [kb vb] Hpre Hpost; simpl in *.
  - exists pre, vb, post. rewrite app_nil_r. auto.
  - destruct (Qgt_bool v vb) eqn:Hgt.
    + apply Qgt_bool_true in Hgt.
      destruct (IH (pre ++ (kb, vb) :: post) [] (k, v)) as (b & x & a & Heq & Hb & Ha).
      * simpl. apply Forall_app. split.
        -- eapply Forall_impl; [exact Hpre|]. simpl. intros kv Hkv.
           eapply Qlt_trans; eassumption.
        -- constructor; [exact Hgt|].
           eapply Forall_impl; [exact Hpost|]. simpl. intros kv Hkv.
           eapply Qle_lt_trans; eassumption.
      * constructor.
      * exists b, x, a. split; [|auto].
        rewrite <- Heq. simpl. rewrite <- !app_assoc. reflexivity.
    + apply Qgt_bool_false in Hgt.
      destruct (IH pre (post ++ [(k, v)]) (kb, vb)) as (b & x & a & Heq & Hb & Ha).
      * exact Hpre.
      * apply Forall_app. split; [exact Hpost|]. constructor; [exact Hgt|constructor].
      * exists b, x, a. split; [|auto].
        rewrite <- Heq. rewrite <- !app_assoc. reflexivity.
Qed.

(* ===================================================================== *)
(** * The forest: vote aggregation and prediction                          *)
(* ===================================================================== *)

Section ForestVotes.

Context {D R C : Type}.
Context `{Det : !BaseDriftDetector.t D} `{Rnd : !RandomState.t R}
        `{Tree : !ARFHoeffdingTree.t R C}.

Implicit Types (self : AdaptiveRandomForest.t D R C)
               (ls : list (ARFBaseLearner.t D C)).

Lemma get_learner_initialised self ls i l :
  AdaptiveRandomForest.ensemble self = Some (map Some ls) ->
  ls !! i = Some l ->
  AdaptiveRandomForest.get_learner i self = Return l self.
Proof.
  intros Hens Hi.
  unfold AdaptiveRandomForest.get_learner, bind, gets, ret.
  rewrite Hens.
  change (map Some ls) with (Some <$> ls).
  rewrite list_lookup_fmap, Hi. reflexivity.
Qed.

Lemma add_votes_of_learner_run self ls X i l combined :
  AdaptiveRandomForest.ensemble self = Some (map Some ls) ->
  ls !! i = Some l ->
  AdaptiveRandomForest.add_votes_of_learner X i combined self
  = Return
      (add_values combined
         (learner_votes (AdaptiveRandomForest.disable_weighted_vote self) l X))
      self.
Proof.
  intros Hens Hi.
  unfold AdaptiveRandomForest.add_votes_of_learner, learner_votes, bind.
  rewrite (get_learner_initialised self ls i l Hens Hi).
  destruct (_ && _)%bool; [|reflexivity].
  unfold gets, ret.
  destruct (AdaptiveRandomForest.disable_weighted_vote self); reflexivity.
Qed.

Lemma votes_loop_run self ls X (len start : nat) combined :
  AdaptiveRandomForest.ensemble self = Some (map Some ls) ->
  (start + len <= List.length ls)%nat ->
  for_fold (seq start len) (AdaptiveRandomForest.add_votes_of_learner X) combined self
  = Return
      (fold_left
         (fun acc l =>
            add_values acc
              (learner_votes (AdaptiveRandomForest.disable_weighted_vote self) l X))
         (take len (drop start ls)) combined)
      self.
Proof.
  intros Hens. revert start combined.
  induction len as [|len IH]; intros start combined Hlen; simpl.
  - reflexivity.
  - destruct (lookup_lt_is_Some_2 ls start ltac:(lia)) as [l Hl].
    unfold bind.
    rewrite (add_votes_of_learner_run self ls X start l combined Hens Hl).
    rewrite (drop_S ls l start Hl). simpl.
    apply IH. lia.
Qed.

Lemma get_votes_for_instance_run self ls X :
  AdaptiveRandomForest.ensemble self = Some (map Some ls) ->
  List.length ls = Z.to_nat (AdaptiveRandomForest.nb_ensemble self) ->
  AdaptiveRandomForest.get_votes_for_instance X self
  = Return
      (fold_left
         (fun acc l =>
            add_values acc
              (learner_votes (AdaptiveRandomForest.disable_weighted_vote self) l X))
         ls [])
      self.
Proof.
  intros Hens Hlen.
  unfold AdaptiveRandomForest.get_votes_for_instance,
    AdaptiveRandomForest.ensure_ensemble, bind at 1 2, gets at 1.
  rewrite Hens. unfold ret at 1. unfold bind at 1, gets.
  rewrite (votes_loop_run self ls X _ 0 [] Hens) by lia.
  rewrite drop_0, <- Hlen, firstn_all. reflexivity.
Qed.

Lemma NoDup_keys_learner_votes disabled (l : ARFBaseLearner.t D C) X :
  NoDup (keys (ARFBaseLearner.get_votes_for_instance l X)) ->
  NoDup (keys (learner_votes disabled l X)).
Proof.
  intros Hnd. unfold learner_votes, normalize_values_in_dict.
  destruct (_ && _)%bool; [|apply NoDup_nil_2].
  destruct (negb disabled); rewrite ?keys_map_values; exact Hnd.
Qed.

Lemma score_learner_votes disabled (l : ARFBaseLearner.t D C) X k :
  vote_counts (ARFBaseLearner.get_votes_for_instance l X) ->
  (score (learner_votes disabled l X) k == contribution disabled l X k)%Q.
Proof.
  intros [Hnd Hpos]. unfold learner_votes, contribution.
  set (vote := ARFBaseLearner.get_votes_for_instance l X) in *.
  destruct vote as [|kv vote'] eqn:Hvote; [reflexivity|].
  rewrite <- Hvote in *. simpl.
  destruct (Qpositive (sum_values vote)) eqn:Hsum.
  - apply Qpositive_true in Hsum.
    assert (Hne : Qeq_bool (sum_values vote) 0 = false).
    { destruct (Qeq_bool (sum_values vote) 0) eqn:Hz; [|reflexivity].
      apply Qeq_bool_iff in Hz. rewrite Hz in Hsum.
      exfalso. exact (Qlt_irrefl _ Hsum). }
    rewrite Hne. unfold normalize_values_in_dict.
    destruct disabled; simpl.
    + apply score_map_values. unfold Qdiv. ring.
    + rewrite score_map_values by ring.
      rewrite score_map_values by (unfold Qdiv; ring).
      reflexivity.
  - apply Qpositive_false in Hsum.
    assert (Hz : Qeq_bool (sum_values vote) 0 = true).
    { apply Qeq_bool_iff. apply Qle_antisym; [exact Hsum|].
      apply sum_values_nonneg. exact Hpos. }
    rewrite Hz. reflexivity.
Qed.

Lemma score_fold_learner_votes disabled ls X k combined :
  Forall (fun l => vote_counts (ARFBaseLearner.get_votes_for_instance l X)) ls ->
  (score (fold_left (fun acc l => add_values acc (learner_votes disabled l X))
            ls combined) k
   == score combined k + Qsum (map (fun l => contribution disabled l X k) ls))%Q.
Proof.
  revert combined. induction ls as [|l ls IH]; intros combined Hls; simpl.
  - ring.
  - inversion_clear Hls as [|? ? Hl Hls'].
    rewrite (IH _ Hls'), score_add_values
      by (apply NoDup_keys_learner_votes; exact (proj1 Hl)).
    rewrite (score_learner_votes disabled l X k Hl). ring.
Qed.

Lemma NoDup_keys_fold_learner_votes disabled ls X combined :
  NoDup (keys combined) ->
  NoDup (keys (fold_left (fun acc l => add_values acc (learner_votes disabled l X))
                 ls combined)).
Proof.
  revert combined. induction ls as [|l ls IH]; intros combined Hc; simpl.
  - exact Hc.
  - apply IH. apply NoDup_keys_add_values. exact Hc.
Qed.

(** C3.  On an initialised forest whose trees vote with counts,
    [get_votes_for_instance] returns a mapping in which the score of every
    label is the sum over the learners of their contributions: nothing from
    a learner whose mapping is empty or sums to zero; from every other
    learner its mapping normalized to sum 1 and, unless weighted voting is
    disabled, multiplied by the learner's [get_performance()].  With two
    learners of performances 50 and 150 that each vote [{A: 1.0}], the
    score of [A] is 200 with weighted voting and 2 without. *)
Theorem vote_aggregation self ls (X : instance) :
  AdaptiveRandomForest.ensemble self = Some (map Some ls) ->
  List.length ls = Z.to_nat (AdaptiveRandomForest.nb_ensemble self) ->
  Forall (fun l => vote_counts (ARFBaseLearner.get_votes_for_instance l X)) ls ->
  exists combined,
    AdaptiveRandomForest.get_votes_for_instance X self = Return combined self
    /\ NoDup (keys combined)
    /\ (forall k,
          (score combined k
           == Qsum (map (fun l =>
                           contribution
                             (AdaptiveRandomForest.disable_weighted_vote self) l X k)
                      ls))%Q)
    /\ (forall l1 l2 A,
          ls = [l1; l2] ->
          ARFBaseLearner.get_votes_for_instance l1 X = [(A, 1%Q)] ->
          ARFBaseLearner.get_votes_for_instance l2 X = [(A, 1%Q)] ->
          (ARFBaseClassifierEvaluator.get_performance (ARFBaseLearner.evaluator l1)
           == 50)%Q ->
          (ARFBaseClassifierEvaluator.get_performance (ARFBaseLearner.evaluator l2)
           == 150)%Q ->
          (score combined A
           == if AdaptiveRandomForest.disable_weighted_vote self then 2 else 200)%Q).
Proof.
  intros Hens Hlen Hcounts.
  eexists. split; [apply (get_votes_for_instance_run self ls X Hens Hlen)|].
  split; [apply NoDup_keys_fold_learner_votes; apply NoDup_nil_2|].
  assert (Hscore : forall k,
            (score (fold_left
                      (fun acc l =>
                         add_values acc
                           (learner_votes
                              (AdaptiveRandomForest.disable_weighted_vote self) l X))
                      ls []) k
             == Qsum (map (fun l =>
                             contribution
                               (AdaptiveRandomForest.disable_weighted_vote self) l X k)
                        ls))%Q).
  { intros k. rewrite (score_fold_learner_votes _ ls X k [] Hcounts).
    unfold score at 1. simpl. ring. }
  split; [exact Hscore|].
  intros l1 l2 A -> Hv1 Hv2 Hp1 Hp2. rewrite Hscore. simpl.
  unfold contribution. rewrite Hv1, Hv2. simpl.
  unfold score. simpl. rewrite Z.eqb_refl.
  destruct (AdaptiveRandomForest.disable_weighted_vote self).
  - reflexivity.
  - rewrite Hp1, Hp2. reflexivity.
Qed.

(** The labels that [predict] has appended stay in front of those it
    appends later. *)
Lemma predict_loop_prefix (X : list instance) (predictions : list label) self :
  for_fold X (fun Xi predictions =>
                bind (AdaptiveRandomForest.get_votes_for_instance Xi)
                     (fun v => ret (predictions
                                    ++ [AdaptiveRandomForest.label_of_votes v])))
           predictions self
  = match AdaptiveRandomForest.predict X self with
    | Return labels self' => Return (predictions ++ labels) self'
    | Raise e self' => Raise e self'
    end.
Proof.
  unfold AdaptiveRandomForest.predict. revert predictions self.
  induction X as [|Xi X IH]; intros predictions self; simpl.
  - unfold ret. rewrite app_nil_r. reflexivity.
  - unfold bind at 1 2 4 5.
    destruct (AdaptiveRandomForest.get_votes_for_instance Xi self) as [v s'|e s'];
      [|reflexivity].
    unfold ret at 1 3. simpl. rewrite (IH (predictions ++ _)), (IH [_]).
    destruct (for_fold X _ [] s') as [labels s''|e s'']; [|reflexivity].
    rewrite <- app_assoc. reflexivity.
Qed.

(** [predict] row by row: the votes of the first row are collected, their
    label is the first answer, and the other rows follow. *)
Lemma predict_cons self (Xi : instance) (X : list instance) :
  AdaptiveRandomForest.predict (Xi :: X) self
  = match AdaptiveRandomForest.get_votes_for_instance Xi self with
    | Return v self' =>
        match AdaptiveRandomForest.predict X self' with
        | Return labels self'' =>
            Return (AdaptiveRandomForest.label_of_votes v :: labels) self''
        | Raise e self'' => Raise e self''
        end
    | Raise e self' => Raise e self'
    end.
Proof.
  unfold AdaptiveRandomForest.predict at 1. simpl. unfold bind at 1 2.
  destruct (AdaptiveRandomForest.get_votes_for_instance Xi self) as [v s'|e s'];
    [|reflexivity].
  unfold ret at 1. rewrite predict_loop_prefix.
  destruct (AdaptiveRandomForest.predict X s'); reflexivity.
Qed.

(** C6, amended.  For a row whose combined vote mapping is [v], [predict]
    answers with one label and raises nothing of its own: the default
    label 0 when [v] is empty, and otherwise the label with the maximum
    score, where among labels with the same score the one inserted first
    into [v] wins (every label before it in insertion order has a strictly
    smaller score).  The rows of a batch are answered one after the
    other. *)
Theorem predict_label self self' (X : instance) (v : votes) :
  AdaptiveRandomForest.get_votes_for_instance X self = Return v self' ->
  AdaptiveRandomForest.predict [X] self
  = Return [AdaptiveRandomForest.label_of_votes v] self'
  /\ (forall rest,
        AdaptiveRandomForest.predict (X :: rest) self
        = match AdaptiveRandomForest.predict rest self' with
          | Return labels self'' =>
              Return (AdaptiveRandomForest.label_of_votes v :: labels) self''
          | Raise e self'' => Raise e self''
          end)
  /\ (v = [] -> AdaptiveRandomForest.label_of_votes v = 0)
  /\ (v <> [] ->
      exists before value after,
        v = before ++ (AdaptiveRandomForest.label_of_votes v, value) :: after
        /\ Forall (fun kv => (snd kv < value)%Q) before
        /\ Forall (fun kv => (snd kv <= value)%Q) after).
Proof.
  intros Hv.
  split; [rewrite predict_cons, Hv; reflexivity|].
  split; [intros rest; rewrite predict_cons, Hv; reflexivity|].
  split.
  - intros ->. reflexivity.
  - intros Hne. destruct v as [|kv rest]; [contradiction|].
    unfold AdaptiveRandomForest.label_of_votes. simpl.
    destruct (max_from_first_maximum rest [] [] kv) as (b & x & a & Heq & Hb & Ha);
      [constructor|constructor|].
    exists b, x, a. simpl in Heq. auto.
Qed.

End ForestVotes.

Lemma vote_aggregation_witness :
  exists combined,
    AdaptiveRandomForest.get_votes_for_instance Sample.row10 (Sample.two_voters false)
    = Return combined (Sample.two_voters false)
    /\ (score combined 1%Z == 200)%Q.
Proof.
  assert (Hcounts :
            Forall (fun l => vote_counts
                               (ARFBaseLearner.get_votes_for_instance l Sample.row10))
                   [Sample.voter50; Sample.voter150]).
  { repeat constructor; simpl; try (intros H; discriminate H);
      apply not_elem_of_nil. }
  destruct (vote_aggregation (Sample.two_voters false)
              [Sample.voter50; Sample.voter150] Sample.row10
              eq_refl eq_refl Hcounts)
    as (combined & Hrun & _ & _ & Hscenario).
  exists combined. split; [exact Hrun|].
  apply (Hscenario Sample.voter50 Sample.voter150 1); reflexivity.
Defined.

(** The same two learners with weighted voting disabled. *)
Example vote_aggregation_unweighted :
  exists combined,
    AdaptiveRandomForest.get_votes_for_instance Sample.row10 (Sample.two_voters true)
    = Return combined (Sample.two_voters true)
    /\ (score combined 1%Z == 2)%Q.
Proof. eexists. split; [vm_compute; reflexivity|reflexivity]. Qed.

Lemma predict_label_witness :
  AdaptiveRandomForest.predict [Sample.row10] (Sample.tied 1 2)
  = Return [AdaptiveRandomForest.label_of_votes [(1, 1%Q); (2, 1%Q)]]
      (Sample.tied 1 2).
Proof.
  assert (Hvotes :
            AdaptiveRandomForest.get_votes_for_instance Sample.row10 (Sample.tied 1 2)
            = Return [(1, 1%Q); (2, 1%Q)] (Sample.tied 1 2)).
  { vm_compute. reflexivity. }
  exact (proj1 (predict_label (Sample.tied 1 2) (Sample.tied 1 2) Sample.row10
                  [(1, 1%Q); (2, 1%Q)] Hvotes)).
Defined.

(** C6, counterexample.  Two forests whose combined vote mappings give
    labels 1 and 2 the same score, inserted in the two orders: [predict]
    answers 1 for the one and 2 for the other.  So no order on labels that
    is fixed once and for all decides the ties of [predict]. *)
Lemma predict_ties_follow_insertion_order :
  returned (AdaptiveRandomForest.get_votes_for_instance Sample.row10
              (Sample.tied 1 2))
  = Some [(1, 1%Q); (2, 1%Q)]
  /\ returned (AdaptiveRandomForest.get_votes_for_instance Sample.row10
                 (Sample.tied 2 1))
     = Some [(2, 1%Q); (1, 1%Q)]
  /\ returned (AdaptiveRandomForest.predict [Sample.row10] (Sample.tied 1 2))
     = Some [1]
  /\ returned (AdaptiveRandomForest.predict [Sample.row10] (Sample.tied 2 1))
     = Some [2]
  /\ ~ ties_broken_by_fixed_order AdaptiveRandomForest.label_of_votes.
Proof.
  repeat split; try (vm_compute; reflexivity).
  intros (prefer & Hanti & Hpick).
  pose (v12 := [(1, 1%Q); (2, 1%Q)] : votes).
  pose (v21 := [(2, 1%Q); (1, 1%Q)] : votes).
  assert (Hnd12 : NoDup (keys v12)).
  { simpl. apply NoDup_cons. split; [|apply NoDup_singleton].
    intros H. apply list_elem_of_singleton in H. discriminate H. }
  assert (Hnd21 : NoDup (keys v21)).
  { simpl. apply NoDup_cons. split; [|apply NoDup_singleton].
    intros H. apply list_elem_of_singleton in H. discriminate H. }
  assert (Hmax12 : forall k', In k' (keys v12) -> (score v12 k' <= score v12 2%Z)%Q).
  { intros k' [<-|[<-|[]]]; intros H; discriminate H. }
  assert (Hmax21 : forall k', In k' (keys v21) -> (score v21 k' <= score v21 1%Z)%Q).
  { intros k' [<-|[<-|[]]]; intros H; discriminate H. }
  pose proof (Hpick v12 2 Hnd12 (or_intror (or_introl eq_refl)) Hmax12) as H12.
  pose proof (Hpick v21 1 Hnd21 (or_intror (or_introl eq_refl)) Hmax21) as H21.
  change (prefer 1 2) in H12. change (prefer 2 1) in H21.
  discriminate (Hanti 1 2 H12 H21).
Qed.

(* ===================================================================== *)
(** * The forest: lazy initialization, and reset                          *)
(* ===================================================================== *)

Section ForestReset.

Context {D R C : Type}.
Context `{Det : !BaseDriftDetector.t D} `{Rnd : !RandomState.t R}
        `{Tree : !ARFHoeffdingTree.t R C}.

Implicit Types (self : AdaptiveRandomForest.t D R C).

(** The loop of [init_ensemble] fills the slots from the left. *)
Lemma init_loop_run (len start : nat) self (v : Z) :
  AdaptiveRandomForest.max_features self = PyInt v ->
  AdaptiveRandomForest.ensemble self
  = Some (map Some (map (built_learner self v) (seq 0 start))
          ++ replicate len None) ->
  for_each (seq start len) AdaptiveRandomForest.init_slot self
  = Return tt
      (AdaptiveRandomForest.set_ensemble
         (Some (map Some (map (built_learner self v) (seq 0 (start + len)))))
         self).
Proof.
  unfold for_each. revert start self.
  induction len as [|len IH]; intros start self Hmf Hens; simpl.
  - rewrite Nat.add_0_r. simpl in Hens. rewrite app_nil_r in Hens.
    unfold ret. destruct self; simpl in *. rewrite Hens. reflexivity.
  - unfold bind at 1. unfold AdaptiveRandomForest.init_slot at 1.
    unfold bind, gets, modify. rewrite Hens.
    assert (Hlt : (start <? List.length
                      (map Some (map (built_learner self v) (seq 0 start))
                       ++ replicate (Datatypes.S len) None))%nat = true).
    { apply Nat.ltb_lt. rewrite length_app, !length_map, length_seq, length_replicate.
      lia. }
    rewrite Hlt, Hmf.
    rewrite insert_app_r_alt by (rewrite !length_map, length_seq; lia).
    rewrite !length_map, length_seq, Nat.sub_diag. simpl.
    set (self1 := AdaptiveRandomForest.set_ensemble _ self).
    assert (Hbuilt : built_learner self1 v = built_learner self v).
    { subst self1. destruct self; reflexivity. }
    rewrite (IH (Datatypes.S start) self1).
    + rewrite Hbuilt. replace (Datatypes.S start + len)%nat with (start + Datatypes.S len)%nat by lia.
      subst self1. destruct self; reflexivity.
    + subst self1. destruct self; exact Hmf.
    + rewrite Hbuilt. subst self1.
      rewrite seq_S, !map_app, <- app_assoc. simpl.
      destruct self; reflexivity.
Qed.

(** [init_ensemble] sets the feature-subsample size and builds
    [nb_ensemble] learners on new trees of that size. *)
Lemma init_ensemble_run self (X : instance) (v : Z) :
  AdaptiveRandomForest.max_features_of_policy
    (AdaptiveRandomForest.max_features self) (feature_count X) = inr v ->
  let size := AdaptiveRandomForest.sanity_checks v (feature_count X) in
  AdaptiveRandomForest.init_ensemble X self
  = Return tt
      (AdaptiveRandomForest.set_ensemble
         (Some (map Some (map (built_learner self size)
                            (seq 0 (Z.to_nat (AdaptiveRandomForest.nb_ensemble self))))))
         (AdaptiveRandomForest.set_max_features (PyInt size) self)).
Proof.
  intros Hv size.
  unfold AdaptiveRandomForest.init_ensemble.
  unfold bind at 1, modify at 1.
  unfold bind at 1. unfold AdaptiveRandomForest._set_max_features at 1.
  unfold bind at 1, gets at 1.
  replace (AdaptiveRandomForest.max_features
             (AdaptiveRandomForest.set_ensemble
                (Some (replicate (Z.to_nat (AdaptiveRandomForest.nb_ensemble self)) None))
                self))
    with (AdaptiveRandomForest.max_features self) by (destruct self; reflexivity).
  rewrite Hv. unfold modify at 1. unfold bind at 1, gets at 1.
  fold size. unfold for_range.
  set (self1 := AdaptiveRandomForest.set_max_features (PyInt size) _).
  replace (AdaptiveRandomForest.nb_ensemble self1)
    with (AdaptiveRandomForest.nb_ensemble self) by (destruct self; reflexivity).
  rewrite (init_loop_run _ 0 self1 size).
  - subst self1. destruct self; reflexivity.
  - subst self1. destruct self; reflexivity.
  - subst self1. destruct self; reflexivity.
Qed.

(** C5 (the code breaks the claim).  A forest built with
    [max_features="auto"] and first trained on rows of 10 features grows
    trees with 3 features per split.  [reset()] overwrites the configured
    [max_features] with 0 and leaves the random generator where training
    left it, so the forest that is reset and trained again grows trees
    with 1 feature per split and resamples with other draws than a new
    forest does. *)
Theorem reset_does_not_restore_a_fresh_forest
    (nb : Z) (dwv : bool) (lam : Q) (metric : string) (ddm wdm : PyValue D)
    (na : option (list Z)) (rs : R) self (X : instance) :
  let fresh := AdaptiveRandomForest.__init__ nb (PyStr "auto") dwv lam metric
                 ddm wdm na rs in
  let again := final_state (AdaptiveRandomForest.reset self) in
  (feature_count X = 10 ->
   AdaptiveRandomForest.ensure_ensemble X fresh
   = Return tt
       (AdaptiveRandomForest.set_ensemble
          (Some (map Some (map (built_learner fresh 3) (seq 0 (Z.to_nat nb)))))
          (AdaptiveRandomForest.set_max_features (PyInt 3) fresh)))
  /\ AdaptiveRandomForest.max_features again = PyInt 0
  /\ AdaptiveRandomForest.random_state again = AdaptiveRandomForest.random_state self
  /\ (feature_count X = 10 ->
      AdaptiveRandomForest.ensure_ensemble X again
      = Return tt
          (AdaptiveRandomForest.set_ensemble
             (Some (map Some
                      (map (built_learner again 1)
                         (seq 0 (Z.to_nat (AdaptiveRandomForest.nb_ensemble self))))))
             (AdaptiveRandomForest.set_max_features (PyInt 1) again))).
Proof.
  intros fresh again. repeat split.
  - intros HX. unfold AdaptiveRandomForest.ensure_ensemble, bind, gets.
    change (AdaptiveRandomForest.ensemble fresh)
      with (@None (list (option (ARFBaseLearner.t D C)))).
    cbv beta iota.
    rewrite (init_ensemble_run fresh X 3) by (simpl; rewrite HX; reflexivity).
    rewrite HX. reflexivity.
  - subst again. destruct self; reflexivity.
  - subst again. destruct self; reflexivity.
  - intros HX. unfold AdaptiveRandomForest.ensure_ensemble, bind, gets.
    replace (AdaptiveRandomForest.ensemble again) with
      (@None (list (option (ARFBaseLearner.t D C))))
      by (subst again; destruct self; reflexivity).
    cbv beta iota.
    rewrite (init_ensemble_run again X 0).
    + rewrite HX.
      replace (AdaptiveRandomForest.nb_ensemble again)
        with (AdaptiveRandomForest.nb_ensemble self)
        by (subst again; destruct self; reflexivity).
      reflexivity.
    + subst again. destruct self; reflexivity.
Qed.

End ForestReset.

Lemma reset_does_not_restore_a_fresh_forest_witness :
  AdaptiveRandomForest.ensure_ensemble Sample.row10 (Sample.quiet_forest [1; 3; 3; 1])
  = Return tt
      (AdaptiveRandomForest.set_ensemble
         (Some (map Some (map (built_learner (Sample.quiet_forest [1; 3; 3; 1]) 3)
                            (seq 0 (Z.to_nat 1)))))
         (AdaptiveRandomForest.set_max_features (PyInt 3)
            (Sample.quiet_forest [1; 3; 3; 1]))).
Proof.
  exact (proj1 (reset_does_not_restore_a_fresh_forest 1 true 6 "acc"
                  (PyObject (Sample.detector 100)) (PyObject (Sample.detector 100))
                  None [1; 3; 3; 1] (Sample.quiet_forest []) Sample.row10)
           eq_refl).
Defined.

(** The claim's scenario on a one-tree forest, rows labelled 1 and 2, and
    the draws 1, 3, 3, 1: the new forest trained on the rows predicts 2;
    the same forest reset and trained again on the same rows predicts 1,
    with a tree of 1 feature per split where the new forest has 3. *)
Example reset_changes_predictions :
  let fresh := Sample.quiet_forest [1; 3; 3; 1] in
  let trained :=
    final_state (AdaptiveRandomForest.partial_fit Sample.two_rows
                   (Some Sample.two_labels) None fresh) in
  let retrained :=
    final_state (AdaptiveRandomForest.partial_fit Sample.two_rows
                   (Some Sample.two_labels) None
                   (final_state (AdaptiveRandomForest.reset trained))) in
  returned (AdaptiveRandomForest.predict [Sample.row10] trained) = Some [2]
  /\ returned (AdaptiveRandomForest.predict [Sample.row10] retrained) = Some [1]
  /\ map (fun l => Sample.subsample (ARFBaseLearner.classifier l))
         (AdaptiveRandomForest.learners trained) = [3]
  /\ map (fun l => Sample.subsample (ARFBaseLearner.classifier l))
         (AdaptiveRandomForest.learners retrained) = [1].
Proof. vm_compute. repeat split. Qed.

(** C1 seen from the forest: built with [drift_detection_method=None], it
    raises on the first instance that a tree is trained on. *)
Example forest_without_drift_policy_raises :
  raised (AdaptiveRandomForest.partial_fit [Sample.row10] (Some [1]) None
            (Sample.fresh 2 (PyStr "auto") PyNone (PyObject (Sample.detector 2))
               [1; 0]))
  = Some AttributeError.
Proof. vm_compute. reflexivity. Qed.

(* ===================================================================== *)
(** * The base learner: warning, quiet steps, and detectors in place      *)
(* ===================================================================== *)

Section LearnerSteps.

Context {D R C : Type}.
Context `{Det : !BaseDriftDetector.t D} `{Tree : !ARFHoeffdingTree.t R C}.

Ltac learner_unfold :=
  unfold ARFBaseLearner.partial_fit, ARFBaseLearner.train_and_check_warning,
    ARFBaseLearner.update_drift_detection, ARFBaseLearner.reset,
    ARFBaseLearner.fit_classifier, ARFBaseLearner.fit_background,
    ARFBaseLearner.attr, ARFBaseLearner.assign,
    bind, gets, modify, ret, raise in *.

Ltac learner_case :=
  match goal with
  | |- context [ARFHoeffdingTree.partial_fit ?c ?X ?y ?w ?rs] =>
      destruct (ARFHoeffdingTree.partial_fit c X y w rs) as [? ?] eqn:?
  | |- context [match ?x with _ => _ end] => is_var x; destruct x
  | |- context [andb ?x _] => is_var x; destruct x
  | |- context [negb ?x] => is_var x; destruct x
  | |- context [BaseDriftDetector.detected_change ?d] =>
      destruct (BaseDriftDetector.detected_change d) eqn:?
  end; simpl in *.

(** X1. The warning transition. On a learner that is monitored (it has a
    drift detector and is no background learner) and holds a warning
    detector [w]: when [w], fed the error bit of the freshly trained
    classifier, signals a change, the first part of [partial_fit] records
    the instance counter, counts the warning, replaces whatever background
    learner there was by a new one on [new_instance()] of the classifier,
    built from the two detector prototypes, and resets [w]. *)
Theorem warning_starts_shadowing (self : ARFBaseLearner.t D C) (rs : R)
    (X : instance) (y : label) (weight : Q) (instances_seen : Z) (w : D) :
  ARFBaseLearner._use_drift_detector self = true ->
  ARFBaseLearner.is_background_learner self = false ->
  ARFBaseLearner._use_background_learner self = true ->
  ARFBaseLearner.warning_detection self = Some w ->
  let trained := fst (ARFHoeffdingTree.partial_fit
                        (ARFBaseLearner.classifier self) X y weight rs) in
  let correct := Z.eqb (ARFHoeffdingTree.predict trained X) y in
  let fed := BaseDriftDetector.add_element w (int_not correct) in
  BaseDriftDetector.detected_change fed = true ->
  exists mid rs',
    ARFBaseLearner.train_and_check_warning X y weight instances_seen (self, rs)
    = Return correct (mid, rs')
    /\ ARFBaseLearner.classifier mid = trained
    /\ ARFBaseLearner.background_learner mid
       = Some (ARFBaseLearner.__init__
                 (ARFBaseLearner.index_original self)
                 (ARFHoeffdingTree.new_instance trained)
                 instances_seen
                 (ARFBaseLearner.evaluator_method self)
                 (ARFBaseLearner.drift_detection_method self)
                 (ARFBaseLearner.warning_detection_method self)
                 true)
    /\ ARFBaseLearner.warning_detection mid = Some (BaseDriftDetector.reset fed)
    /\ ARFBaseLearner.last_warning_on mid = instances_seen
    /\ ARFBaseLearner.nb_warnings_detected mid
       = ARFBaseLearner.nb_warnings_detected self + 1
    /\ ARFBaseLearner.drift_detection mid = ARFBaseLearner.drift_detection self
    /\ ARFBaseLearner.evaluator mid = ARFBaseLearner.evaluator self
    /\ ARFBaseLearner.created_on mid = ARFBaseLearner.created_on self.
Proof.
  intros Hdd Hbg Hub Hw trained correct fed Hchange.
  subst trained correct fed.
  destruct self. simpl in *. subst.
  learner_unfold. simpl.
  destruct (ARFHoeffdingTree.partial_fit classifier X y weight rs) as [c1 rs1].
  simpl in *.
  destruct background_learner as [b|]; simpl.
  - destruct (ARFHoeffdingTree.partial_fit (ARFBaseLearner.classifier b) X y
                INSTANCE_WEIGHT rs1) as [c2 rs2].
    simpl. rewrite Hchange. simpl.
    eexists _, _. split; [reflexivity|]. simpl. repeat split.
  - rewrite Hchange. simpl.
    eexists _, _. split; [reflexivity|]. simpl. repeat split.
Qed.

(** X2. A quiet step. On a monitored learner with both detectors, when
    neither signals a change, [partial_fit] returns and only trains and
    feeds: the classifier is trained with the given weight, a background
    classifier, if present, is trained with weight 1 whatever the given
    weight, both detectors have taken the error bit, and the timestamps,
    counters, evaluator and flags of the learner are as before. *)
Theorem quiet_step_only_trains (self : ARFBaseLearner.t D C) (rs : R)
    (X : instance) (y : label) (weight : Q) (instances_seen : Z) (w d : D) :
  ARFBaseLearner._use_drift_detector self = true ->
  ARFBaseLearner.is_background_learner self = false ->
  ARFBaseLearner._use_background_learner self = true ->
  ARFBaseLearner.warning_detection self = Some w ->
  ARFBaseLearner.drift_detection self = Some d ->
  let fit := ARFHoeffdingTree.partial_fit
               (ARFBaseLearner.classifier self) X y weight rs in
  let bit := int_not (Z.eqb (ARFHoeffdingTree.predict (fst fit) X) y) in
  BaseDriftDetector.detected_change (BaseDriftDetector.add_element w bit) = false ->
  BaseDriftDetector.detected_change (BaseDriftDetector.add_element d bit) = false ->
  exists self' rs',
    ARFBaseLearner.partial_fit X y weight instances_seen (self, rs)
    = Return tt (self', rs')
    /\ ARFBaseLearner.classifier self' = fst fit
    /\ ARFBaseLearner.background_learner self'
       = option_map
           (fun b =>
              ARFBaseLearner.set_classifier
                (fst (ARFHoeffdingTree.partial_fit (ARFBaseLearner.classifier b)
                        X y INSTANCE_WEIGHT (snd fit)))
                b)
           (ARFBaseLearner.background_learner self)
    /\ ARFBaseLearner.warning_detection self'
       = Some (BaseDriftDetector.add_element w bit)
    /\ ARFBaseLearner.drift_detection self'
       = Some (BaseDriftDetector.add_element d bit)
    /\ ARFBaseLearner.created_on self' = ARFBaseLearner.created_on self
    /\ ARFBaseLearner.last_warning_on self' = ARFBaseLearner.last_warning_on self
    /\ ARFBaseLearner.last_drift_on self' = ARFBaseLearner.last_drift_on self
    /\ ARFBaseLearner.nb_warnings_detected self'
       = ARFBaseLearner.nb_warnings_detected self
    /\ ARFBaseLearner.nb_drifts_detected self'
       = ARFBaseLearner.nb_drifts_detected self
    /\ ARFBaseLearner.evaluator self' = ARFBaseLearner.evaluator self.
Proof.
  intros Hdd Hbg Hub Hw Hd fit bit Hquiet_w Hquiet_d.
  subst fit bit.
  destruct self. simpl in *. subst.
  learner_unfold. simpl.
  destruct (ARFHoeffdingTree.partial_fit classifier X y weight rs) as [c1 rs1].
  simpl in *.
  destruct background_learner as [b|]; simpl.
  - destruct (ARFHoeffdingTree.partial_fit (ARFBaseLearner.classifier b) X y
                INSTANCE_WEIGHT rs1) as [c2 rs2].
    simpl. rewrite Hquiet_w. simpl. rewrite Hquiet_d. simpl.
    eexists _, _. split; [reflexivity|]. simpl. repeat split.
  - rewrite Hquiet_w. simpl. rewrite Hquiet_d. simpl.
    eexists _, _. split; [reflexivity|]. simpl. repeat split.
Qed.

(** X3. Without a warning policy there is no shadowing: a learner
    constructed with [warning_detection_method = None] holds no background
    learner, and no call of [partial_fit], returning or raising, gives it
    one. *)
Theorem no_warning_policy_never_shadows :
  (forall idx (c : C) seen em (ddm : option D) bkg,
      unshadowed (ARFBaseLearner.__init__ idx c seen em ddm None bkg))
  /\ (forall (self : ARFBaseLearner.t D C) (rs : R) X y weight seen,
        unshadowed self ->
        unshadowed
          (fst (final_state
                  (ARFBaseLearner.partial_fit X y weight seen (self, rs))))).
Proof.
  split.
  - intros. split; reflexivity.
  - intros self rs X y weight seen [Hub Hbg].
    unfold unshadowed.
    destruct self. simpl in *. subst.
    learner_unfold. simpl.
    repeat learner_case; simpl; split; reflexivity.
Qed.

Lemma init_learner_ready idx (c : C) seen em (d : D) (wdm : option D) bkg :
  learner_ready (ARFBaseLearner.__init__ idx c seen em (Some d) wdm bkg).
Proof.
  unfold learner_ready. simpl.
  split; [discriminate|]. split; [discriminate|]. split.
  - destruct wdm; intros Hx; [split; discriminate|discriminate Hx].
  - intros b Hb. discriminate Hb.
Qed.

Lemma set_evaluator_learner_ready e (self : ARFBaseLearner.t D C) :
  learner_ready self -> learner_ready (ARFBaseLearner.set_evaluator e self).
Proof. destruct self. exact (fun H => H). Qed.

(* A ready learner runs [partial_fit] to its end and stays ready. *)
Lemma learner_partial_fit_ready (self : ARFBaseLearner.t D C) (rs : R)
    (X : instance) (y : label) (weight : Q) (instances_seen : Z) :
  learner_ready self ->
  exists self' rs',
    ARFBaseLearner.partial_fit X y weight instances_seen (self, rs)
    = Return tt (self', rs')
    /\ learner_ready self'.
Proof.
  unfold learner_ready.
  intros (Hd & Hddm & Hw & Hb).
  destruct self. simpl in *.
  destruct drift_detection as [d|]; [clear Hd|contradiction].
  destruct drift_detection_method as [dm|]; [clear Hddm|contradiction].
  destruct _use_background_learner.
  - destruct (Hw eq_refl) as [Hw1 Hw2]. clear Hw.
    destruct warning_detection as [w|]; [clear Hw1|contradiction].
    destruct warning_detection_method as [wm|]; [clear Hw2|contradiction].
    destruct background_learner as [b|].
    + destruct (Hb b eq_refl) as [Hbd Hbw]. specialize (Hbw eq_refl). clear Hb.
      destruct b. simpl in *.
      destruct drift_detection as [bd|]; [clear Hbd|contradiction].
      destruct warning_detection as [bw|]; [clear Hbw|contradiction].
      learner_unfold. simpl.
      repeat learner_case;
        (eexists _, _; split; [reflexivity|]; simpl;
         repeat split; try discriminate;
         intros; try discriminate;
         repeat match goal with
                | H : Some _ = Some _ |- _ => inversion H; subst; clear H
                end; simpl; try discriminate; try (split; discriminate)).
    + clear Hb. learner_unfold. simpl.
      repeat learner_case;
        (eexists _, _; split; [reflexivity|]; simpl;
         repeat split; try discriminate;
         intros; try discriminate;
         repeat match goal with
                | H : Some _ = Some _ |- _ => inversion H; subst; clear H
                end; simpl; try discriminate; try (split; discriminate)).
  - clear Hw.
    destruct background_learner as [b|].
    + destruct (Hb b eq_refl) as [Hbd _]. clear Hb.
      destruct b. simpl in *.
      destruct drift_detection as [bd|]; [clear Hbd|contradiction].
      learner_unfold. simpl.
      repeat learner_case;
        (eexists _, _; split; [reflexivity|]; simpl;
         repeat split; try discriminate;
         intros; try discriminate;
         repeat match goal with
                | H : Some _ = Some _ |- _ => inversion H; subst; clear H
                end; simpl; try discriminate; try (split; discriminate)).
    + clear Hb. learner_unfold. simpl.
      repeat learner_case;
        (eexists _, _; split; [reflexivity|]; simpl;
         repeat split; try discriminate;
         intros; try discriminate;
         repeat match goal with
                | H : Some _ = Some _ |- _ => inversion H; subst; clear H
                end; simpl; try discriminate; try (split; discriminate)).
Qed.

(** X4. With its detectors in place, [partial_fit] never raises, and leaves
    the detectors in place: a learner constructed with a drift detector
    returns from every call of [partial_fit], whatever the instances, the
    weights and what the detectors signal. *)
Theorem partial_fit_with_detectors_returns (self : ARFBaseLearner.t D C) (rs : R)
    (X : instance) (y : label) (weight : Q) (instances_seen : Z) :
  learner_ready self ->
  exists self' rs',
    ARFBaseLearner.partial_fit X y weight instances_seen (self, rs)
    = Return tt (self', rs')
    /\ learner_ready self'.
Proof. apply learner_partial_fit_ready. Qed.

End LearnerSteps.

Lemma warning_starts_shadowing_witness :
  exists mid rs',
    ARFBaseLearner.train_and_check_warning Sample.row10 5 1 7
      (Sample.warned_learner, [4])
    = Return true (mid, rs')
    /\ ARFBaseLearner.background_learner mid
       = Some (ARFBaseLearner.__init__ 0
                 {| Sample.subsample := 3; Sample.observed := [] |} 7
                 ARFBaseClassifierEvaluator_class
                 (Some (Sample.detector 5)) (Some (Sample.detector 0)) true)
    /\ ARFBaseLearner.nb_warnings_detected mid = 0 + 1.
Proof.
  edestruct (warning_starts_shadowing Sample.warned_learner [4] Sample.row10 5 1 7
               (Sample.detector 0))
    as (mid & rs' & Hrun & _ & Hbkg & _ & _ & Hnb & _);
    [reflexivity|reflexivity|reflexivity|reflexivity|reflexivity|].
  exists mid, rs'. split; [exact Hrun|]. split; [exact Hbkg|exact Hnb].
Defined.

Lemma quiet_step_only_trains_witness :
  exists self' rs',
    ARFBaseLearner.partial_fit Sample.row10 1 3 7 (Sample.calm_learner, [4])
    = Return tt (self', rs')
    /\ ARFBaseLearner.classifier self'
       = {| Sample.subsample := 3; Sample.observed := [(1, (2 + 3)%Q)] |}
    /\ ARFBaseLearner.evaluator self' = ARFBaseLearner.evaluator Sample.calm_learner.
Proof.
  edestruct (quiet_step_only_trains Sample.calm_learner [4] Sample.row10 1 3 7
               (Sample.detector 5) (Sample.detector 5))
    as (self' & rs' & Hrun & Hc & _ & _ & _ & _ & _ & _ & _ & _ & He);
    [reflexivity|reflexivity|reflexivity|reflexivity|reflexivity|reflexivity
    |reflexivity|].
  exists self', rs'. split; [exact Hrun|]. split; [exact Hc|exact He].
Defined.

Lemma no_warning_policy_never_shadows_witness :
  unshadowed
    (fst (final_state
            (ARFBaseLearner.partial_fit Sample.row10 1 1 7
               (Sample.unwarned_learner, [4])))).
Proof.
  apply (proj2 no_warning_policy_never_shadows Sample.unwarned_learner [4]
           Sample.row10 1 1%Q 7).
  split; reflexivity.
Defined.

Lemma partial_fit_with_detectors_returns_witness :
  exists self' rs',
    ARFBaseLearner.partial_fit Sample.row10 5 1 7 (Sample.alert_learner, [4])
    = Return tt (self', rs')
    /\ learner_ready self'.
Proof.
  apply (partial_fit_with_detectors_returns Sample.alert_learner [4]
           Sample.row10 5 1 7).
  unfold learner_ready. simpl.
  split; [discriminate|]. split; [discriminate|]. split.
  - intros _. split; discriminate.
  - intros b Hb. discriminate Hb.
Defined.

Section LearnerBookkeeping.

Context {D R C : Type}.
Context `{Det : !BaseDriftDetector.t D} `{Tree : !ARFHoeffdingTree.t R C}.

Ltac bookkeeping_unfold :=
  unfold ARFBaseLearner.partial_fit, ARFBaseLearner.train_and_check_warning,
    ARFBaseLearner.update_drift_detection, ARFBaseLearner.reset,
    ARFBaseLearner.fit_classifier, ARFBaseLearner.fit_background,
    ARFBaseLearner.attr, ARFBaseLearner.assign,
    bind, gets, modify, ret, raise in *.

Ltac bookkeeping_case :=
  match goal with
  | |- context [ARFHoeffdingTree.partial_fit ?c ?X ?y ?w ?rs] =>
      destruct (ARFHoeffdingTree.partial_fit c X y w rs) as [? ?] eqn:?
  | |- context [match ?x with _ => _ end] => is_var x; destruct x
  | |- context [andb ?x _] => is_var x; destruct x
  | |- context [negb ?x] => is_var x; destruct x
  | |- context [BaseDriftDetector.detected_change ?d] =>
      destruct (BaseDriftDetector.detected_change d) eqn:?
  end; simpl in *.

(** X5. The bookkeeping of a learner only moves forward: however a call of
    [partial_fit] ends, the learner keeps its index, its role and its
    detector prototypes; the warning and drift counts each stay or grow by
    one; and a timestamp changes only together with its count, to the
    [instances_seen] of the call. *)
Theorem learner_bookkeeping_moves_forward (self : ARFBaseLearner.t D C) (rs : R)
    (X : instance) (y : label) (weight : Q) (instances_seen : Z) :
  let self' :=
    fst (final_state (ARFBaseLearner.partial_fit X y weight instances_seen (self, rs))) in
  (ARFBaseLearner.index_original self' = ARFBaseLearner.index_original self
   /\ ARFBaseLearner.is_background_learner self'
      = ARFBaseLearner.is_background_learner self
   /\ ARFBaseLearner.drift_detection_method self'
      = ARFBaseLearner.drift_detection_method self
   /\ ARFBaseLearner.warning_detection_method self'
      = ARFBaseLearner.warning_detection_method self)
  /\ ((ARFBaseLearner.nb_warnings_detected self'
       = ARFBaseLearner.nb_warnings_detected self
       /\ ARFBaseLearner.last_warning_on self' = ARFBaseLearner.last_warning_on self)
      \/ (ARFBaseLearner.nb_warnings_detected self'
          = ARFBaseLearner.nb_warnings_detected self + 1
          /\ ARFBaseLearner.last_warning_on self' = instances_seen))
  /\ ((ARFBaseLearner.nb_drifts_detected self'
       = ARFBaseLearner.nb_drifts_detected self
       /\ ARFBaseLearner.last_drift_on self' = ARFBaseLearner.last_drift_on self)
      \/ (ARFBaseLearner.nb_drifts_detected self'
          = ARFBaseLearner.nb_drifts_detected self + 1
          /\ ARFBaseLearner.last_drift_on self' = instances_seen)).
Proof.
  cbv zeta. destruct self. bookkeeping_unfold. simpl.
  repeat bookkeeping_case;
    (split; [repeat split; reflexivity|]);
    (split; first [left; split; reflexivity | right; split; reflexivity]).
Qed.

End LearnerBookkeeping.

(* ===================================================================== *)
(** * The forest: configuration, feature-subsample size, weights           *)
(* ===================================================================== *)

Section ForestConfiguration.

Context {D R C : Type}.
Context `{Det : !BaseDriftDetector.t D} `{Rnd : !RandomState.t R}
        `{Tree : !ARFHoeffdingTree.t R C}.

Implicit Types (self : AdaptiveRandomForest.t D R C).

Local Abbreviation configured := (@configured_as D R C).

(** X6. The feature-subsample size stays in range and settles: for [n >= 1]
    features, when [_set_max_features(n)] returns, [max_features] is an
    integer between 1 and [n], and a second call with the same [n] changes
    nothing. *)
Theorem set_max_features_in_range_and_stable self self' (n : Z) :
  1 <= n ->
  AdaptiveRandomForest._set_max_features n self = Return tt self' ->
  exists size,
    AdaptiveRandomForest.max_features self' = PyInt size
    /\ 1 <= size <= n
    /\ AdaptiveRandomForest._set_max_features n self' = Return tt self'.
Proof.
  intros Hn Hrun.
  unfold AdaptiveRandomForest._set_max_features, bind, gets, modify, raise in Hrun.
  destruct (AdaptiveRandomForest.max_features_of_policy
              (AdaptiveRandomForest.max_features self) n) as [e|v] eqn:Hv;
    [discriminate Hrun|].
  inversion Hrun as [Hself']. clear Hrun.
  set (size := AdaptiveRandomForest.sanity_checks v n) in *.
  assert (Hrange : 1 <= size <= n).
  { subst size. rewrite sanity_checks_clamp. lia. }
  exists size. split; [destruct self; reflexivity|]. split; [exact Hrange|].
  assert (Hfix : AdaptiveRandomForest.sanity_checks size n = size).
  { rewrite sanity_checks_clamp.
    destruct (Z.ltb_spec size 0); lia. }
  unfold AdaptiveRandomForest._set_max_features, bind, gets, modify.
  replace (AdaptiveRandomForest.max_features
             (AdaptiveRandomForest.set_max_features (PyInt size) self))
    with (@PyInt D size) by (destruct self; reflexivity).
  simpl. rewrite Hfix. destruct self; reflexivity.
Qed.

(** X7. Weights that do not match the rows: a weight list whose length
    differs from the number of rows is replaced by its first element for
    every row, no weight list stands for the single weight 1, and an empty
    weight list with a non-empty batch raises [IndexError] before any row
    is looked at. *)
Theorem mismatched_weights_are_broadcast self (X : list instance) (y : list label)
    (weight : list Q) :
  List.length weight <> List.length X ->
  (forall w0 rest,
      weight = w0 :: rest ->
      AdaptiveRandomForest.partial_fit X (Some y) (Some weight) self
      = AdaptiveRandomForest.partial_fit X (Some y)
          (Some (replicate (List.length X) w0)) self)
  /\ (weight = [] ->
      AdaptiveRandomForest.partial_fit X (Some y) (Some weight) self
      = Raise IndexError self)
  /\ AdaptiveRandomForest.partial_fit X (Some y) None self
     = AdaptiveRandomForest.partial_fit X (Some y) (Some [INSTANCE_WEIGHT]) self.
Proof.
  intros Hlen. split; [|split].
  - intros w0 rest ->.
    unfold AdaptiveRandomForest.partial_fit, row_count.
    rewrite length_replicate, Nat.eqb_refl.
    destruct (Nat.eqb_spec (List.length X) (List.length (w0 :: rest)));
      [congruence|].
    reflexivity.
  - intros ->.
    unfold AdaptiveRandomForest.partial_fit, row_count.
    destruct (Nat.eqb_spec (List.length X) (List.length (@nil Q)));
      [congruence|].
    reflexivity.
  - reflexivity.
Qed.

Lemma configured_as_put_learner nb dwv lam ddm wdm na i l self :
  configured_as nb dwv lam ddm wdm na self ->
  configured_as nb dwv lam ddm wdm na (AdaptiveRandomForest.put_learner i l self).
Proof.
  unfold configured_as, AdaptiveRandomForest.put_learner.
  destruct self as [? ? ? ? ? ? ? ? [slots|] ? ? ?]; simpl; [|tauto].
  rewrite length_insert. tauto.
Qed.

Lemma configured_as_get_learner nb dwv lam ddm wdm na i :
  preserves (configured nb dwv lam ddm wdm na)
    (AdaptiveRandomForest.get_learner (D:=D) (R:=R) (C:=C) i).
Proof. unfold AdaptiveRandomForest.get_learner. preserve. Qed.

Lemma configured_as_call_learner {A} nb dwv lam ddm wdm na i
    (m : ARFBaseLearner.method A) :
  preserves (configured nb dwv lam ddm wdm na)
    (AdaptiveRandomForest.call_learner (D:=D) (R:=R) (C:=C) i m).
Proof.
  unfold AdaptiveRandomForest.call_learner.
  apply preserves_bind; [apply configured_as_get_learner|].
  intros l self Hs.
  destruct (m (l, AdaptiveRandomForest.random_state self))
    as [a [l' rs]|e [l' rs]];
    pose proof (configured_as_put_learner _ _ _ _ _ _ i l' self Hs) as Hput;
    destruct (AdaptiveRandomForest.put_learner i l' self); exact Hput.
Qed.

Lemma configured_as_ensure_ensemble nb dwv lam ddm wdm na X :
  preserves (configured nb dwv lam ddm wdm na)
    (AdaptiveRandomForest.ensure_ensemble X).
Proof.
  unfold AdaptiveRandomForest.ensure_ensemble.
  apply preserves_bind; [apply preserves_gets|intros [slots|]];
    [apply preserves_ret|].
  unfold AdaptiveRandomForest.init_ensemble.
  apply preserves_bind.
  { apply preserves_modify. intros [] H. unfold configured_as in *. simpl in *.
    rewrite length_replicate. destruct H as (-> & H). tauto. }
  intros _. apply preserves_bind.
  { unfold AdaptiveRandomForest._set_max_features. preserve.
    destruct s; assumption. }
  intros _. apply preserves_bind; [apply preserves_gets|intros n].
  apply preserves_for_range. intros i s Hs.
  unfold AdaptiveRandomForest.init_slot, bind, gets, modify, raise.
  destruct (AdaptiveRandomForest.ensemble s) as [slots|] eqn:Hens; [|exact Hs].
  destruct (i <? List.length slots)%nat; [|exact Hs].
  destruct (AdaptiveRandomForest.max_features s); try exact Hs.
  unfold configured_as in *. rewrite Hens in Hs.
  destruct s; simpl in *. rewrite length_insert. exact Hs.
Qed.

Lemma configured_as__partial_fit nb dwv lam ddm wdm na X y weight :
  preserves (configured nb dwv lam ddm wdm na)
    (AdaptiveRandomForest._partial_fit X y weight).
Proof.
  unfold AdaptiveRandomForest._partial_fit.
  apply preserves_bind.
  { apply preserves_modify. intros [] H. exact H. }
  intros _. apply preserves_bind; [apply configured_as_ensure_ensemble|intros _].
  apply preserves_bind; [apply preserves_gets|intros n].
  apply preserves_for_range. intros i.
  apply preserves_bind; [apply configured_as_get_learner|intros l1].
  apply preserves_bind; [apply configured_as_get_learner|intros l2].
  apply preserves_bind.
  { apply preserves_modify. intros s Hs. apply configured_as_put_learner. exact Hs. }
  intros _. apply preserves_bind.
  { intros s Hs. unfold AdaptiveRandomForest.draw_poisson.
    destruct (RandomState.poisson _ _). destruct s; exact Hs. }
  intros k. destruct (0 <? k).
  - apply preserves_bind; [apply preserves_gets|intros seen].
    apply configured_as_call_learner.
  - apply preserves_ret.
Qed.

Lemma configured_as_get_votes_for_instance nb dwv lam ddm wdm na X :
  preserves (configured nb dwv lam ddm wdm na)
    (AdaptiveRandomForest.get_votes_for_instance X).
Proof.
  unfold AdaptiveRandomForest.get_votes_for_instance.
  apply preserves_bind; [apply configured_as_ensure_ensemble|intros _].
  apply preserves_bind; [apply preserves_gets|intros n].
  apply preserves_for_fold. intros i acc.
  unfold AdaptiveRandomForest.add_votes_of_learner.
  apply preserves_bind; [apply configured_as_get_learner|intros l].
  destruct (_ && _)%bool; [|apply preserves_ret].
  apply preserves_bind; [apply preserves_gets|intros b].
  apply preserves_ret.
Qed.

(** X8. The configuration is fixed and the ensemble keeps its length: the
    constructor sets [nb_ensemble], the voting mode, [lambda_value], the
    two detector prototypes and the nominal attributes, and [partial_fit],
    [predict], [get_votes_for_instance] and [reset] never change them,
    whether they return or raise; whenever the ensemble is built it has
    exactly [nb_ensemble] slots (none for a negative [nb_ensemble]). *)
Theorem configuration_is_kept
    (nb : Z) (dwv : bool) (lam : Q) (ddm wdm : option D) (na : option (list Z)) :
  (forall mf metric (ddm' wdm' : PyValue D) (rs : R),
      AdaptiveRandomForest.detector_or_None ddm' = ddm ->
      AdaptiveRandomForest.detector_or_None wdm' = wdm ->
      configured_as nb dwv lam ddm wdm na
        (AdaptiveRandomForest.__init__ (C:=C) nb mf dwv lam metric ddm' wdm' na rs))
  /\ (forall self,
        configured_as nb dwv lam ddm wdm na self ->
        (forall X y weight,
            configured_as nb dwv lam ddm wdm na
              (final_state (AdaptiveRandomForest.partial_fit X y weight self)))
        /\ (forall X,
              configured_as nb dwv lam ddm wdm na
                (final_state (AdaptiveRandomForest.predict X self)))
        /\ (forall X,
              configured_as nb dwv lam ddm wdm na
                (final_state (AdaptiveRandomForest.get_votes_for_instance X self)))
        /\ configured_as nb dwv lam ddm wdm na
             (final_state (AdaptiveRandomForest.reset self))).
Proof.
  split.
  - intros mf metric ddm' wdm' rs <- <-. unfold configured_as. simpl. tauto.
  - intros self Hs. split; [|split; [|split]].
    + intros X y weight. apply preserves_final_state; [|exact Hs].
      unfold AdaptiveRandomForest.partial_fit.
      destruct y as [y|]; [|apply preserves_ret].
      apply preserves_bind.
      { destruct (_ =? _)%nat; [apply preserves_ret|].
        destruct (match weight with Some w => w | None => [INSTANCE_WEIGHT] end);
          [apply preserves_raise|apply preserves_ret]. }
      intros w. apply preserves_for_range. intros i.
      destruct (w !! i) as [wi|]; [|apply preserves_raise].
      destruct (Qnonzero wi); [|apply preserves_ret].
      apply preserves_bind.
      { apply preserves_modify. intros [] H. exact H. }
      intros _. destruct (X !! i); [|apply preserves_raise].
      destruct (y !! i); [|apply preserves_raise].
      apply configured_as__partial_fit.
    + intros X. apply preserves_final_state; [|exact Hs].
      unfold AdaptiveRandomForest.predict.
      apply preserves_for_fold. intros Xi acc.
      apply preserves_bind; [apply configured_as_get_votes_for_instance|intros v].
      apply preserves_ret.
    + intros X. apply preserves_final_state; [|exact Hs].
      apply configured_as_get_votes_for_instance.
    + destruct self. unfold configured_as in *. simpl in *. tauto.
Qed.

End ForestConfiguration.

(** X9. The evaluator over a run of updates: starting from a fresh
    evaluator, after any calls of [update] the performance is 100 times the
    total weight of the calls whose weight is positive and whose prediction
    equals the label; it is never negative, and [length] is still 0: no
    call advances it. *)
Theorem evaluator_after_updates (calls : list (label * label * Q)) :
  let e := updates calls ARFBaseClassifierEvaluator.__init__ in
  (ARFBaseClassifierEvaluator.get_performance e
   == 100 * Qsum (List.map counted_weight calls))%Q
  /\ (0 <= ARFBaseClassifierEvaluator.get_performance e)%Q
  /\ ARFBaseClassifierEvaluator.length e = 0.
Proof.
  assert (Hgen : forall e0,
             (ARFBaseClassifierEvaluator.aggregation (updates calls e0)
              == ARFBaseClassifierEvaluator.aggregation e0
                 + Qsum (List.map counted_weight calls))%Q
             /\ ARFBaseClassifierEvaluator.length (updates calls e0)
                = ARFBaseClassifierEvaluator.length e0).
  { induction calls as [|[[p y] w] calls IH]; intros e0; simpl.
    - split; [ring|reflexivity].
    - destruct (IH (ARFBaseClassifierEvaluator.update p y w e0)) as [IHa IHl].
      unfold updates in *. simpl. rewrite IHa, IHl. clear IHa IHl IH.
      unfold ARFBaseClassifierEvaluator.update, counted_weight.
      destruct (Qpositive w); simpl.
      + destruct (Z.eqb p y); split; try reflexivity; ring.
      + split; [ring|reflexivity]. }
  assert (Hpos : (0 <= Qsum (List.map counted_weight calls))%Q).
  { clear Hgen. induction calls as [|[[p y] w] calls IH]; simpl; [apply Qle_refl|].
    replace 0%Q with (0 + 0)%Q by reflexivity.
    apply Qplus_le_compat; [|exact IH].
    unfold counted_weight. destruct (Qpositive w) eqn:Hw; simpl; [|apply Qle_refl].
    destruct (Z.eqb p y); [|apply Qle_refl].
    apply Qlt_le_weak. apply Qpositive_true. exact Hw. }
  intros e. subst e.
  destruct (Hgen ARFBaseClassifierEvaluator.__init__) as [Ha Hl].
  unfold ARFBaseClassifierEvaluator.get_performance.
  split; [|split].
  - rewrite Ha. simpl. ring.
  - rewrite Ha. simpl. rewrite Qplus_0_l.
    apply Qmult_le_0_compat; [exact Hpos|discriminate].
  - rewrite Hl. reflexivity.
Qed.

(* ===================================================================== *)
(** * The forest: training runs to its end                                 *)
(* ===================================================================== *)

Section ForestTraining.

Context {D R C : Type}.
Context `{Det : !BaseDriftDetector.t D} `{Rnd : !RandomState.t R}
        `{Tree : !ARFHoeffdingTree.t R C}.

Implicit Types (self : AdaptiveRandomForest.t D R C).

(* The attributes that training a learner leaves alone. *)
Local Abbreviation same_counters self self' :=
  (AdaptiveRandomForest.instances_seen self'
   = AdaptiveRandomForest.instances_seen self
   /\ AdaptiveRandomForest._train_weight_seen_by_model self'
      = AdaptiveRandomForest._train_weight_seen_by_model self
   /\ AdaptiveRandomForest.nb_ensemble self'
      = AdaptiveRandomForest.nb_ensemble self).

Lemma forest_ready_put_learner i l self :
  forest_ready self -> learner_ready l ->
  forest_ready (AdaptiveRandomForest.put_learner i l self).
Proof.
  intros (Hd & slots & Hens & Hlen & Hall) Hl.
  unfold AdaptiveRandomForest.put_learner. rewrite Hens.
  split; [destruct self; exact Hd|].
  exists (<[i := Some l]> slots).
  split; [destruct self; reflexivity|]. split.
  - rewrite length_insert. destruct self; exact Hlen.
  - apply Forall_insert; [exact Hall|]. exists l. split; [reflexivity|exact Hl].
Qed.

Lemma same_counters_put_learner i l self :
  same_counters self (AdaptiveRandomForest.put_learner i l self).
Proof.
  unfold AdaptiveRandomForest.put_learner.
  destruct (AdaptiveRandomForest.ensemble self); destruct self; simpl; auto.
Qed.

Lemma get_learner_ready i self :
  forest_ready self ->
  (i < Z.to_nat (AdaptiveRandomForest.nb_ensemble self))%nat ->
  exists l, AdaptiveRandomForest.get_learner i self = Return l self
            /\ learner_ready l.
Proof.
  intros (Hd & slots & Hens & Hlen & Hall) Hi.
  destruct (lookup_lt_is_Some_2 slots i) as [slot Hslot]; [lia|].
  destruct (Forall_lookup_1 _ _ _ _ Hall Hslot) as (l & -> & Hl).
  exists l. split; [|exact Hl].
  unfold AdaptiveRandomForest.get_learner, bind, gets, ret.
  rewrite Hens, Hslot. reflexivity.
Qed.

Lemma train_learner_ready X y weight i self :
  forest_ready self ->
  (i < Z.to_nat (AdaptiveRandomForest.nb_ensemble self))%nat ->
  exists self',
    train_learner X y weight i self = Return tt self'
    /\ forest_ready self' /\ same_counters self self'.
Proof.
  intros Hready Hi.
  destruct (get_learner_ready i self Hready Hi) as (l & Hget & Hl).
  unfold train_learner, bind. rewrite Hget. rewrite Hget.
  unfold modify at 1.
  set (l1 := ARFBaseLearner.set_evaluator _ l).
  assert (Hl1 : learner_ready l1) by (apply set_evaluator_learner_ready; exact Hl).
  pose proof (forest_ready_put_learner i l1 self Hready Hl1) as Hready1.
  pose proof (same_counters_put_learner i l1 self) as Hsame1.
  set (s1 := AdaptiveRandomForest.put_learner i l1 self) in *.
  unfold AdaptiveRandomForest.draw_poisson.
  destruct (RandomState.poisson (AdaptiveRandomForest.random_state s1)
              (AdaptiveRandomForest.lambda_value s1)) as [k rs].
  assert (Hready2 : forest_ready (AdaptiveRandomForest.set_random_state rs s1))
    by (destruct s1; exact Hready1).
  assert (Hsame2 : same_counters self (AdaptiveRandomForest.set_random_state rs s1))
    by (destruct s1; exact Hsame1).
  set (s2 := AdaptiveRandomForest.set_random_state rs s1) in *.
  destruct (0 <? k).
  - unfold gets at 1. unfold AdaptiveRandomForest.call_learner, bind.
    destruct (get_learner_ready i s2 Hready2) as (l2 & Hget2 & Hl2).
    { destruct Hsame2 as (_ & _ & ->). exact Hi. }
    rewrite Hget2.
    destruct (learner_partial_fit_ready l2 (AdaptiveRandomForest.random_state s2)
                X y (inject_Z k) (AdaptiveRandomForest.instances_seen s2) Hl2)
      as (l3 & rs3 & Hrun & Hl3).
    rewrite Hrun.
    eexists. split; [reflexivity|].
    pose proof (forest_ready_put_learner i l3 s2 Hready2 Hl3) as Hready3.
    pose proof (same_counters_put_learner i l3 s2) as Hsame3.
    destruct (AdaptiveRandomForest.put_learner i l3 s2) as [].
    split; [exact Hready3|].
    simpl in *. destruct Hsame2 as (<- & <- & <-). exact Hsame3.
  - exists s2. split; [reflexivity|]. split; assumption.
Qed.

Lemma train_loop_ready X y weight (range : list nat) self :
  forest_ready self ->
  Forall (fun i => (i < Z.to_nat (AdaptiveRandomForest.nb_ensemble self))%nat) range ->
  exists self',
    for_each range (train_learner X y weight) self = Return tt self'
    /\ forest_ready self' /\ same_counters self self'.
Proof.
  revert self. induction range as [|i range IH]; intros self Hready Hrange.
  - exists self. split; [reflexivity|]. split; [exact Hready|auto].
  - inversion_clear Hrange as [|? ? Hi Hrest].
    destruct (train_learner_ready X y weight i self Hready Hi)
      as (s1 & Hrun & Hready1 & Hs1 & Hw1 & Hn1).
    destruct (IH s1 Hready1) as (s2 & Hrun2 & Hready2 & Hs2 & Hw2 & Hn2).
    { rewrite Hn1. exact Hrest. }
    exists s2. split.
    + unfold for_each in *. simpl. unfold bind. rewrite Hrun. exact Hrun2.
    + split; [exact Hready2|]. repeat split; congruence.
Qed.

Lemma ensure_ensemble_ready X self :
  trainable self X ->
  exists self',
    AdaptiveRandomForest.ensure_ensemble X self = Return tt self'
    /\ forest_ready self' /\ same_counters self self'.
Proof.
  intros [Hready|(Hd & Hens & v & Hv)].
  - exists self. destruct Hready as (Hd & slots & Hens & Hrest).
    unfold AdaptiveRandomForest.ensure_ensemble, bind, gets. rewrite Hens.
    split; [reflexivity|]. split; [|auto].
    split; [exact Hd|]. exists slots. split; [exact Hens|exact Hrest].
  - unfold AdaptiveRandomForest.ensure_ensemble, bind, gets. rewrite Hens.
    rewrite (init_ensemble_run self X v Hv). cbv zeta.
    eexists. split; [reflexivity|].
    destruct (AdaptiveRandomForest.drift_detection_method self) as [d|] eqn:Hddm;
      [clear Hd|contradiction].
    split; [|destruct self; simpl; auto].
    split; [destruct self; simpl in *; subst; discriminate|].
    eexists. split; [destruct self; reflexivity|]. split.
    + rewrite !length_map, length_seq. destruct self; reflexivity.
    + apply Forall_forall. intros slot Hin.
      apply list_elem_of_In in Hin.
      apply in_map_iff in Hin. destruct Hin as (l & <- & Hin).
      apply in_map_iff in Hin. destruct Hin as (i & <- & _).
      eexists. split; [reflexivity|].
      unfold built_learner. rewrite Hddm. apply init_learner_ready.
Qed.

Lemma _partial_fit_ready X y weight self :
  trainable self X ->
  exists self',
    AdaptiveRandomForest._partial_fit X y weight self = Return tt self'
    /\ forest_ready self'
    /\ AdaptiveRandomForest.instances_seen self'
       = AdaptiveRandomForest.instances_seen self + 1
    /\ AdaptiveRandomForest._train_weight_seen_by_model self'
       = AdaptiveRandomForest._train_weight_seen_by_model self
    /\ AdaptiveRandomForest.nb_ensemble self'
       = AdaptiveRandomForest.nb_ensemble self.
Proof.
  intros Htrain.
  change (AdaptiveRandomForest._partial_fit X y weight)
    with (bind (modify (fun self =>
                          AdaptiveRandomForest.set_instances_seen
                            (AdaptiveRandomForest.instances_seen self + 1) self))
               (fun _ =>
                  bind (AdaptiveRandomForest.ensure_ensemble X)
                       (fun _ =>
                          bind (gets AdaptiveRandomForest.nb_ensemble)
                               (fun nb => for_range (Z.to_nat nb)
                                            (train_learner X y weight))))).
  unfold bind at 1. unfold modify at 1.
  set (s0 := AdaptiveRandomForest.set_instances_seen _ self).
  assert (Htrain0 : trainable s0 X) by (subst s0; destruct self; exact Htrain).
  destruct (ensure_ensemble_ready X s0 Htrain0) as (s1 & Hrun1 & Hready1 & Hs1 & Hw1 & Hn1).
  unfold bind at 1. rewrite Hrun1.
  unfold bind at 1. unfold gets at 1.
  destruct (train_loop_ready X y weight
              (seq 0 (Z.to_nat (AdaptiveRandomForest.nb_ensemble s1))) s1 Hready1)
    as (s2 & Hrun2 & Hready2 & Hs2 & Hw2 & Hn2).
  { apply Forall_forall. intros i Hin. apply list_elem_of_In, in_seq in Hin. lia. }
  exists s2. split; [exact Hrun2|]. split; [exact Hready2|].
  rewrite Hs2, Hs1, Hw2, Hw1, Hn2, Hn1. subst s0. destruct self; simpl; auto.
Qed.

(** X10. Training one instance runs to its end: on a forest configured with
    a drift detector, whose feature-subsample policy can be evaluated on
    the row (or whose ensemble is already built), [_partial_fit] returns,
    whatever the random draws and the detectors' signals; it counts the
    instance, leaves the ensemble built with [nb_ensemble] learners that
    hold their detectors, and does not touch the weight total. *)
Theorem _partial_fit_returns X y weight self :
  trainable self X ->
  exists self',
    AdaptiveRandomForest._partial_fit X y weight self = Return tt self'
    /\ forest_ready self'
    /\ AdaptiveRandomForest.instances_seen self'
       = AdaptiveRandomForest.instances_seen self + 1
    /\ AdaptiveRandomForest._train_weight_seen_by_model self'
       = AdaptiveRandomForest._train_weight_seen_by_model self.
Proof.
  intros Htrain.
  destruct (_partial_fit_ready X y weight self Htrain)
    as (self' & Hrun & Hready & Hseen & Hw & _).
  exists self'. auto.
Qed.

Lemma fit_rows_ready (rows : list (instance * (label * Q))) self :
  (forall Xi yi w, In (Xi, (yi, w)) rows -> trainable self Xi) ->
  exists self',
    for_each rows
      (fun row => AdaptiveRandomForest.fit_row row.1 row.2.1 row.2.2) self
    = Return tt self'
    /\ (forall X', trainable self X' -> trainable self' X')
    /\ (forest_ready self -> forest_ready self')
    /\ (List.existsb (fun row => Qnonzero row.2.2) rows = true -> forest_ready self')
    /\ AdaptiveRandomForest.instances_seen self'
       = AdaptiveRandomForest.instances_seen self
         + trained_rows (List.map (fun row => row.2.2) rows)
    /\ (AdaptiveRandomForest._train_weight_seen_by_model self'
        == AdaptiveRandomForest._train_weight_seen_by_model self
           + Qsum (List.map (fun row => row.2.2) rows))%Q.
Proof.
  revert self. induction rows as [|[Xi [yi w]] rows IH]; intros self Hrows.
  - exists self. split; [reflexivity|]. split; [auto|]. split; [auto|].
    split; [discriminate|].
    unfold trained_rows. simpl. split; [lia|ring].
  - assert (Hstep : exists s1,
               AdaptiveRandomForest.fit_row Xi yi w self = Return tt s1
               /\ (forall X', trainable self X' -> trainable s1 X')
               /\ (forest_ready self -> forest_ready s1)
               /\ (Qnonzero w = true -> forest_ready s1)
               /\ AdaptiveRandomForest.instances_seen s1
                  = AdaptiveRandomForest.instances_seen self
                    + (if Qnonzero w then 1 else 0)
               /\ (AdaptiveRandomForest._train_weight_seen_by_model s1
                   == AdaptiveRandomForest._train_weight_seen_by_model self + w)%Q).
    { unfold AdaptiveRandomForest.fit_row.
      destruct (Qnonzero w) eqn:Hw.
      - unfold bind, modify.
        set (s0 := AdaptiveRandomForest.set__train_weight_seen_by_model _ self).
        assert (Htrain0 : trainable s0 Xi).
        { subst s0. pose proof (Hrows Xi yi w (or_introl eq_refl)) as H.
          destruct self; exact H. }
        destruct (_partial_fit_ready Xi yi w s0 Htrain0)
          as (s1 & Hrun & Hready & Hseen & Hweight & _).
        exists s1. split; [exact Hrun|].
        split; [intros X' _; left; exact Hready|].
        split; [intros _; exact Hready|].
        split; [intros _; exact Hready|].
        rewrite Hseen, Hweight. subst s0. destruct self; simpl.
        split; [reflexivity|apply Qeq_refl].
      - exists self. split; [reflexivity|]. split; [auto|]. split; [auto|].
        split; [discriminate|]. split; [lia|].
        apply Qnonzero_false in Hw. rewrite Hw. ring. }
    destruct Hstep as (s1 & Hrun1 & Hkeep1 & Hr1 & Hready1 & Hseen1 & Hweight1).
    destruct (IH s1) as (s2 & Hrun2 & Hkeep2 & Hr2 & Hready2 & Hseen2 & Hweight2).
    { intros Xj yj wj Hin. apply Hkeep1. apply (Hrows Xj yj wj). right. exact Hin. }
    exists s2. split.
    { unfold for_each in *. simpl. unfold bind. rewrite Hrun1. exact Hrun2. }
    split; [auto|]. split; [auto|]. split.
    { simpl. intros Hex. apply orb_true_iff in Hex. destruct Hex as [Hw|Hex].
      - exact (Hr2 (Hready1 Hw)).
      - exact (Hready2 Hex). }
    split.
    + rewrite Hseen2, Hseen1. unfold trained_rows. simpl.
      destruct (Qnonzero w); simpl; lia.
    + rewrite Hweight2, Hweight1. simpl. ring.
Qed.

Lemma zip_rows_weights (X : list instance) (y : list label) (weight : list Q) :
  List.length y = List.length X ->
  List.length weight = List.length X ->
  List.map (fun row : instance * (label * Q) => row.2.2) (zip X (zip y weight))
  = weight.
Proof.
  revert y weight. induction X as [|Xi X IH]; intros [|yi y] [|w weight] Hy Hw;
    simpl in *; try discriminate; [reflexivity|].
  f_equal. apply IH; lia.
Qed.

Lemma partial_fit_rows self (X : list instance) (y : list label) (weight : list Q) :
  List.length y = List.length X ->
  List.length weight = List.length X ->
  AdaptiveRandomForest.partial_fit X (Some y) (Some weight) self
  = for_each (zip X (zip y weight))
      (fun row => AdaptiveRandomForest.fit_row row.1 row.2.1 row.2.2) self.
Proof.
  intros Hy Hw.
  unfold AdaptiveRandomForest.partial_fit, row_count.
  rewrite <- Hw, Nat.eqb_refl. unfold bind at 1, ret at 1.
  unfold for_range.
  replace (List.length weight) with (List.length (zip X (zip y weight))).
  2:{ rewrite !length_zip; lia. }
  apply for_each_indices. intros i [Xi [yi w]] s' Hi.
  apply lookup_zip_Some in Hi as [HX Hi].
  apply lookup_zip_Some in Hi as [Hyi Hwi].
  simpl. rewrite Hwi, HX, Hyi. reflexivity.
Qed.

(* A batch on a trainable forest runs to its end. *)
Lemma partial_fit_batch_ready self (X : list instance) (y : list label)
    (weight : list Q) :
  List.length y = List.length X ->
  List.length weight = List.length X ->
  (forall Xi, In Xi X -> trainable self Xi) ->
  exists self',
    AdaptiveRandomForest.partial_fit X (Some y) (Some weight) self
    = Return tt self'
    /\ (forall X', trainable self X' -> trainable self' X')
    /\ (List.existsb Qnonzero weight = true -> forest_ready self').
Proof.
  intros Hy Hw Hrows.
  destruct (fit_rows_ready (zip X (zip y weight)) self)
    as (self' & Hrun & Hkeep & _ & Hready & _).
  { intros Xi yi w Hin. apply Hrows.
    apply list_elem_of_In in Hin. apply list_elem_of_lookup in Hin as [i Hi].
    apply lookup_zip_Some in Hi as [HX _].
    apply list_elem_of_In. apply list_elem_of_lookup. exists i. exact HX. }
  exists self'. split; [rewrite partial_fit_rows by assumption; exact Hrun|].
  split; [exact Hkeep|].
  intros Hex. apply Hready.
  rewrite <- (zip_rows_weights X y weight Hy Hw) in Hex.
  rewrite existsb_exists in *. destruct Hex as (w & Hin & Hnz).
  apply in_map_iff in Hin as (row & <- & Hin). exists row. split; assumption.
Qed.

(** X11. A batch trains to its end: on a forest configured with a drift
    detector, with one label and one weight per row and a feature policy
    that can be evaluated on the rows, [partial_fit] returns; the forest
    can still be trained on whatever it could be trained on before, and as
    soon as one weight of the batch is not zero the ensemble is built, with
    [nb_ensemble] learners that hold their detectors. *)
Theorem partial_fit_batch_returns self (X : list instance) (y : list label)
    (weight : list Q) :
  List.length y = List.length X ->
  List.length weight = List.length X ->
  (forall Xi, In Xi X -> trainable self Xi) ->
  exists self',
    AdaptiveRandomForest.partial_fit X (Some y) (Some weight) self
    = Return tt self'
    /\ (forall X', trainable self X' -> trainable self' X')
    /\ (List.existsb Qnonzero weight = true -> forest_ready self').
Proof. apply partial_fit_batch_ready. Qed.

Lemma framed_train_weight (c : Q) :
  framed (D:=D) (R:=R) (C:=C)
    (fun self => AdaptiveRandomForest._train_weight_seen_by_model self = c).
Proof. repeat split; intros v [] H; exact H. Qed.

Lemma _partial_fit_keeps_train_weight X y weight self :
  AdaptiveRandomForest._train_weight_seen_by_model
    (final_state (AdaptiveRandomForest._partial_fit X y weight self))
  = AdaptiveRandomForest._train_weight_seen_by_model self.
Proof.
  set (c := AdaptiveRandomForest._train_weight_seen_by_model self).
  pose proof (framed_train_weight c) as HF.
  apply (preserves_final_state
           (fun s => AdaptiveRandomForest._train_weight_seen_by_model s = c));
    [|reflexivity].
  unfold AdaptiveRandomForest._partial_fit.
  apply preserves_bind.
  { apply preserves_modify. intros [] H. exact H. }
  intros _.
  apply preserves_bind; [apply preserves_ensure_ensemble; exact HF|intros _].
  apply preserves_bind; [apply preserves_gets|intros nb].
  apply preserves_for_range. intros i.
  apply preserves_bind; [apply preserves_get_learner|intros l1].
  apply preserves_bind; [apply preserves_get_learner|intros l2].
  apply preserves_bind.
  { apply preserves_modify. intros s Hs. apply framed_put_learner; assumption. }
  intros _.
  apply preserves_bind; [apply preserves_draw_poisson; exact HF|intros k].
  destruct (0 <? k).
  - apply preserves_bind; [apply preserves_gets|intros seen].
    apply preserves_call_learner; exact HF.
  - apply preserves_ret.
Qed.

Lemma fit_rows_counters (rows : list (instance * (label * Q))) self self' :
  for_each rows (fun row => AdaptiveRandomForest.fit_row row.1 row.2.1 row.2.2) self
  = Return tt self' ->
  AdaptiveRandomForest.instances_seen self'
  = AdaptiveRandomForest.instances_seen self
    + trained_rows (List.map (fun row => row.2.2) rows)
  /\ (AdaptiveRandomForest._train_weight_seen_by_model self'
      == AdaptiveRandomForest._train_weight_seen_by_model self
         + Qsum (List.map (fun row => row.2.2) rows))%Q.
Proof.
  revert self. induction rows as [|[Xi [yi w]] rows IH]; intros self Hrun.
  - inversion Hrun. subst. unfold trained_rows. simpl. split; [lia|ring].
  - unfold for_each in Hrun. simpl in Hrun. unfold bind in Hrun.
    destruct (AdaptiveRandomForest.fit_row Xi yi w self) as [[] s1|e s1] eqn:Hrow;
      [|discriminate Hrun].
    destruct (IH s1 Hrun) as [Hseen Hweight].
    rewrite Hseen, Hweight. clear IH Hrun Hseen Hweight.
    unfold AdaptiveRandomForest.fit_row in Hrow. unfold trained_rows. simpl.
    destruct (Qnonzero w) eqn:Hw.
    + unfold bind, modify in Hrow.
      set (s0 := AdaptiveRandomForest.set__train_weight_seen_by_model _ self) in Hrow.
      pose proof (_partial_fit_counts_one Xi yi w s0) as Hc.
      pose proof (_partial_fit_keeps_train_weight Xi yi w s0) as Hk.
      rewrite Hrow in Hc, Hk. simpl in Hc, Hk. rewrite Hc, Hk.
      subst s0. destruct self; simpl. split; [lia|ring].
    + inversion Hrow. subst. apply Qnonzero_false in Hw. rewrite Hw.
      split; [lia|ring].
Qed.

(** X12. The counters after a batch: when [partial_fit] returns from a
    batch with one label and one weight per row, [instances_seen] has grown
    by the number of rows whose weight is not zero, and
    [_train_weight_seen_by_model] by the sum of the weights. *)
Theorem partial_fit_counters self self' (X : list instance) (y : list label)
    (weight : list Q) :
  List.length y = List.length X ->
  List.length weight = List.length X ->
  AdaptiveRandomForest.partial_fit X (Some y) (Some weight) self = Return tt self' ->
  AdaptiveRandomForest.instances_seen self'
  = AdaptiveRandomForest.instances_seen self + trained_rows weight
  /\ (AdaptiveRandomForest._train_weight_seen_by_model self'
      == AdaptiveRandomForest._train_weight_seen_by_model self + Qsum weight)%Q.
Proof.
  intros Hy Hw Hrun.
  rewrite partial_fit_rows in Hrun by assumption.
  apply fit_rows_counters in Hrun.
  rewrite (zip_rows_weights X y weight Hy Hw) in Hrun. exact Hrun.
Qed.

End ForestTraining.


(* ===================================================================== *)
(** * The forest: predicting                                               *)
(* ===================================================================== *)

Section ForestPredicting.

Context {D R C : Type}.
Context `{Det : !BaseDriftDetector.t D} `{Rnd : !RandomState.t R}
        `{Tree : !ARFHoeffdingTree.t R C}.

Implicit Types (self : AdaptiveRandomForest.t D R C).

Lemma predict_initialised_run self ls (X : list instance) :
  AdaptiveRandomForest.ensemble self = Some (map Some ls) ->
  List.length ls = Z.to_nat (AdaptiveRandomForest.nb_ensemble self) ->
  AdaptiveRandomForest.predict X self
  = Return
      (List.map
         (fun Xi =>
            AdaptiveRandomForest.label_of_votes
              (fold_left
                 (fun acc l =>
                    add_values acc
                      (learner_votes
                         (AdaptiveRandomForest.disable_weighted_vote self) l Xi))
                 ls []))
         X)
      self.
Proof.
  intros Hens Hlen. induction X as [|Xi X IH]; [reflexivity|].
  rewrite predict_cons, (get_votes_for_instance_run self ls Xi Hens Hlen), IH.
  reflexivity.
Qed.

(** X13. Predicting on a built ensemble runs to its end: when every slot
    of the ensemble holds a learner, [get_votes_for_instance] and [predict]
    never raise, [predict] returns one label per row, and every slot still
    holds a learner afterwards. *)
Theorem predict_returns_a_label_per_row self (X : list instance) :
  initialised self ->
  (forall Xi : instance,
      exists v self',
        AdaptiveRandomForest.get_votes_for_instance Xi self = Return v self')
  /\ exists labels self',
       AdaptiveRandomForest.predict X self = Return labels self'
       /\ List.length labels = List.length X
       /\ initialised self'.
Proof.
  intros (ls & Hens & Hlen). split.
  - intros Xi. eexists _, self.
    apply (get_votes_for_instance_run self ls Xi Hens Hlen).
  - eexists _, self.
    split; [apply (predict_initialised_run self ls X Hens Hlen)|].
    split; [apply length_map|].
    exists ls. split; assumption.
Qed.

(** X14. The first request for votes builds the ensemble: on a forest whose
    ensemble is not built and whose feature policy can be evaluated on the
    row, [get_votes_for_instance] returns, replaces [max_features] by the
    computed size and leaves [nb_ensemble] foreground learners, numbered
    from 0, each created at the current [instances_seen] with a new tree
    for that size, a new evaluator and copies of the forest's detectors. *)
Theorem first_votes_build_the_ensemble self (X : instance) (v : Z) :
  AdaptiveRandomForest.ensemble self = None ->
  AdaptiveRandomForest.max_features_of_policy
    (AdaptiveRandomForest.max_features self) (feature_count X) = inr v ->
  let size := AdaptiveRandomForest.sanity_checks v (feature_count X) in
  let built :=
    List.map
      (fun i =>
         ARFBaseLearner.__init__ (Z.of_nat i)
           (ARFHoeffdingTree.new
              (AdaptiveRandomForest.nominal_attributes self) size)
           (AdaptiveRandomForest.instances_seen self)
           (AdaptiveRandomForest._evaluator_method self)
           (AdaptiveRandomForest.drift_detection_method self)
           (AdaptiveRandomForest.warning_detection_method self)
           false)
      (seq 0 (Z.to_nat (AdaptiveRandomForest.nb_ensemble self))) in
  exists combined_votes,
    AdaptiveRandomForest.get_votes_for_instance X self
    = Return combined_votes
        (AdaptiveRandomForest.set_ensemble (Some (List.map Some built))
           (AdaptiveRandomForest.set_max_features (PyInt size) self)).
Proof.
  intros Hens Hv size built.
  unfold AdaptiveRandomForest.get_votes_for_instance.
  unfold bind at 1. unfold AdaptiveRandomForest.ensure_ensemble.
  unfold bind at 1. unfold gets at 1. rewrite Hens.
  rewrite (init_ensemble_run self X v Hv). cbv zeta.
  fold size. change (map (built_learner self size) _) with built.
  set (self' := AdaptiveRandomForest.set_ensemble _ _).
  unfold bind at 1. unfold gets at 1.
  assert (Hens' : AdaptiveRandomForest.ensemble self' = Some (map Some built))
    by (subst self'; destruct self; reflexivity).
  assert (Hnb : AdaptiveRandomForest.nb_ensemble self'
                = AdaptiveRandomForest.nb_ensemble self)
    by (subst self'; destruct self; reflexivity).
  rewrite (votes_loop_run self' built X _ 0 [] Hens').
  - eexists. reflexivity.
  - subst built. rewrite length_map, length_seq, Hnb. simpl. lia.
Qed.

(** X15. A failed initialisation is not retried: when the feature policy
    cannot be evaluated on the first row, the call raises its error after
    the slots of the ensemble were allocated; the forest keeps
    [nb_ensemble] empty slots, no later call builds them, and with at least
    one slot every later request for votes, prediction of a row or training
    instance raises [AttributeError]. *)
Theorem failed_initialisation_is_kept self (X : instance) (e : exn) :
  AdaptiveRandomForest.ensemble self = None ->
  AdaptiveRandomForest.max_features_of_policy
    (AdaptiveRandomForest.max_features self) (feature_count X) = inl e ->
  0 < AdaptiveRandomForest.nb_ensemble self ->
  let broken :=
    AdaptiveRandomForest.set_ensemble
      (Some (replicate (Z.to_nat (AdaptiveRandomForest.nb_ensemble self)) None))
      self in
  AdaptiveRandomForest.get_votes_for_instance X self = Raise e broken
  /\ (forall X',
        AdaptiveRandomForest.get_votes_for_instance X' broken
        = Raise AttributeError broken)
  /\ (forall X' rest,
        AdaptiveRandomForest.predict (X' :: rest) broken
        = Raise AttributeError broken)
  /\ (forall X' y weight,
        AdaptiveRandomForest._partial_fit X' y weight broken
        = Raise AttributeError
            (AdaptiveRandomForest.set_instances_seen
               (AdaptiveRandomForest.instances_seen self + 1) broken)).
Proof.
  intros Hens Hv Hnb broken.
  assert (Hens' : AdaptiveRandomForest.ensemble broken
                  = Some (replicate (Z.to_nat (AdaptiveRandomForest.nb_ensemble self))
                            None))
    by (subst broken; destruct self; reflexivity).
  assert (Hnb' : AdaptiveRandomForest.nb_ensemble broken
                 = AdaptiveRandomForest.nb_ensemble self)
    by (subst broken; destruct self; reflexivity).
  assert (Hmf : AdaptiveRandomForest.max_features broken
                = AdaptiveRandomForest.max_features self)
    by (subst broken; destruct self; reflexivity).
  destruct (Z.to_nat (AdaptiveRandomForest.nb_ensemble self)) as [|n] eqn:Hn;
    [lia|].
  assert (Hvotes : forall X',
             AdaptiveRandomForest.get_votes_for_instance X' broken
             = Raise AttributeError broken).
  { intros X'.
    unfold AdaptiveRandomForest.get_votes_for_instance,
      AdaptiveRandomForest.ensure_ensemble, bind, gets, ret.
    rewrite Hens', Hnb', Hn. simpl.
    unfold AdaptiveRandomForest.add_votes_of_learner,
      AdaptiveRandomForest.get_learner, bind, gets, raise.
    rewrite Hens'. reflexivity. }
  split; [|split; [exact Hvotes|split]].
  - unfold AdaptiveRandomForest.get_votes_for_instance,
      AdaptiveRandomForest.ensure_ensemble.
    unfold bind at 1. unfold bind at 1. unfold gets at 1. rewrite Hens.
    unfold AdaptiveRandomForest.init_ensemble.
    unfold bind at 1. unfold modify at 1. rewrite Hn. fold broken.
    unfold bind at 1. unfold AdaptiveRandomForest._set_max_features.
    unfold bind at 1. unfold gets at 1. rewrite Hmf, Hv. reflexivity.
  - intros X' rest. rewrite predict_cons, Hvotes. reflexivity.
  - intros X' y weight.
    unfold AdaptiveRandomForest._partial_fit.
    unfold bind at 1. unfold modify at 1.
    set (s0 := AdaptiveRandomForest.set_instances_seen _ broken).
    assert (Hens0 : AdaptiveRandomForest.ensemble s0 = Some (None :: replicate n None))
      by (subst s0; destruct broken; exact Hens').
    assert (Hnb0 : AdaptiveRandomForest.nb_ensemble s0
                   = AdaptiveRandomForest.nb_ensemble self)
      by (subst s0; destruct broken; exact Hnb').
    unfold AdaptiveRandomForest.ensure_ensemble, bind, gets, ret.
    rewrite Hens0, Hnb0, Hn.
    unfold for_range, for_each. simpl seq. cbn [for_fold].
    assert (Hget : AdaptiveRandomForest.get_learner 0 s0 = Raise AttributeError s0).
    { unfold AdaptiveRandomForest.get_learner, bind, gets, raise.
      rewrite Hens0. reflexivity. }
    unfold bind at 1. rewrite Hget.
    subst s0. destruct self; reflexivity.
Qed.

Lemma values_dict_add_zero (d : votes) (k : label) (v : Q) :
  Forall (fun kv => (kv.2 == 0)%Q) d -> (v == 0)%Q ->
  Forall (fun kv => (kv.2 == 0)%Q) (dict_add d k v).
Proof.
  intros Hd Hv. induction d as [|[k' v'] d IH]; simpl.
  - constructor; [exact Hv|constructor].
  - inversion_clear Hd as [|? ? Hv' Hrest]. simpl in Hv'.
    destruct (Z.eqb k' k).
    + constructor; [simpl; rewrite Hv', Hv; reflexivity|exact Hrest].
    + constructor; [exact Hv'|apply IH; exact Hrest].
Qed.

Lemma values_add_values_zero (combined vote : votes) :
  Forall (fun kv => (kv.2 == 0)%Q) combined ->
  Forall (fun kv => (kv.2 == 0)%Q) vote ->
  Forall (fun kv => (kv.2 == 0)%Q) (add_values combined vote).
Proof.
  unfold add_values. revert combined.
  induction vote as [|[k v] vote IH]; intros combined Hc Hv; simpl; [exact Hc|].
  inversion_clear Hv as [|? ? Hv0 Hrest].
  apply IH; [|exact Hrest]. apply values_dict_add_zero; assumption.
Qed.

Lemma max_from_all_zero (best : label * Q) (rest : votes) :
  (best.2 == 0)%Q -> Forall (fun kv => (kv.2 == 0)%Q) rest ->
  max_from best rest = best.1.
Proof.
  intros Hb Hrest. induction rest as [|[k v] rest IH]; [reflexivity|].
  inversion_clear Hrest as [|? ? Hv Hrest']. simpl in *.
  replace (Qgt_bool v best.2) with false; [apply IH; exact Hrest'|].
  symmetry. apply Qgt_bool_false. rewrite Hv, Hb. apply Qle_refl.
Qed.

(** X16. Learners with no performance have no say: with weighted voting,
    when the evaluator of every learner reports a performance of zero (as
    every new evaluator does), every combined score is zero whatever the
    learners vote, and the label that [predict] appends is the first key
    put into the combined votes (0 when there is none). *)
Theorem zero_performance_votes_are_void self ls (X : instance) :
  AdaptiveRandomForest.ensemble self = Some (map Some ls) ->
  List.length ls = Z.to_nat (AdaptiveRandomForest.nb_ensemble self) ->
  AdaptiveRandomForest.disable_weighted_vote self = false ->
  Forall (fun l =>
            (ARFBaseClassifierEvaluator.get_performance (ARFBaseLearner.evaluator l)
             == 0)%Q) ls ->
  exists combined_votes,
    AdaptiveRandomForest.get_votes_for_instance X self = Return combined_votes self
    /\ Forall (fun kv => (kv.2 == 0)%Q) combined_votes
    /\ AdaptiveRandomForest.predict [X] self
       = Return [match combined_votes with
                 | [] => 0
                 | (k, _) :: _ => k
                 end] self.
Proof.
  intros Hens Hlen Hdis Hperf.
  eexists. split; [apply (get_votes_for_instance_run self ls X Hens Hlen)|].
  rewrite Hdis.
  assert (Hzero : forall combined,
             Forall (fun kv => (kv.2 == 0)%Q) combined ->
             Forall (fun kv => (kv.2 == 0)%Q)
               (fold_left (fun acc l => add_values acc (learner_votes false l X))
                  ls combined)).
  { clear Hens Hlen. induction ls as [|l ls IH]; intros combined Hc; [exact Hc|].
    inversion_clear Hperf as [|? ? Hl Hrest]. simpl.
    apply IH; [exact Hrest|].
    apply values_add_values_zero; [exact Hc|].
    unfold learner_votes.
    destruct (_ && _)%bool; [|constructor]. simpl.
    unfold map_values. apply Forall_forall. intros kv Hin.
    apply list_elem_of_In, in_map_iff in Hin. destruct Hin as ([k v] & <- & _).
    simpl. rewrite Hl. ring. }
  specialize (Hzero [] ltac:(constructor)).
  split; [exact Hzero|].
  rewrite predict_cons, (get_votes_for_instance_run self ls X Hens Hlen), Hdis.
  simpl.
  destruct (fold_left (fun acc l => add_values acc (learner_votes false l X)) ls [])
    as [|[k v] rest]; [reflexivity|].
  unfold AdaptiveRandomForest.label_of_votes, max_key.
  inversion_clear Hzero as [|? ? Hv Hrest].
  rewrite (max_from_all_zero (k, v) rest Hv Hrest). reflexivity.
Qed.

End ForestPredicting.

(* ===================================================================== *)
(** * The forest: from the constructor to predictions                      *)
(* ===================================================================== *)

Section ForestLifeCycle.

Context {D R C : Type}.
Context `{Det : !BaseDriftDetector.t D} `{Rnd : !RandomState.t R}
        `{Tree : !ARFHoeffdingTree.t R C}.

Implicit Types (self : AdaptiveRandomForest.t D R C).

Lemma forest_ready_initialised self : forest_ready self -> initialised self.
Proof.
  intros (_ & slots & Hens & Hlen & Hall).
  assert (Hls : exists ls, slots = map Some ls).
  { clear Hens Hlen. induction slots as [|slot slots IH]; [exists []; reflexivity|].
    inversion_clear Hall as [|? ? (l & -> & _) Hrest].
    destruct (IH Hrest) as [ls ->]. exists (l :: ls). reflexivity. }
  destruct Hls as [ls ->]. exists ls. split; [exact Hens|].
  rewrite length_map in Hlen. exact Hlen.
Qed.

Lemma policy_ok_unless_log2 self (X : instance) :
  (forall f, AdaptiveRandomForest.max_features self <> PyFloat f) ->
  (AdaptiveRandomForest.max_features self = PyStr "log2" -> X <> []) ->
  policy_ok self X.
Proof.
  intros Hfloat Hlog.
  unfold policy_ok, AdaptiveRandomForest.max_features_of_policy.
  assert (Hn : (feature_count X <? 0) = false).
  { apply Z.ltb_ge. unfold feature_count. lia. }
  destruct (AdaptiveRandomForest.max_features self) as [|s|z|q|o];
    rewrite ?Hn; try (eexists; reflexivity);
    [|exfalso; exact (Hfloat q eq_refl)].
  destruct (String.eqb s "auto" || String.eqb s "sqrt")%bool;
    [eexists; reflexivity|].
  destruct (String.eqb_spec s "log2") as [->|_]; [|eexists; reflexivity].
  assert (Hp : (feature_count X <=? 0) = false).
  { apply Z.leb_gt. unfold feature_count.
    destruct X; [exfalso; apply (Hlog eq_refl); reflexivity|simpl; lia]. }
  rewrite Hp. eexists; reflexivity.
Qed.

(** X17. A new forest trains: where the tree, the detectors and the
    generator return, a forest constructed with a drift detector object, a
    [lambda_value] that is not negative and a [max_features] that is no
    float returns from [partial_fit] on every batch with one label and one
    weight per row, whatever the ensemble size, the voting mode, the
    random draws and the detectors' signals; the policy ["log2"] needs
    rows with a feature. *)
Theorem new_forest_trains
    (nb : Z) (mf : PyValue D) (dwv : bool) (lam : Q) (metric : string)
    (d : D) (wdm : PyValue D) (na : option (list Z)) (rs : R)
    (X : list instance) (y : list label) (weight : list Q) :
  (0 <= lam)%Q ->
  (forall f, mf <> PyFloat f) ->
  List.length y = List.length X ->
  List.length weight = List.length X ->
  (mf = PyStr "log2" -> Forall (fun Xi => Xi <> []) X) ->
  exists self',
    AdaptiveRandomForest.partial_fit X (Some y) (Some weight)
      (AdaptiveRandomForest.__init__ (C:=C) nb mf dwv lam metric (PyObject d) wdm
         na rs)
    = Return tt self'.
Proof.
  intros _ Hfloat Hy Hw Hlog.
  destruct (partial_fit_batch_ready
              (AdaptiveRandomForest.__init__ (C:=C) nb mf dwv lam metric
                 (PyObject d) wdm na rs) X y weight Hy Hw)
    as (self' & Hrun & _).
  - intros Xi Hin. right. split; [discriminate|]. split; [reflexivity|].
    apply policy_ok_unless_log2; simpl; [exact Hfloat|]. intros Hmf.
    specialize (Hlog Hmf). rewrite Forall_forall in Hlog.
    apply Hlog. apply list_elem_of_In. exact Hin.
  - exists self'. exact Hrun.
Qed.

(** X18. A trained forest predicts: after [partial_fit] returned from a
    batch in which some weight is not zero, [predict] returns for every
    input, with one label per row. *)
Theorem trained_forest_predicts self (X : list instance) (y : list label)
    (weight : list Q) :
  List.length y = List.length X ->
  List.length weight = List.length X ->
  (forall Xi, In Xi X -> trainable self Xi) ->
  List.existsb Qnonzero weight = true ->
  exists self',
    AdaptiveRandomForest.partial_fit X (Some y) (Some weight) self
    = Return tt self'
    /\ forall X' : list instance,
         exists labels self'',
           AdaptiveRandomForest.predict X' self' = Return labels self''
           /\ List.length labels = List.length X'.
Proof.
  intros Hy Hw Hrows Hnz.
  destruct (partial_fit_batch_ready self X y weight Hy Hw Hrows)
    as (self' & Hrun & _ & Hready).
  exists self'. split; [exact Hrun|]. intros X'.
  destruct (forest_ready_initialised self' (Hready Hnz)) as (ls & Hens & Hlen).
  eexists _, self'.
  split; [apply (predict_initialised_run self' ls X' Hens Hlen)|].
  apply length_map.
Qed.

(** X19. A forest can be trained again after [reset]: [reset] returns,
    leaves no ensemble and zeroed counters, and, where the tree, the
    detectors and the generator return, on a forest configured with a
    drift detector and a [lambda_value] that is not negative every later
    batch with one label and one weight per row trains to its end,
    whatever the feature policy was. *)
Theorem reset_forest_trains_again self :
  AdaptiveRandomForest.drift_detection_method self <> None ->
  (0 <= AdaptiveRandomForest.lambda_value self)%Q ->
  exists self0,
    AdaptiveRandomForest.reset self = Return tt self0
    /\ AdaptiveRandomForest.ensemble self0 = None
    /\ AdaptiveRandomForest.instances_seen self0 = 0
    /\ (0 <= AdaptiveRandomForest.lambda_value self0)%Q
    /\ forall (X : list instance) (y : list label) (weight : list Q),
         List.length y = List.length X ->
         List.length weight = List.length X ->
         exists self',
           AdaptiveRandomForest.partial_fit X (Some y) (Some weight) self0
           = Return tt self'.
Proof.
  intros Hd Hlam. eexists. split; [reflexivity|].
  split; [destruct self; reflexivity|]. split; [destruct self; reflexivity|].
  split; [destruct self; exact Hlam|].
  intros X y weight Hy Hw.
  edestruct (partial_fit_batch_ready) as (self' & Hrun & _);
    [exact Hy|exact Hw| |exists self'; exact Hrun].
  intros Xi _. right.
  split; [destruct self; exact Hd|]. split; [destruct self; reflexivity|].
  exists 0. destruct self; reflexivity.
Qed.

End ForestLifeCycle.

Lemma set_max_features_in_range_and_stable_witness :
  exists size,
    AdaptiveRandomForest.max_features
      (AdaptiveRandomForest.set_max_features (PyInt 3) Sample.monitored_forest)
    = PyInt size
    /\ 1 <= size <= 10
    /\ AdaptiveRandomForest._set_max_features 10
         (AdaptiveRandomForest.set_max_features (PyInt 3) Sample.monitored_forest)
       = Return tt
           (AdaptiveRandomForest.set_max_features (PyInt 3) Sample.monitored_forest).
Proof.
  apply (set_max_features_in_range_and_stable Sample.monitored_forest
           (AdaptiveRandomForest.set_max_features (PyInt 3) Sample.monitored_forest)
           10); [lia|reflexivity].
Defined.

Lemma mismatched_weights_are_broadcast_witness :
  AdaptiveRandomForest.partial_fit Sample.two_rows (Some Sample.two_labels)
    (Some [5; 7; 9]%Q) Sample.monitored_forest
  = AdaptiveRandomForest.partial_fit Sample.two_rows (Some Sample.two_labels)
      (Some [5; 5]%Q) Sample.monitored_forest.
Proof.
  apply (proj1 (mismatched_weights_are_broadcast Sample.monitored_forest
                  Sample.two_rows Sample.two_labels [5; 7; 9]%Q
                  ltac:(discriminate)) 5%Q [7; 9]%Q).
  reflexivity.
Defined.

Lemma configuration_is_kept_witness :
  configured_as 2 false 6 (Some (Sample.detector 3)) (Some (Sample.detector 2)) None
    (final_state
       (AdaptiveRandomForest.partial_fit Sample.two_rows (Some Sample.two_labels)
          None Sample.monitored_forest)).
Proof.
  assert (Hinit : configured_as 2 false 6 (Some (Sample.detector 3))
                    (Some (Sample.detector 2)) None Sample.monitored_forest)
    by (unfold configured_as; simpl; tauto).
  destruct (proj2 (configuration_is_kept 2 false 6 (Some (Sample.detector 3))
                     (Some (Sample.detector 2)) None)
              Sample.monitored_forest Hinit) as (Hfit & _).
  exact (Hfit Sample.two_rows (Some Sample.two_labels) None).
Defined.

Lemma _partial_fit_returns_witness :
  exists self',
    AdaptiveRandomForest._partial_fit Sample.row10 1 1 Sample.monitored_forest
    = Return tt self'
    /\ forest_ready self'
    /\ AdaptiveRandomForest.instances_seen self' = 0 + 1
    /\ AdaptiveRandomForest._train_weight_seen_by_model self' = 0%Q.
Proof.
  apply (_partial_fit_returns Sample.row10 1 1%Q Sample.monitored_forest).
  right. split; [discriminate|]. split; [reflexivity|].
  exists 3. reflexivity.
Defined.

Lemma partial_fit_batch_returns_witness :
  exists self',
    AdaptiveRandomForest.partial_fit Sample.two_rows (Some Sample.two_labels)
      (Some [1; 0]%Q) Sample.monitored_forest
    = Return tt self'
    /\ (forall X', trainable Sample.monitored_forest X' -> trainable self' X')
    /\ (List.existsb Qnonzero [1; 0]%Q = true -> forest_ready self').
Proof.
  apply (partial_fit_batch_returns Sample.monitored_forest Sample.two_rows
           Sample.two_labels [1; 0]%Q); [reflexivity|reflexivity|].
  intros Xi [<-|[<-|[]]]; right;
    (split; [discriminate|]; split; [reflexivity|]; exists 3; reflexivity).
Defined.

Lemma partial_fit_counters_witness :
  AdaptiveRandomForest.instances_seen
    (final_state
       (AdaptiveRandomForest.partial_fit Sample.two_rows (Some Sample.two_labels)
          (Some [2; 0]%Q) Sample.monitored_forest))
  = 0 + trained_rows [2; 0]%Q
  /\ (AdaptiveRandomForest._train_weight_seen_by_model
        (final_state
           (AdaptiveRandomForest.partial_fit Sample.two_rows
              (Some Sample.two_labels) (Some [2; 0]%Q) Sample.monitored_forest))
      == 0 + Qsum [2; 0])%Q.
Proof.
  apply (partial_fit_counters Sample.monitored_forest _ Sample.two_rows
           Sample.two_labels [2; 0]%Q); [reflexivity|reflexivity|].
  vm_compute. reflexivity.
Defined.

Lemma predict_returns_a_label_per_row_witness :
  exists labels self',
    AdaptiveRandomForest.predict Sample.two_rows (Sample.two_voters false)
    = Return labels self'
    /\ List.length labels = List.length Sample.two_rows
    /\ initialised self'.
Proof.
  apply (predict_returns_a_label_per_row (Sample.two_voters false)
           Sample.two_rows).
  exists [Sample.voter50; Sample.voter150]. split; reflexivity.
Defined.

Lemma first_votes_build_the_ensemble_witness :
  exists combined_votes,
    AdaptiveRandomForest.get_votes_for_instance Sample.row10 Sample.monitored_forest
    = Return combined_votes
        (AdaptiveRandomForest.set_ensemble
           (Some
              [Some (ARFBaseLearner.__init__ 0
                       {| Sample.subsample := 3; Sample.observed := [] |} 0
                       ARFBaseClassifierEvaluator_class
                       (Some (Sample.detector 3)) (Some (Sample.detector 2)) false);
               Some (ARFBaseLearner.__init__ 1
                       {| Sample.subsample := 3; Sample.observed := [] |} 0
                       ARFBaseClassifierEvaluator_class
                       (Some (Sample.detector 3)) (Some (Sample.detector 2)) false)])
           (AdaptiveRandomForest.set_max_features (PyInt 3) Sample.monitored_forest)).
Proof.
  exact (first_votes_build_the_ensemble Sample.monitored_forest Sample.row10 3
           eq_refl eq_refl).
Defined.

Lemma failed_initialisation_is_kept_witness :
  AdaptiveRandomForest.get_votes_for_instance [] Sample.log2_forest
  = Raise ValueError
      (AdaptiveRandomForest.set_ensemble (Some [None; None]) Sample.log2_forest)
  /\ AdaptiveRandomForest.predict [Sample.row10]
       (AdaptiveRandomForest.set_ensemble (Some [None; None]) Sample.log2_forest)
     = Raise AttributeError
         (AdaptiveRandomForest.set_ensemble (Some [None; None]) Sample.log2_forest).
Proof.
  destruct (failed_initialisation_is_kept Sample.log2_forest [] ValueError)
    as (Hfirst & _ & Hpredict & _); [reflexivity|reflexivity|reflexivity|].
  split; [exact Hfirst|exact (Hpredict Sample.row10 [])].
Defined.

Lemma zero_performance_votes_are_void_witness :
  exists combined_votes,
    AdaptiveRandomForest.get_votes_for_instance Sample.row10 Sample.unproven
    = Return combined_votes Sample.unproven
    /\ Forall (fun kv => (kv.2 == 0)%Q) combined_votes
    /\ AdaptiveRandomForest.predict [Sample.row10] Sample.unproven
       = Return [match combined_votes with
                 | [] => 0
                 | (k, _) :: _ => k
                 end] Sample.unproven.
Proof.
  apply (zero_performance_votes_are_void Sample.unproven
           [Sample.voting_learner 0 [(2, 1%Q)] 0
              (Some (Sample.detector 3)) (Some (Sample.detector 2));
            Sample.voting_learner 1 [(1, 3%Q)] 0
              (Some (Sample.detector 3)) (Some (Sample.detector 2))]
           Sample.row10); [reflexivity|reflexivity|reflexivity|].
  repeat constructor.
Defined.

Lemma new_forest_trains_witness :
  exists self',
    AdaptiveRandomForest.partial_fit Sample.two_rows (Some Sample.two_labels)
      (Some [1; 1]%Q) Sample.monitored_forest
    = Return tt self'.
Proof.
  apply (new_forest_trains (C:=Sample.ClassCounts) 2 (PyStr "auto") false 6 "acc"
           (Sample.detector 3) (PyObject (Sample.detector 2)) None [1; 0; 2; 2]
           Sample.two_rows Sample.two_labels [1; 1]%Q);
    [discriminate|discriminate|reflexivity|reflexivity|discriminate].
Defined.

Lemma trained_forest_predicts_witness :
  exists self',
    AdaptiveRandomForest.partial_fit Sample.two_rows (Some Sample.two_labels)
      (Some [1; 0]%Q) Sample.monitored_forest
    = Return tt self'
    /\ forall X' : list instance,
         exists labels self'',
           AdaptiveRandomForest.predict X' self' = Return labels self''
           /\ List.length labels = List.length X'.
Proof.
  apply (trained_forest_predicts Sample.monitored_forest Sample.two_rows
           Sample.two_labels [1; 0]%Q); [reflexivity|reflexivity| |reflexivity].
  intros Xi [<-|[<-|[]]]; right;
    (split; [discriminate|]; split; [reflexivity|]; exists 3; reflexivity).
Defined.

Lemma reset_forest_trains_again_witness :
  exists self0,
    AdaptiveRandomForest.reset (Sample.two_voters false) = Return tt self0
    /\ AdaptiveRandomForest.ensemble self0 = None
    /\ AdaptiveRandomForest.instances_seen self0 = 0
    /\ (0 <= AdaptiveRandomForest.lambda_value self0)%Q
    /\ forall (X : list instance) (y : list label) (weight : list Q),
         List.length y = List.length X ->
         List.length weight = List.length X ->
         exists self',
           AdaptiveRandomForest.partial_fit X (Some y) (Some weight) self0
           = Return tt self'.
Proof.
  apply (reset_forest_trains_again (Sample.two_voters false)); discriminate.
Defined.
